(** * PDF invoice extraction service: a shallow embedding of the API backend

    The development follows the TypeScript sources of the API:
    - [services/aiService.ts] (the caching variant with quota handling):
      [createTextHash], [cleanJsonResponse], [extractWithGemini],
      [getFallbackData], [extractDataFromPDF] and [ExtractedDataSchema];
    - [utils/quotaHelper.ts]: [getQuotaInfo], [getQuotaUsageEstimate],
      [shouldUseFallback];
    - [routes/extract.ts]: the [POST /api/extract] handler;
    - [routes/invoices.ts]: the list and create handlers.

    JavaScript strings are sequences of UTF-16 code units, numbers are
    IEEE 754 binary64 values ([spec_float]), a [Map] is a [gmap], thrown
    values are returned as data.  The built-ins [JSON.parse] and
    [JSON.stringify], the clock, the environment, the model SDK, [fetch]
    and [pdf-parse] are fields of a [Runtime] record.  The numbers of the
    list handler hold an integer or are infinite ([Integral.t]), and what
    the source leaves to the database engine is a parameter
    ([RegexEngine], [Engine.t]). *)

From Stdlib Require Import ZArith NArith Lia List Ascii String Bool.
From Stdlib Require Import Floats.SpecFloat.
From stdpp Require Import base option list gmap pretty.

Local Open Scope Z_scope.

(* ================================================================== *)
(** ** JavaScript strings and the string built-ins the code uses       *)
(* ================================================================== *)

Module Js.

(** A string is the list of its UTF-16 code units. *)
Abbreviation jsstring := (list N).

(** ASCII literals. *)
Definition js (s : string) : jsstring :=
  map N_of_ascii (list_ascii_of_string s).

Definition LF : jsstring := [10%N].
Definition DQUOTE : jsstring := [34%N].

(** [\s] of a regular expression and the characters removed by
    [String.prototype.trim]: WhiteSpace and LineTerminator. *)
Definition is_space (c : N) : bool :=
  ((9 <=? c) && (c <=? 13) || (c =? 32) || (c =? 160) || (c =? 5760)
   || (8192 <=? c) && (c <=? 8202) || (c =? 8232) || (c =? 8233)
   || (c =? 8239) || (c =? 8287) || (c =? 12288) || (c =? 65279))%N.

Fixpoint trimStart (s : jsstring) : jsstring :=
  match s with
  | c :: rest => if is_space c then trimStart rest else s
  | [] => []
  end.

Definition trimEnd (s : jsstring) : jsstring := rev (trimStart (rev s)).

(** [s.trim()] *)
Definition trim (s : jsstring) : jsstring := trimEnd (trimStart s).

Definition eqb (a b : jsstring) : bool := bool_decide (a = b).

(** [s.startsWith(p)] *)
Fixpoint startsWith (s p : jsstring) {struct p} : bool :=
  match p, s with
  | [], _ => true
  | _ :: _, [] => false
  | a :: p', b :: s' => (a =? b)%N && startsWith s' p'
  end.

(** [s.includes(p)] *)
Fixpoint includes (s p : jsstring) : bool :=
  startsWith s p ||
  match s with
  | [] => false
  | _ :: rest => includes rest p
  end.

(** [p] occurs in [s]: the meaning of [s.includes(p)]. *)
Definition occursIn (p s : jsstring) : Prop :=
  exists pre post, s = pre ++ p ++ post.

(** [s.replace(/lit\s*/g, '')] for a non-empty literal [lit]: every
    match, scanned left to right, is deleted together with the white space
    that follows it.  Each step consumes a character, so [length s] steps
    are enough. *)
Fixpoint removeAll_go (lit : jsstring) (fuel : nat) (s : jsstring) : jsstring :=
  match fuel with
  | O => s
  | S fuel' =>
      match s with
      | [] => []
      | c :: rest =>
          if startsWith s lit
          then removeAll_go lit fuel' (trimStart (drop (length lit) s))
          else c :: removeAll_go lit fuel' rest
      end
  end.

Definition removeAll (lit : jsstring) (s : jsstring) : jsstring :=
  removeAll_go lit (length s) s.

(** A value is falsy when it is the empty string ([!s]). *)
Definition truthy (s : jsstring) : bool :=
  match s with [] => false | _ => true end.

(** [ToInt32]: what [x & x] and [x << n] do to a number that holds an
    integer. *)
Definition ToInt32 (z : Z) : Z := (z + 2 ^ 31) mod 2 ^ 32 - 2 ^ 31.

(** [n.toString()] for an integer. *)
Definition toString (z : Z) : jsstring := js (pretty z).

(** What [parseInt(s)] without a radix reads: leading white space, an
    optional sign, an optional [0x]/[0X] prefix, then the longest run of
    digits.  [mathInt] is the integer read, before it becomes a [Number];
    [None] when there is no digit. *)
Definition digit_value (radix : Z) (c : N) : option Z :=
  let d :=
    if ((48 <=? c) && (c <=? 57))%N then Some (Z.of_N c - 48)
    else if ((97 <=? c) && (c <=? 122))%N then Some (Z.of_N c - 87)
    else if ((65 <=? c) && (c <=? 90))%N then Some (Z.of_N c - 55)
    else None in
  match d with
  | Some v => if v <? radix then Some v else None
  | None => None
  end.

Fixpoint digits_go (radix : Z) (acc : option Z) (s : jsstring) : option Z :=
  match s with
  | [] => acc
  | c :: rest =>
      match digit_value radix c with
      | Some v => digits_go radix (Some (default 0 acc * radix + v)) rest
      | None => acc
      end
  end.

Definition mathInt (input : jsstring) : option Z :=
  let s := trimStart input in
  let '(sign, s) :=
    match s with
    | 45%N :: rest => (-1, rest)
    | 43%N :: rest => (1, rest)
    | _ => (1, s)
    end in
  let '(radix, s) :=
    match s with
    | 48%N :: 120%N :: rest => (16, rest)
    | 48%N :: 88%N :: rest => (16, rest)
    | _ => (10, s)
    end in
  (fun v => sign * v) <$> digits_go radix None s.

End Js.
Export Js.

(* ================================================================== *)
(** ** Numbers and JSON values                                         *)
(* ================================================================== *)

Module Number.

(** A JavaScript number is a binary64 value. *)
Abbreviation number := spec_float.

Definition prec : Z := 53.
Definition emax : Z := 1024.

Definition valid (x : number) : bool := valid_binary prec emax x.

(** The number that an integer literal denotes. *)
Definition of_Z (z : Z) : number := binary_normalize prec emax z 0 false.

Definition mul (x y : number) : number := SFmul prec emax x y.

Definition isNaN (x : number) : bool :=
  match x with S754_nan => true | _ => false end.

(** [Math.floor] of a finite number, as the integer it denotes; [None]
    for [NaN] and the infinities. *)
Definition floor (x : number) : option Z :=
  match x with
  | S754_zero _ => Some 0
  | S754_finite s m e =>
      let n := if s then Z.neg m else Z.pos m in
      Some (if 0 <=? e then n * 2 ^ e else n / 2 ^ (- e))
  | _ => None
  end.

(** The state of the shifter of [SpecFloat.shr] after [k] steps from the
    mantissa [M]: the quotient by [2^k], with the round bit set only if
    the remainder is at least half of [2^k]. *)
Definition shifted (M k : Z) (mrs : shr_record) : Prop :=
  shr_m mrs = M / 2 ^ k
  /\ (shr_r mrs = true -> 2 ^ k <= 2 * (M mod 2 ^ k)).

End Number.
Export Number.

(** The numbers the list handler computes with hold an integer or are
    infinite. *)
Module Integral.

Inductive t :=
| Fin (z : Z)               (* a number that holds the integer [z] *)
| Inf (negative : bool).    (* [Infinity] and [-Infinity] *)

(** The number nearest to an integer, ties to even.  An integer below
    [2^53] in magnitude is a number itself; a larger one is rounded to 53
    significant bits, and to an infinity from [2^1024 - 2^970] on. *)
Definition round (z : Z) : t :=
  if Z.abs z <? 2 ^ 53 then Fin z
  else match Number.floor (of_Z z) with
       | Some v => Fin v
       | None => Inf (z <? 0)
       end.

(** [x - 1] *)
Definition minus_one (x : t) : t :=
  match x with
  | Fin z => round (z - 1)
  | Inf s => Inf s
  end.

(** [x * y]; [None] is [NaN], the product of zero and an infinity. *)
Definition times (x y : t) : option t :=
  match x, y with
  | Fin a, Fin b => Some (round (a * b))
  | Fin a, Inf s | Inf s, Fin a =>
      if a =? 0 then None else Some (Inf (xorb (a <? 0) s))
  | Inf s, Inf s' => Some (Inf (xorb s s'))
  end.

End Integral.

(** [parseInt(s)] without a radix: the number nearest to the integer
    read, as V8 returns it (ECMAScript lets an implementation approximate a
    decimal reading of more than 20 significant digits); [None] is [NaN]. *)
Definition parseInt (input : jsstring) : option Integral.t :=
  Integral.round <$> mathInt input.

Module Json.

#[local] Set Warnings "-register-all".

(** What [JSON.parse] returns.  An object is the list of its own
    properties in insertion order. *)
Inductive json : Type :=
| JNull
| JBool (b : bool)
| JNum (n : number)
| JStr (s : jsstring)
| JArr (items : list json)
| JObj (props : list (jsstring * json)).

(** [o[k]] on the property list of an object; [None] is [undefined]. *)
Fixpoint getProp (k : jsstring) (props : list (jsstring * json)) : option json :=
  match props with
  | [] => None
  | (k', v) :: rest => if Js.eqb k k' then Some v else getProp k rest
  end.

(** [o[k] = v]: overwrite in place, or append a new property. *)
Fixpoint setProp (k : jsstring) (v : json) (props : list (jsstring * json))
  : list (jsstring * json) :=
  match props with
  | [] => [(k, v)]
  | (k', v') :: rest =>
      if Js.eqb k k' then (k, v) :: rest else (k', v') :: setProp k v rest
  end.

(** [x.k] for a parsed value [x] that is not [null]: only objects carry
    the properties the code reads. *)
Definition member (x : json) (k : jsstring) : option json :=
  match x with
  | JObj props => getProp k props
  | _ => None
  end.

End Json.
Export Json.

(* ================================================================== *)
(** ** The data model                                                  *)
(* ================================================================== *)

Module LineItem.
Record t := mk {
  description : jsstring;
  unitPrice : number;
  quantity : number;
  total : number
}.
End LineItem.

Module Vendor.
Record t := mk {
  name : jsstring;
  address : option jsstring;
  taxId : option jsstring
}.
End Vendor.

(** [invoice] block of [ExtractedData]: the currency is always there. *)
Module InvoiceData.
Record t := mk {
  number : jsstring;
  date : jsstring;
  currency : jsstring;
  subtotal : option Number.number;
  taxPercent : option Number.number;
  total : option Number.number;
  poNumber : option jsstring;
  poDate : option jsstring;
  lineItems : list LineItem.t
}.
End InvoiceData.

Module ExtractedData.
Record t := mk {
  vendor : Vendor.t;
  invoice : InvoiceData.t
}.
End ExtractedData.

(* ================================================================== *)
(** ** The part of zod the schemas use                                 *)
(* ================================================================== *)

Module Zod.

Inductive ParsedType :=
| TUndefined | TNull | TBoolean | TNumber | TNan | TString | TArray | TObject.

Definition getParsedType (v : option json) : ParsedType :=
  match v with
  | None => TUndefined
  | Some JNull => TNull
  | Some (JBool _) => TBoolean
  | Some (JNum n) => if isNaN n then TNan else TNumber
  | Some (JStr _) => TString
  | Some (JArr _) => TArray
  | Some (JObj _) => TObject
  end.

Inductive PathSeg := Key (k : jsstring) | Index (i : nat).

Inductive IssueCode := invalid_type_code | invalid_enum_value_code.

Record ZodIssue := mkIssue {
  code : IssueCode;
  path : list PathSeg;
  expected : ParsedType;
  received : ParsedType
}.

(** The result of [safeParse]: the parsed data, or every issue found. *)
Inductive SafeParse (A : Type) : Type :=
| Success (data : A)
| Failure (issues : list ZodIssue).
Arguments Success {A} data.
Arguments Failure {A} issues.

(** A schema parses the value found at a path; [None] is [undefined]. *)
Definition Schema (A : Type) : Type := list PathSeg -> option json -> SafeParse A.

Definition invalid_type {A} (p : list PathSeg) (want : ParsedType) (v : option json)
  : SafeParse A :=
  Failure [mkIssue invalid_type_code p want (getParsedType v)].

Definition map {A B} (f : A -> B) (r : SafeParse A) : SafeParse B :=
  match r with
  | Success a => Success (f a)
  | Failure i => Failure i
  end.

(** Issues of all the keys of an object are collected. *)
Definition ap {A B} (rf : SafeParse (A -> B)) (ra : SafeParse A) : SafeParse B :=
  match rf, ra with
  | Success f, Success a => Success (f a)
  | Success _, Failure i => Failure i
  | Failure i, Success _ => Failure i
  | Failure i, Failure j => Failure (i ++ j)
  end.

Notation "f <*> x" := (ap f x) (at level 61, left associativity).

(** [z.string()] *)
Definition z_string : Schema jsstring := fun p v =>
  match v with
  | Some (JStr s) => Success s
  | _ => invalid_type p TString v
  end.

(** [z.number()] *)
Definition z_number : Schema Number.number := fun p v =>
  match v with
  | Some (JNum n) => if isNaN n then invalid_type p TNumber v else Success n
  | _ => invalid_type p TNumber v
  end.

(** [z.enum([lit])] with a single member. *)
Definition z_enum1 (lit : jsstring) : Schema jsstring := fun p v =>
  match v with
  | Some (JStr s) =>
      if Js.eqb s lit then Success s
      else Failure [mkIssue invalid_enum_value_code p TString TString]
  | _ => invalid_type p TString v
  end.

(** [s.optional()]: [undefined] is accepted and kept. *)
Definition z_optional {A} (s : Schema A) : Schema (option A) := fun p v =>
  match v with
  | None => Success None
  | Some _ => map Some (s p v)
  end.

(** [s.nullable()]: [null] is accepted and kept. *)
Definition z_nullable {A} (s : Schema A) : Schema (option A) := fun p v =>
  match v with
  | Some JNull => Success None
  | _ => map Some (s p v)
  end.

(** [s.transform(f)] *)
Definition z_transform {A B} (s : Schema A) (f : A -> B) : Schema B := fun p v =>
  map f (s p v).

Fixpoint array_items {A} (s : Schema A) (p : list PathSeg) (i : nat) (items : list json)
  : SafeParse (list A) :=
  match items with
  | [] => Success []
  | x :: rest => Success cons <*> s (p ++ [Index i]) (Some x) <*> array_items s p (S i) rest
  end.

(** [z.array(s)] *)
Definition z_array {A} (s : Schema A) : Schema (list A) := fun p v =>
  match v with
  | Some (JArr items) => array_items s p 0 items
  | _ => invalid_type p TArray v
  end.

(** [z.object({...})]: the value must be an object; [shape] then parses
    its keys.  Unknown keys are dropped. *)
Definition z_object {A} (shape : list PathSeg -> list (jsstring * json) -> SafeParse A)
  : Schema A := fun p v =>
  match v with
  | Some (JObj props) => shape p props
  | _ => invalid_type p TObject v
  end.

(** The key [k] of an object parsed with schema [s]. *)
Definition field {A} (k : string) (s : Schema A) (p : list PathSeg)
  (props : list (jsstring * json)) : SafeParse A :=
  s (p ++ [Key (js k)]) (getProp (js k) props).

End Zod.

(** [val || 'INR'] on a value that is a string, [null] or [undefined]. *)
Definition or_INR (val : option (option jsstring)) : jsstring :=
  match val with
  | Some (Some s) => if truthy s then s else js "INR"
  | _ => js "INR"
  end.

(** [ExtractedDataSchema] of [aiService.ts]. *)
Module ExtractedDataSchema.
Import Zod.

Definition lineItem : Schema LineItem.t :=
  z_object (fun p o =>
    Success LineItem.mk
      <*> field "description" z_string p o
      <*> field "unitPrice" z_number p o
      <*> field "quantity" z_number p o
      <*> field "total" z_number p o).

Definition vendor : Schema Vendor.t :=
  z_object (fun p o =>
    Success Vendor.mk
      <*> field "name" z_string p o
      <*> field "address" (z_optional z_string) p o
      <*> field "taxId" (z_optional z_string) p o).

Definition invoice : Schema InvoiceData.t :=
  z_object (fun p o =>
    Success InvoiceData.mk
      <*> field "number" z_string p o
      <*> field "date" z_string p o
      <*> field "currency" (z_transform (z_optional (z_nullable z_string)) or_INR) p o
      <*> field "subtotal" (z_optional z_number) p o
      <*> field "taxPercent" (z_optional z_number) p o
      <*> field "total" (z_optional z_number) p o
      <*> field "poNumber" (z_optional z_string) p o
      <*> field "poDate" (z_optional z_string) p o
      <*> field "lineItems" (z_array lineItem) p o).

Definition schema : Schema ExtractedData.t :=
  z_object (fun p o =>
    Success ExtractedData.mk
      <*> field "vendor" vendor p o
      <*> field "invoice" invoice p o).

(** [ExtractedDataSchema.parse(data)] *)
Definition parse (data : json) : SafeParse ExtractedData.t := schema [] (Some data).

End ExtractedDataSchema.

(* ================================================================== *)
(** ** Thrown values and the runtime the code runs in                  *)
(* ================================================================== *)

Module Error.
(** An [Error] instance, as far as the code looks at it. *)
Record t := mk { name : jsstring; message : jsstring }.
End Error.

Inductive Thrown :=
| Err (e : Error.t)                       (* an [Error] that is not a [ZodError] *)
| ZodError (issues : list Zod.ZodIssue)
| NotAnError.                             (* any other thrown value *)

Inductive Outcome (A : Type) : Type :=
| Returned (a : A)
| Threw (e : Thrown).
Arguments Returned {A} a.
Arguments Threw {A} e.

Module FetchResponse.
Record t := mk { ok : bool; statusText : jsstring; arrayBuffer : list N }.
End FetchResponse.

Module Runtime.
Record t := mk {
  (** [process.env.GEMINI_API_KEY] *)
  GEMINI_API_KEY : option jsstring;
  (** [new Date().toISOString().split('T')[0]] *)
  today : jsstring;
  (** [JSON.parse]; it throws a [SyntaxError]. *)
  JSON_parse : jsstring -> Outcome json;
  JSON_stringify : json -> jsstring;
  (** [message] of a [ZodError] *)
  ZodError_message : list Zod.ZodIssue -> jsstring;
  (** The [n]-th call of [model.generateContent(prompt)], followed by
      [response.text()]. *)
  generateContent : nat -> jsstring -> Outcome jsstring;
  fetch : jsstring -> Outcome FetchResponse.t;
  (** [UploadService.getFilePath] followed by [readFile]; [None] when
      either throws. *)
  readLocalFile : jsstring -> option (list N);
  (** [pdf-parse]: the text of a document. *)
  pdf : list N -> Outcome jsstring
}.
End Runtime.

(** [error instanceof Error], with the name and message it then has. *)
Definition asError (rt : Runtime.t) (error : Thrown) : option Error.t :=
  match error with
  | Err e => Some e
  | ZodError issues => Some (Error.mk (js "ZodError") (Runtime.ZodError_message rt issues))
  | NotAnError => None
  end.

(** [error instanceof Error ? error.message : 'Unknown error'] *)
Definition messageOrUnknown (rt : Runtime.t) (error : Thrown) : jsstring :=
  match asError rt error with
  | Some e => Error.message e
  | None => js "Unknown error"
  end.

(** The calls made to the model so far, oldest first. *)
Module World.
Record t := mk { upstreamCalls : list jsstring }.
Definition initial : t := mk [].
End World.

(* ================================================================== *)
(** ** services/aiService.ts                                           *)
(* ================================================================== *)

Module AIService.

(** The instance state: [private cache: Map<string, ExtractedData>]. *)
Record t := mk { cache : gmap jsstring ExtractedData.t }.

(** [new AIService()] *)
Definition new : t := mk ∅.

(** The document substituted for an empty reply. *)
Definition defaultDocument (today : jsstring) : json :=
  JObj [
    (js "vendor", JObj [
      (js "name", JStr (js "Unknown Vendor"));
      (js "address", JStr []);
      (js "taxId", JStr []) ]);
    (js "invoice", JObj [
      (js "number", JStr (js "Unknown"));
      (js "date", JStr today);
      (js "currency", JStr (js "INR"));
      (js "subtotal", JNum (of_Z 0));
      (js "taxPercent", JNum (of_Z 18));
      (js "total", JNum (of_Z 0));
      (js "poNumber", JStr []);
      (js "poDate", JStr today);
      (js "lineItems", JArr []) ]) ].

(** [if (parsed.invoice && parsed.invoice.currency === null)
       parsed.invoice.currency = "INR"].
    Reading [parsed.invoice] throws a [TypeError] when [parsed] is [null]
    ([None] here). *)
Definition fixNullCurrency (parsed : json) : option json :=
  match parsed with
  | JNull => None
  | JObj props =>
      match getProp (js "invoice") props with
      | Some (JObj inv) =>
          match getProp (js "currency") inv with
          | Some JNull =>
              Some (JObj (setProp (js "invoice")
                            (JObj (setProp (js "currency") (JStr (js "INR")) inv)) props))
          | _ => Some parsed
          end
      | _ => Some parsed
      end
  | _ => Some parsed
  end.

(** [text.replace(/```json\s*/g, '').replace(/```\s*/g, '')] and [trim()] *)
Definition stripFences (text : jsstring) : jsstring :=
  trim (removeAll (js "```") (removeAll (js "```json") text)).

Definition cleanJsonResponse (rt : Runtime.t) (text : jsstring) : jsstring :=
  let cleaned := stripFences text in
  if negb (truthy cleaned) || Js.eqb cleaned (js "{}") then
    Runtime.JSON_stringify rt (defaultDocument (Runtime.today rt))
  else
    match Runtime.JSON_parse rt cleaned with
    | Returned parsed =>
        match fixNullCurrency parsed with
        | Some parsed' => Runtime.JSON_stringify rt parsed'
        | None => cleaned
        end
    | Threw _ => cleaned
    end.

(** The template text before [${pdfText}]. *)
Definition prompt_head : jsstring :=
  concat [
    LF;
    js "You are an AI assistant specialized in extracting structured data from invoice PDFs. "; LF;
    js "Extract the following information from the provided PDF text and return it as a valid JSON object.";
    LF;
    LF;
    js "PDF Text:"; LF ].

(** The template text after [${pdfText}]: the target structure and the
    extraction rules. *)
Definition prompt_tail : jsstring :=
  concat [
    LF;
    LF;
    js "Please extract and return ONLY a JSON object with this exact structure:"; LF;
    js "{"; LF;
    js "  "; DQUOTE; js "vendor"; DQUOTE; js ": {"; LF;
    js "    "; DQUOTE; js "name"; DQUOTE; js ": "; DQUOTE; js "string (required)"; DQUOTE; js ",";
    LF;
    js "    "; DQUOTE; js "address"; DQUOTE; js ": "; DQUOTE; js "string (optional)"; DQUOTE;
    js ","; LF;
    js "    "; DQUOTE; js "taxId"; DQUOTE; js ": "; DQUOTE; js "string (optional)"; DQUOTE; LF;
    js "  },"; LF;
    js "  "; DQUOTE; js "invoice"; DQUOTE; js ": {"; LF;
    js "    "; DQUOTE; js "number"; DQUOTE; js ": "; DQUOTE; js "string (required)"; DQUOTE; js ",";
    LF;
    js "    "; DQUOTE; js "date"; DQUOTE; js ": "; DQUOTE;
    js "string (required, format: YYYY-MM-DD)"; DQUOTE; js ","; LF;
    js "    "; DQUOTE; js "currency"; DQUOTE; js ": "; DQUOTE;
    js "string (optional, default: USD - look for currency symbols "; [8377%N]; js ", $, ";
    [8364%N]; js ", "; [163%N]; js ", "; [165%N]; js " or codes INR, USD, EUR, GBP, JPY)"; DQUOTE;
    js ","; LF;
    js "    "; DQUOTE; js "subtotal"; DQUOTE; js ": "; DQUOTE; js "number (optional)"; DQUOTE;
    js ","; LF;
    js "    "; DQUOTE; js "taxPercent"; DQUOTE; js ": "; DQUOTE;
    js "number (optional - look for IGST rate, GST rate, tax percentage, or similar)"; DQUOTE;
    js ","; LF;
    js "    "; DQUOTE; js "total"; DQUOTE; js ": "; DQUOTE; js "number (optional)"; DQUOTE; js ",";
    LF;
    js "    "; DQUOTE; js "poNumber"; DQUOTE; js ": "; DQUOTE;
    js "string (optional - look for PO No, Purchase Order No, P.O. No)"; DQUOTE; js ","; LF;
    js "    "; DQUOTE; js "poDate"; DQUOTE; js ": "; DQUOTE;
    js "string (optional, format: YYYY-MM-DD - look for PO Date, Purchase Order Date, P.O. Date)";
    DQUOTE; js ","; LF;
    js "    "; DQUOTE; js "lineItems"; DQUOTE; js ": ["; LF;
    js "      {"; LF;
    js "        "; DQUOTE; js "description"; DQUOTE; js ": "; DQUOTE; js "string (required)";
    DQUOTE; js ","; LF;
    js "        "; DQUOTE; js "unitPrice"; DQUOTE; js ": "; DQUOTE; js "number (required)"; DQUOTE;
    js ","; LF;
    js "        "; DQUOTE; js "quantity"; DQUOTE; js ": "; DQUOTE; js "number (required)"; DQUOTE;
    js ","; LF;
    js "        "; DQUOTE; js "total"; DQUOTE; js ": "; DQUOTE; js "number (required)"; DQUOTE; LF;
    js "      }"; LF;
    js "    ]"; LF;
    js "  }"; LF;
    js "}"; LF;
    LF;
    js "IMPORTANT EXTRACTION NOTES:"; LF;
    LF;
    js "TAX EXTRACTION:"; LF;
    js "- Look for "; DQUOTE; js "IGST rate"; DQUOTE; js ", "; DQUOTE; js "GST rate"; DQUOTE;
    js ", "; DQUOTE; js "Tax %"; DQUOTE; js ", "; DQUOTE; js "Tax Rate"; DQUOTE; js ", "; DQUOTE;
    js "VAT rate"; DQUOTE; js ", or similar terms"; LF;
    js "- Extract the percentage value (e.g., if you see "; DQUOTE; js "IGST @ 18%"; DQUOTE;
    js ", extract 18)"; LF;
    js "- If multiple tax rates are mentioned, use the main/primary rate"; LF;
    js "- Convert percentage to decimal if needed (e.g., 18% = 18, not 0.18)"; LF;
    LF;
    js "PURCHASE ORDER (PO) EXTRACTION:"; LF;
    js "- Look for "; DQUOTE; js "PO Date"; DQUOTE; js ", "; DQUOTE; js "Purchase Order Date";
    DQUOTE; js ", "; DQUOTE; js "P.O. Date"; DQUOTE; js ", "; DQUOTE; js "Order Date"; DQUOTE;
    js ", "; DQUOTE; js "PO No"; DQUOTE; js ", "; DQUOTE; js "Purchase Order No"; DQUOTE; js ", ";
    DQUOTE; js "P.O. No"; DQUOTE; LF;
    js "- Extract PO number and date from these fields"; LF;
    js "- For dates, convert to YYYY-MM-DD format"; LF;
    js "- Look for patterns like "; DQUOTE; js "PO: 12345"; DQUOTE; js " or "; DQUOTE;
    js "Purchase Order: ABC-2024-001"; DQUOTE; LF;
    LF;
    js "       CURRENCY EXTRACTION:"; LF;
    js "       - Look for currency symbols like "; DQUOTE; [8377%N]; DQUOTE; js ", "; DQUOTE;
    js "$"; DQUOTE; js ", "; DQUOTE; [8364%N]; DQUOTE; js ", "; DQUOTE; [163%N]; DQUOTE; js ", ";
    DQUOTE; [165%N]; DQUOTE; js ", "; DQUOTE; js "INR"; DQUOTE; js ", "; DQUOTE; js "USD"; DQUOTE;
    js ", "; DQUOTE; js "EUR"; DQUOTE; js ", "; DQUOTE; js "GBP"; DQUOTE; js ", "; DQUOTE; js "JPY";
    DQUOTE; LF;
    js "       - Look for text like "; DQUOTE; js "Currency:"; DQUOTE; js ", "; DQUOTE;
    js "Amount in:"; DQUOTE; js ", "; DQUOTE; js "Total in:"; DQUOTE; js ", "; DQUOTE; js "INR";
    DQUOTE; js ", "; DQUOTE; js "USD"; DQUOTE; js ", "; DQUOTE; js "EUR"; DQUOTE; js ", "; DQUOTE;
    js "GBP"; DQUOTE; LF;
    js "       - Extract the currency code (e.g., INR, USD, EUR) or symbol"; LF;
    js "       - If you see "; DQUOTE; [8377%N]; DQUOTE; js " symbol or "; DQUOTE; js "INR"; DQUOTE;
    js " mentioned, use "; DQUOTE; js "INR"; DQUOTE; LF;
    js "       - If you see "; DQUOTE; js "$"; DQUOTE; js " symbol or "; DQUOTE; js "USD"; DQUOTE;
    js " mentioned, use "; DQUOTE; js "USD"; DQUOTE; LF;
    js "       - If no currency is found, use "; DQUOTE; js "INR"; DQUOTE;
    js " (default for Indian invoices)"; LF;
    js "       - Common patterns: "; DQUOTE; [8377%N]; js " 1000"; DQUOTE; js ", "; DQUOTE;
    js "$1000"; DQUOTE; js ", "; DQUOTE; js "INR 1000"; DQUOTE; js ", "; DQUOTE; js "Amount in USD";
    DQUOTE; LF;
    js "       - NEVER return null for currency - always provide a valid currency code"; LF;
    LF;
    js "CRITICAL INSTRUCTIONS:"; LF;
    js "- Return ONLY the JSON object, no markdown formatting, no code blocks"; LF;
    js "- Do NOT wrap the response in ```json or ```"; LF;
    js "- If a field is not found, omit it (don't use null)"; LF;
    js "- For dates, use YYYY-MM-DD format"; LF;
    js "- For numbers, use actual numbers, not strings"; LF;
    js "- Extract all line items from the invoice"; LF;
    js "- Be accurate and conservative - if unsure, omit the field"; LF;
    js "- The response must be valid JSON that can be parsed directly"; LF ].

Definition createExtractionPrompt (pdfText : jsstring) : jsstring :=
  prompt_head ++ pdfText ++ prompt_tail.

Definition quotaExceededMessage : jsstring :=
  js "Gemini API quota exceeded. You have reached the free tier limit of 50 requests per day. Please try again tomorrow or upgrade to a paid plan.".

Definition invalidKeyMessage : jsstring :=
  js "Invalid or missing Gemini API key. Please check your GEMINI_API_KEY environment variable.".

(** The [catch] block of [extractWithGemini]: what is thrown in place of
    [error]. *)
Definition rethrowUpstream (error : Thrown) : Thrown :=
  match error with
  | Err e =>
      if truthy (Error.message e) && includes (Error.message e) (js "429 Too Many Requests")
      then Err (Error.mk (js "QuotaExceededError") quotaExceededMessage)
      else if truthy (Error.message e) && includes (Error.message e) (js "API key")
      then Err (Error.mk (js "Error") invalidKeyMessage)
      else error
  | _ => error
  end.

Definition extractWithGemini (rt : Runtime.t) (prompt : jsstring) (w : World.t)
  : Outcome jsstring * World.t :=
  let n := length (World.upstreamCalls w) in
  let w' := World.mk (World.upstreamCalls w ++ [prompt]) in
  match Runtime.generateContent rt n prompt with
  | Returned text => (Returned text, w')
  | Threw error => (Threw (rethrowUpstream error), w')
  end.

(** One turn of the loop of [createTextHash]:
    [hash = ((hash << 5) - hash) + char; hash = hash & hash]. *)
Definition hashStep (hash : Z) (char : N) : Z :=
  ToInt32 (ToInt32 (hash * 2 ^ 5) - hash + Z.of_N char).

Definition createTextHash (text : jsstring) : jsstring :=
  toString (fold_left hashStep text 0).

Definition getFallbackData (rt : Runtime.t) : ExtractedData.t :=
  ExtractedData.mk
    (Vendor.mk
       (js "Vendor Name (Quota Exceeded)")
       (Some (js "Please try again tomorrow or upgrade your API plan"))
       (Some []))
    (InvoiceData.mk
       (js "INV-QUOTA-EXCEEDED")
       (Runtime.today rt)
       (js "INR")
       (Some (of_Z 0))
       (Some (of_Z 18))
       (Some (of_Z 0))
       (Some [])
       (Some (Runtime.today rt))
       [LineItem.mk (js "API quota exceeded - please try again tomorrow")
          (of_Z 0) (of_Z 1) (of_Z 0)]).

(** [!process.env.GEMINI_API_KEY] *)
Definition keyMissing (rt : Runtime.t) : bool :=
  match Runtime.GEMINI_API_KEY rt with
  | Some k => negb (truthy k)
  | None => true
  end.

(** From the reply of the model to the validated record: the statements
    of [extractDataFromPDF] between the model call and the cache update. *)
Definition validateResponse (rt : Runtime.t) (extractedText : jsstring)
  : Outcome ExtractedData.t :=
  let cleanedText := cleanJsonResponse rt extractedText in
  match Runtime.JSON_parse rt cleanedText with
  | Threw error => Threw error
  | Returned parsedData =>
      match ExtractedDataSchema.parse parsedData with
      | Zod.Failure issues => Threw (ZodError issues)
      | Zod.Success validatedData => Returned validatedData
      end
  end.

(** The properties of [data.invoice], when that is an object. *)
Definition invoiceProps (data : json) : option (list (jsstring * json)) :=
  match member data (js "invoice") with
  | Some (JObj inv) => Some inv
  | _ => None
  end.

(** The parsed reply has [invoice.currency] explicitly [null], or has an
    [invoice] without [currency]. *)
Definition currencyNullOrAbsent (parsed : json) : Prop :=
  exists inv, invoiceProps parsed = Some inv /\
    (getProp (js "currency") inv = Some JNull \/ getProp (js "currency") inv = None).

(** [JSON.parse] gives back the value [JSON.stringify] was applied to. *)
Definition roundTrips (rt : Runtime.t) (v : json) : Prop :=
  Runtime.JSON_parse rt (Runtime.JSON_stringify rt v) = Returned v.

(** The [try] block of [extractDataFromPDF], after the cache miss. *)
Definition extractUncached (rt : Runtime.t) (this : t) (textHash prompt : jsstring)
  (w : World.t) : Outcome ExtractedData.t * t * World.t :=
  if keyMissing rt then
    (Threw (Err (Error.mk (js "Error") (js "GEMINI_API_KEY not configured"))), this, w)
  else
    match extractWithGemini rt prompt w with
    | (Threw error, w') => (Threw error, this, w')
    | (Returned extractedText, w') =>
        match validateResponse rt extractedText with
        | Threw error => (Threw error, this, w')
        | Returned validatedData =>
            (Returned validatedData,
             mk (<[textHash := validatedData]> (cache this)), w')
        end
    end.

Definition isQuotaExceededError (rt : Runtime.t) (error : Thrown) : bool :=
  match asError rt error with
  | Some e => Js.eqb (Error.name e) (js "QuotaExceededError")
  | None => false
  end.

(** [extractDataFromPDF(pdfText, model)]; [model] is not used.  The
    result comes with the instance and the world as they are afterwards. *)
Definition extractDataFromPDF (rt : Runtime.t) (this : t) (pdfText : jsstring)
  (w : World.t) : Outcome ExtractedData.t * t * World.t :=
  let textHash := createTextHash pdfText in
  match cache this !! textHash with
  | Some cached => (Returned cached, this, w)
  | None =>
      let prompt := createExtractionPrompt pdfText in
      match extractUncached rt this textHash prompt w with
      | (Returned validatedData, this', w') => (Returned validatedData, this', w')
      | (Threw error, this', w') =>
          if isQuotaExceededError rt error then
            let fallbackData := getFallbackData rt in
            (Returned fallbackData, mk (<[textHash := fallbackData]> (cache this')), w')
          else
            (Threw (Err (Error.mk (js "Error")
                      (js "Failed to extract data with Gemini: " ++ messageOrUnknown rt error))),
             this', w')
      end
  end.

End AIService.

(* ================================================================== *)
(** ** utils/quotaHelper.ts                                            *)
(* ================================================================== *)

Module QuotaInfo.
Record t := mk {
  isQuotaExceeded : bool;
  retryAfter : option jsstring;
  suggestions : list jsstring;
  upgradeUrl : option jsstring
}.
End QuotaInfo.

Module QuotaUsage.
Record t := mk { used : Z; limit : Z; remaining : Z }.
End QuotaUsage.

Module QuotaHelper.

Definition getQuotaInfo (error : Error.t) : QuotaInfo.t :=
  if includes (Error.message error) (js "429 Too Many Requests") then
    QuotaInfo.mk true (Some (js "24 hours"))
      [ js "Wait until tomorrow for the free tier quota to reset (50 requests/day)";
        js "Upgrade to a paid Gemini API plan for higher limits";
        js "Implement request caching to reduce API calls";
        js "Consider using multiple API keys for different environments" ]
      (Some (js "https://ai.google.dev/pricing"))
  else if includes (Error.message error) (js "API key") then
    QuotaInfo.mk false None
      [ js "Check your GEMINI_API_KEY environment variable";
        js "Verify the API key is valid and active";
        js "Ensure the API key has the necessary permissions" ]
      None
  else
    QuotaInfo.mk false None
      [ js "Check your internet connection";
        js "Verify the Gemini API service is available";
        js "Try again in a few minutes" ]
      None.

(** [random] is the value [Math.random()] returned.  [Math.floor] of the
    product is an integer below [2^53], so the subtraction is exact and
    the three fields are given as integers.  The result is [None] only
    when the product is not finite. *)
Definition getQuotaUsageEstimate (random : number) : option QuotaUsage.t :=
  let freeTierLimit := 50 in
  match floor (mul random (of_Z freeTierLimit)) with
  | Some estimatedUsed =>
      Some (QuotaUsage.mk estimatedUsed freeTierLimit (freeTierLimit - estimatedUsed))
  | None => None
  end.

Definition shouldUseFallback (error : Error.t) : bool :=
  includes (Error.message error) (js "429 Too Many Requests")
  || includes (Error.message error) (js "quota")
  || includes (Error.message error) (js "limit").

End QuotaHelper.

(* ================================================================== *)
(** ** routes/extract.ts                                               *)
(* ================================================================== *)

Module ExtractRequest.
Record t := mk { fileId : jsstring; model : jsstring; fileUrl : option jsstring }.
End ExtractRequest.

Module ExtractRequestSchema.
Import Zod.

Definition schema : Schema ExtractRequest.t :=
  z_object (fun p o =>
    Success ExtractRequest.mk
      <*> field "fileId" z_string p o
      <*> field "model" (z_enum1 (js "gemini")) p o
      <*> field "fileUrl" (z_optional z_string) p o).

Definition parse (body : json) : SafeParse ExtractRequest.t := schema [] (Some body).

End ExtractRequestSchema.

Module ExtractRoute.

(** The JSON bodies the handler sends. *)
Inductive Body :=
| Extracted (data : ExtractedData.t)
    (* [{ success: true, data }] *)
| InvalidRequestData (details : list Zod.ZodIssue)
    (* [{ error: 'Invalid request data', details }] *)
| ApiQuotaExceeded (message : jsstring) (quotaInfo : QuotaInfo.t)
    (* [{ error: 'API Quota Exceeded', message, quotaInfo, retryAfter, suggestions }] *)
| ApiConfigurationError (message : jsstring)
    (* [{ error: 'API Configuration Error', message }] *)
| ExtractionFailed (message : jsstring).
    (* [{ error: 'Extraction failed', message }] *)

Record Response := mkResponse { status : Z; body : Body }.

(** The bytes of the document: from [fileUrl] when given, else from local
    storage. *)
Definition loadPdf (rt : Runtime.t) (req : ExtractRequest.t) : Outcome (list N) :=
  match ExtractRequest.fileUrl req with
  | Some ((_ :: _) as fileUrl) =>
      match Runtime.fetch rt fileUrl with
      | Threw e => Threw e
      | Returned response =>
          if FetchResponse.ok response then Returned (FetchResponse.arrayBuffer response)
          else Threw (Err (Error.mk (js "Error")
                 (js "Failed to fetch PDF from URL: " ++ FetchResponse.statusText response)))
      end
  | _ =>
      match Runtime.readLocalFile rt (ExtractRequest.fileId req) with
      | Some bytes => Returned bytes
      | None => Threw (Err (Error.mk (js "Error")
          (js "No file URL provided and local file not found. Please upload the file first.")))
      end
  end.

(** The [try] block of the handler. *)
Definition tryExtract (rt : Runtime.t) (reqBody : json) (w : World.t)
  : Outcome ExtractedData.t * World.t :=
  match ExtractRequestSchema.parse reqBody with
  | Zod.Failure issues => (Threw (ZodError issues), w)
  | Zod.Success req =>
      match loadPdf rt req with
      | Threw e => (Threw e, w)
      | Returned pdfBuffer =>
          match Runtime.pdf rt pdfBuffer with
          | Threw e => (Threw e, w)
          | Returned text =>
              let aiService := AIService.new in
              let '(r, _, w') := AIService.extractDataFromPDF rt aiService text w in
              (r, w')
          end
      end
  end.

(** The [catch] block of the handler. *)
Definition onError (rt : Runtime.t) (error : Thrown) : Response :=
  match error with
  | ZodError issues => mkResponse 400 (InvalidRequestData issues)
  | _ =>
      match asError rt error with
      | Some e =>
          if Js.eqb (Error.name e) (js "QuotaExceededError") then
            mkResponse 429 (ApiQuotaExceeded (Error.message e) (QuotaHelper.getQuotaInfo e))
          else if includes (Error.message e) (js "API key") then
            mkResponse 401 (ApiConfigurationError (Error.message e))
          else mkResponse 500 (ExtractionFailed (Error.message e))
      | None => mkResponse 500 (ExtractionFailed (js "Unknown error"))
      end
  end.

(** [router.post('/')] *)
Definition post (rt : Runtime.t) (reqBody : json) (w : World.t) : Response * World.t :=
  match tryExtract rt reqBody w with
  | (Returned extractedData, w') => (mkResponse 200 (Extracted extractedData), w')
  | (Threw error, w') => (onError rt error, w')
  end.

End ExtractRoute.

(* ================================================================== *)
(** ** models/Invoice.ts and routes/invoices.ts                        *)
(* ================================================================== *)

(** [invoice] block of a creation request: the currency may be absent. *)
Module InvoiceInput.
Record t := mk {
  number : jsstring;
  date : jsstring;
  currency : option jsstring;
  subtotal : option Number.number;
  taxPercent : option Number.number;
  total : option Number.number;
  poNumber : option jsstring;
  poDate : option jsstring;
  lineItems : list LineItem.t
}.
End InvoiceInput.

Module CreateInvoice.
Record t := mk {
  fileId : jsstring;
  fileName : jsstring;
  fileUrl : option jsstring;
  vendor : Vendor.t;
  invoice : InvoiceInput.t
}.
End CreateInvoice.

Module CreateInvoiceSchema.
Import Zod.

Definition invoice : Schema InvoiceInput.t :=
  z_object (fun p o =>
    Success InvoiceInput.mk
      <*> field "number" z_string p o
      <*> field "date" z_string p o
      <*> field "currency" (z_optional z_string) p o
      <*> field "subtotal" (z_optional z_number) p o
      <*> field "taxPercent" (z_optional z_number) p o
      <*> field "total" (z_optional z_number) p o
      <*> field "poNumber" (z_optional z_string) p o
      <*> field "poDate" (z_optional z_string) p o
      <*> field "lineItems" (z_array ExtractedDataSchema.lineItem) p o).

Definition schema : Schema CreateInvoice.t :=
  z_object (fun p o =>
    Success CreateInvoice.mk
      <*> field "fileId" z_string p o
      <*> field "fileName" z_string p o
      <*> field "fileUrl" (z_optional z_string) p o
      <*> field "vendor" ExtractedDataSchema.vendor p o
      <*> field "invoice" invoice p o).

Definition parse (body : json) : SafeParse CreateInvoice.t := schema [] (Some body).

End CreateInvoiceSchema.

(** A stored document ([IInvoice]). *)
Module Invoice.
Record t := mk {
  id : jsstring;
  fileId : jsstring;
  fileName : jsstring;
  vendor : Vendor.t;
  invoice : InvoiceData.t;
  createdAt : Z;
  updatedAt : option Z
}.

(** The [required: true] string paths of the schemas must not be empty. *)
Definition requiredPresent (data : CreateInvoice.t) : bool :=
  truthy (CreateInvoice.fileId data)
  && truthy (CreateInvoice.fileName data)
  && truthy (Vendor.name (CreateInvoice.vendor data))
  && truthy (InvoiceInput.number (CreateInvoice.invoice data))
  && truthy (InvoiceInput.date (CreateInvoice.invoice data))
  && forallb (fun li => truthy (LineItem.description li))
       (InvoiceInput.lineItems (CreateInvoice.invoice data)).

(** [new Invoice(data)] constructed at time [now] under a fresh [_id] and
    saved at time [saved]: [currency] defaults to ['USD'], [createdAt] to
    [Date.now()] at construction, the [pre('save')] hook sets [updatedAt]
    to the [new Date()] it reads when the document is saved, and [fileUrl]
    is not a path of the schema. *)
Definition build (objectId : jsstring) (now saved : Z) (data : CreateInvoice.t) : t :=
  let i := CreateInvoice.invoice data in
  mk objectId (CreateInvoice.fileId data) (CreateInvoice.fileName data)
    (CreateInvoice.vendor data)
    (InvoiceData.mk (InvoiceInput.number i) (InvoiceInput.date i)
       (default (js "USD") (InvoiceInput.currency i))
       (InvoiceInput.subtotal i) (InvoiceInput.taxPercent i) (InvoiceInput.total i)
       (InvoiceInput.poNumber i) (InvoiceInput.poDate i) (InvoiceInput.lineItems i))
    now (Some saved).

(** [Invoice.findOne({ fileId })] *)
Definition findOne (fileId : jsstring) (db : list t) : option t :=
  find (fun d => Js.eqb (Invoice.fileId d) fileId) db.

(** The database leaves open in which order a query returns documents
    with the same sort key: a [TieOrder] is the rank that the engine gives
    the documents in one query, lower ranks first; another query may come
    with another one. *)
Definition TieOrder : Type := t -> Z.

(** [d] goes before [x]: it is newer, or as old and not ranked after. *)
Definition precedes (tie : TieOrder) (d x : t) : bool :=
  (createdAt x <? createdAt d)
  || ((createdAt x =? createdAt d) && (tie d <=? tie x)).

(** [.sort({ createdAt: -1 })]: newest first, documents with the same
    [createdAt] by their rank in this query. *)
Fixpoint insertDesc (tie : TieOrder) (d : t) (sorted : list t) : list t :=
  match sorted with
  | [] => [d]
  | x :: rest =>
      if precedes tie d x then d :: sorted else x :: insertDesc tie d rest
  end.

Definition sortCreatedAtDesc (tie : TieOrder) (docs : list t) : list t :=
  fold_right (insertDesc tie) [] docs.

End Invoice.

(** What the source leaves to the database engine when it runs one
    sorted, paged query. *)
Module Engine.
Record t := mk {
  (** The order of documents with the same [createdAt] in this query. *)
  tie : Invoice.TieOrder;
  (** What the server makes of a skip or limit that is no 64-bit integer
      ([NaN], an infinity, [2^63] and beyond): servers that clamp take
      [NaN] as 0 and the others as the largest or smallest 64-bit integer,
      the other servers reject the query. *)
  clamps : bool
}.
End Engine.

Module InvoiceRoutes.

Record Pagination := mkPagination {
  (** [pageNum] and [limitNum]; [None] is [NaN].  What is not finite is
      sent as [null]. *)
  page : option Integral.t;
  limit : option Integral.t;
  total : Z;
  (** [None] stands for a value that is not finite, sent as [null]. *)
  pages : option Z
}.

Inductive Body :=
| Listed (invoices : list Invoice.t) (pagination : Pagination)
    (* [{ success: true, data: { invoices, pagination } }] *)
| Created (invoice : Invoice.t)
    (* [{ success: true, data: invoice }] *)
| AlreadyExists
    (* [{ error: 'Invoice with this file already exists' }] *)
| InvalidInvoiceData (details : list Zod.ZodIssue)
    (* [{ error: 'Invalid invoice data', details }] *)
| Failed.
    (* [{ error: 'Failed to ...', message }] *)

Record Response := mkResponse { status : Z; body : Body }.

(** [req.query] of the list request: each parameter, when given. *)
Record ListQuery := mkListQuery {
  q : option jsstring;
  pageParam : option jsstring;
  limitParam : option jsstring
}.

(** The database engine's case-insensitive [$regex] match: [None] when
    the pattern does not compile. *)
Definition RegexEngine : Type := jsstring -> option (jsstring -> bool).

(** [Invoice.find(query)] and [Invoice.countDocuments(query)] share this
    filter; [None] when the query is rejected. *)
Definition matching (regex : RegexEngine) (q : option jsstring) (db : list Invoice.t)
  : option (list Invoice.t) :=
  match q with
  | Some ((_ :: _) as pat) =>
      match regex pat with
      | Some test =>
          Some (filter (fun d =>
                  test (Vendor.name (Invoice.vendor d))
                  || test (InvoiceData.number (Invoice.invoice d))) db)
      | None => None
      end
  | _ => Some db
  end.

(** The documents after the first [n], for [n] not negative. *)
Definition skipped (n : Z) (docs : list Invoice.t) : list Invoice.t :=
  if Z.of_nat (length docs) <=? n then [] else drop (Z.to_nat n) docs.

(** The first [n] documents, for [n] not negative. *)
Definition limited (n : Z) (docs : list Invoice.t) : list Invoice.t :=
  if Z.of_nat (length docs) <=? n then docs else take (Z.to_nat n) docs.

(** A number that is a 64-bit integer. *)
Definition int64 (x : option Integral.t) : bool :=
  match x with
  | Some (Integral.Fin z) => (- 2 ^ 63 <=? z) && (z <? 2 ^ 63)
  | _ => false
  end.

(** [.skip(skip).limit(limitNum)] on a cursor: a negative skip is
    rejected, a limit of [0] means no limit, a negative limit counts as
    its absolute value.  A skip or limit that is no 64-bit integer is
    clamped or rejected, as the engine has it. *)
Definition skipLimit (clamps : bool) (skip limitNum : option Integral.t)
  (docs : list Invoice.t) : option (list Invoice.t) :=
  if negb clamps && negb (int64 skip && int64 limitNum) then None
  else
    let rest :=
      match skip with
      | None => Some docs
      | Some (Integral.Fin s) => if s <? 0 then None else Some (skipped s docs)
      | Some (Integral.Inf true) => None
      | Some (Integral.Inf false) => Some []
      end in
    (fun rest =>
       match limitNum with
       | Some (Integral.Fin l) => if l =? 0 then rest else limited (Z.abs l) rest
       | _ => rest
       end) <$> rest.

(** [Math.ceil(total / limitNum)] for a [total] below [2^53]: the
    quotient by a finite [limitNum] rounds to a number with the same
    ceiling, the quotient by an infinity is zero, and the quotient by zero
    or [NaN] is not finite. *)
Definition ceilDiv (total : Z) (limitNum : option Integral.t) : option Z :=
  match limitNum with
  | Some (Integral.Fin l) => if l =? 0 then None else Some (- ((- total) / l))
  | Some (Integral.Inf _) => Some 0
  | None => None
  end.

(** [(pageNum - 1) * limitNum] *)
Definition skipOf (pageNum limitNum : option Integral.t) : option Integral.t :=
  match pageNum, limitNum with
  | Some p, Some l => Integral.times (Integral.minus_one p) l
  | _, _ => None
  end.

(** [router.get('/')] *)
Definition listInvoices (regex : RegexEngine) (engine : Engine.t) (query : ListQuery)
  (db : list Invoice.t) : Response :=
  let pageNum := parseInt (default (js "1") (pageParam query)) in
  let limitNum := parseInt (default (js "10") (limitParam query)) in
  let skip := skipOf pageNum limitNum in
  match matching regex (q query) db with
  | Some found =>
      match skipLimit (Engine.clamps engine) skip limitNum
              (Invoice.sortCreatedAtDesc (Engine.tie engine) found) with
      | Some invoices =>
          let total := Z.of_nat (length found) in
          mkResponse 200
            (Listed invoices
               (mkPagination pageNum limitNum total (ceilDiv total limitNum)))
      | None => mkResponse 500 Failed
      end
  | None => mkResponse 500 Failed
  end.

(** [router.post('/')]; [objectId] is the identifier a new document
    receives, [now] the time of its construction and [saved] the time at
    which it is saved. *)
Definition createInvoice (objectId : jsstring) (now saved : Z) (reqBody : json)
  (db : list Invoice.t) : Response * list Invoice.t :=
  match CreateInvoiceSchema.parse reqBody with
  | Zod.Failure issues => (mkResponse 400 (InvalidInvoiceData issues), db)
  | Zod.Success invoiceData =>
      match Invoice.findOne (CreateInvoice.fileId invoiceData) db with
      | Some existingInvoice => (mkResponse 409 AlreadyExists, db)
      | None =>
          if Invoice.requiredPresent invoiceData then
            let invoice := Invoice.build objectId now saved invoiceData in
            (mkResponse 201 (Created invoice), db ++ [invoice])
          else (mkResponse 500 Failed, db)
      end
  end.

End InvoiceRoutes.

(** The invoices of a list response; none when it is an error. *)
Definition listed (r : InvoiceRoutes.Response) : list Invoice.t :=
  match InvoiceRoutes.body r with
  | InvoiceRoutes.Listed invoices _ => invoices
  | _ => []
  end.


(* ================================================================== *)
(** ** A scripted runtime for examples                                 *)
(* ================================================================== *)

Module Double.

Definition number_eqb (a b : number) : bool :=
  match a, b with
  | S754_zero s, S754_zero s' => Bool.eqb s s'
  | S754_infinity s, S754_infinity s' => Bool.eqb s s'
  | S754_nan, S754_nan => true
  | S754_finite s m e, S754_finite s' m' e' => Bool.eqb s s' && (m =? m')%positive && (e =? e')
  | _, _ => false
  end.

Fixpoint json_eqb (a b : json) : bool :=
  match a, b with
  | JNull, JNull => true
  | JBool x, JBool y => Bool.eqb x y
  | JNum x, JNum y => number_eqb x y
  | JStr x, JStr y => Js.eqb x y
  | JArr xs, JArr ys =>
      (fix all2 (xs ys : list json) : bool :=
         match xs, ys with
         | [], [] => true
         | x :: xs', y :: ys' => json_eqb x y && all2 xs' ys'
         | _, _ => false
         end) xs ys
  | JObj xs, JObj ys =>
      (fix all2 (xs ys : list (jsstring * json)) : bool :=
         match xs, ys with
         | [], [] => true
         | (k, x) :: xs', (k', y) :: ys' => Js.eqb k k' && json_eqb x y && all2 xs' ys'
         | _, _ => false
         end) xs ys
  | _, _ => false
  end.

(** [JSON.parse] that knows the texts of a table. *)
Fixpoint parseWith (table : list (jsstring * json)) (text : jsstring) : Outcome json :=
  match table with
  | [] => Threw (Err (Error.mk (js "SyntaxError") (js "Unexpected token")))
  | (t, v) :: rest => if Js.eqb text t then Returned v else parseWith rest text
  end.

(** [JSON.stringify] that knows the values of a table. *)
Fixpoint stringifyWith (table : list (jsstring * json)) (value : json) : jsstring :=
  match table with
  | [] => js "null"
  | (t, v) :: rest => if json_eqb value v then t else stringifyWith rest value
  end.

(** The model answers its [n]-th call with the [n]-th scripted reply. *)
Definition replyWith (script : list (Outcome jsstring)) (n : nat) (prompt : jsstring)
  : Outcome jsstring :=
  nth n script (Threw (Err (Error.mk (js "Error") (js "fetch failed")))).

Definition runtime (key : option jsstring) (table : list (jsstring * json))
  (script : list (Outcome jsstring)) : Runtime.t :=
  Runtime.mk key (js "2024-01-15")
    (parseWith table) (stringifyWith table) (fun _ => js "invalid input")
    (replyWith script)
    (fun url => Returned (FetchResponse.mk true (js "OK") [37; 80; 68; 70]%N))
    (fun fileId => None)
    (fun bytes => Returned (js "Invoice INV-001 Total 100")).

(** ASCII text in which an apostrophe stands for a double quote. *)
Definition jsq (s : string) : jsstring :=
  map (fun c => if (c =? 39)%N then 34%N else c) (js s).

(** A reply of the model and the value it parses to. *)
Definition replyText (currency : string) : jsstring :=
  jsq "{'vendor':{'name':'ACME'},'invoice':{'number':'INV-1','date':'2024-01-10',"
  ++ jsq currency ++ jsq "'lineItems':[]}}".

Definition replyValue (currency : list (jsstring * json)) : json :=
  JObj [ (js "vendor", JObj [ (js "name", JStr (js "ACME")) ]);
         (js "invoice", JObj ([ (js "number", JStr (js "INV-1"));
                                (js "date", JStr (js "2024-01-10")) ]
                              ++ currency
                              ++ [ (js "lineItems", JArr []) ])) ].

Definition defaultText : jsstring :=
  jsq "{'vendor':{'name':'Unknown Vendor','address':'','taxId':''},'invoice':{'number':'Unknown','date':'2024-01-15','currency':'INR','subtotal':0,'taxPercent':18,'total':0,'poNumber':'','poDate':'2024-01-15','lineItems':[]}}".

(** The texts and values the examples use. *)
Definition table : list (jsstring * json) :=
  [ (replyText "'currency':null,", replyValue [ (js "currency", JNull) ]);
    (replyText "'currency':'INR',", replyValue [ (js "currency", JStr (js "INR")) ]);
    (replyText "'currency':'',", replyValue [ (js "currency", JStr []) ]);
    (replyText "", replyValue []);
    (defaultText, AIService.defaultDocument (js "2024-01-15")) ].

(** A request body [{ fileId, model: 'gemini', fileUrl }]. *)
Definition extractBody : json :=
  JObj [ (js "fileId", JStr (js "f-1"));
         (js "model", JStr (js "gemini"));
         (js "fileUrl", JStr (js "https://blob.example/f-1.pdf")) ].

(** What the handler reads from [extractBody] under [runtime]. *)
Definition extractRequest : ExtractRequest.t :=
  ExtractRequest.mk (js "f-1") (js "gemini") (Some (js "https://blob.example/f-1.pdf")).
Definition pdfBytes : list N := [37; 80; 68; 70]%N.
Definition pdfText : jsstring := js "Invoice INV-001 Total 100".

(** An upstream failure for an exhausted quota. *)
Definition tooManyRequests : Outcome jsstring :=
  Threw (Err (Error.mk (js "Error")
    (js "[GoogleGenerativeAI Error]: Error fetching: [429 Too Many Requests] Resource has been exhausted"))).

(** A creation request for the file [f-1]. *)
Definition createBody : json :=
  JObj [ (js "fileId", JStr (js "f-1"));
         (js "fileName", JStr (js "invoice.pdf"));
         (js "vendor", JObj [ (js "name", JStr (js "ACME")) ]);
         (js "invoice", JObj [ (js "number", JStr (js "INV-1"));
                               (js "date", JStr (js "2024-01-10"));
                               (js "lineItems", JArr []) ]) ].

(** A stored invoice for the file [f-n], created at time [n]. *)
Definition stored (n : nat) : Invoice.t :=
  Invoice.mk (js "id-" ++ toString (Z.of_nat n)) (js "f-" ++ toString (Z.of_nat n))
    (js "invoice.pdf")
    (Vendor.mk (js "ACME") None None)
    (InvoiceData.mk (js "INV-" ++ toString (Z.of_nat n)) (js "2024-01-10") (js "USD")
       None None None None None [])
    (Z.of_nat n) (Some (Z.of_nat n)).

(** Fifteen stored invoices. *)
Definition fifteen : list Invoice.t := map stored (seq 1 15).

(** A regular-expression engine that only knows literal patterns. *)
Definition literalRegex : InvoiceRoutes.RegexEngine :=
  fun pat => Some (fun subject => includes subject pat).

(** Engines that rank documents of the same [createdAt] by the time they
    were saved, the one rejecting and the other clamping what is no 64-bit
    integer. *)
Definition rejecting : Engine.t :=
  Engine.mk (fun d => default 0 (Invoice.updatedAt d)) false.
Definition clamping : Engine.t :=
  Engine.mk (fun d => default 0 (Invoice.updatedAt d)) true.

(** An engine that ranks documents of the same [createdAt] the other way
    round. *)
Definition savedLast : Engine.t :=
  Engine.mk (fun d => - default 0 (Invoice.updatedAt d)) false.

(** Fifteen invoices created at the same time and saved one after the
    other. *)
Definition tiedInvoice (n : nat) : Invoice.t :=
  Invoice.mk (js "id-" ++ toString (Z.of_nat n)) (js "f-" ++ toString (Z.of_nat n))
    (js "invoice.pdf")
    (Vendor.mk (js "ACME") None None)
    (InvoiceData.mk (js "INV-" ++ toString (Z.of_nat n)) (js "2024-01-10") (js "USD")
       None None None None None [])
    1 (Some (Z.of_nat n)).
Definition tied : list Invoice.t := map tiedInvoice (seq 1 15).

(** The model answers [{}] first, then a document. *)
Definition twoReplies : Runtime.t :=
  runtime (Some (js "key")) table [Returned (js "{}"); Returned (replyText "")].

(** The record the default document validates to on the day of [runtime]. *)
Definition defaultRecord : ExtractedData.t :=
  ExtractedData.mk
    (Vendor.mk (js "Unknown Vendor") (Some []) (Some []))
    (InvoiceData.mk (js "Unknown") (js "2024-01-15") (js "INR")
       (Some (of_Z 0)) (Some (of_Z 18)) (Some (of_Z 0))
       (Some []) (Some (js "2024-01-15")) []).

End Double.
From Stdlib Require Import Sorting.Sorted.


(* ================================================================== *)
(** ** services/aiService.ts, the variant without cache                *)
(* ================================================================== *)

(** The schema, [cleanJsonResponse] and [createExtractionPrompt] of this
    file are those of [AIService], word for word. *)
Module AIServicePlain.

Definition extractWithGemini (rt : Runtime.t) (prompt : jsstring) (w : World.t)
  : Outcome jsstring * World.t :=
  (Runtime.generateContent rt (length (World.upstreamCalls w)) prompt,
   World.mk (World.upstreamCalls w ++ [prompt])).

(** The [try] block of [extractDataFromPDF]. *)
Definition tryExtract (rt : Runtime.t) (prompt : jsstring) (w : World.t)
  : Outcome ExtractedData.t * World.t :=
  if AIService.keyMissing rt then
    (Threw (Err (Error.mk (js "Error") (js "GEMINI_API_KEY not configured"))), w)
  else
    match extractWithGemini rt prompt w with
    | (Threw error, w') => (Threw error, w')
    | (Returned extractedText, w') => (AIService.validateResponse rt extractedText, w')
    end.

Definition extractDataFromPDF (rt : Runtime.t) (pdfText : jsstring) (w : World.t)
  : Outcome ExtractedData.t * World.t :=
  let prompt := AIService.createExtractionPrompt pdfText in
  match tryExtract rt prompt w with
  | (Returned validatedData, w') => (Returned validatedData, w')
  | (Threw error, w') =>
      (Threw (Err (Error.mk (js "Error")
                (js "Failed to extract data with Gemini: " ++ messageOrUnknown rt error))),
       w')
  end.

End AIServicePlain.

(* ================================================================== *)
(** ** services/uploadService.ts, the variant that stores in Vercel Blob *)
(* ================================================================== *)

Module UploadService.

(** [getFilePath(fileId)]: always throws. *)
Definition getFilePath (fileId : jsstring) : Outcome jsstring :=
  Threw (Err (Error.mk (js "Error")
    (js "File URL should be retrieved from database - use fileUrl field instead"))).

End UploadService.

(** The fallback of the extract handler when no [fileUrl] is given:
    [readFile(await getFilePath(fileId))]; any failure is caught by the
    handler, hence [None]. *)
Definition readLocalFileVia (getFilePath : jsstring -> Outcome jsstring)
  (readFile : jsstring -> option (list N)) (fileId : jsstring) : option (list N) :=
  match getFilePath fileId with
  | Returned filePath => readFile filePath
  | Threw _ => None
  end.

(* ================================================================== *)
(** ** routes/invoices.ts: one invoice by its identifier                *)
(* ================================================================== *)

Module InvoiceByIdRoutes.

Inductive Body :=
| Found (invoice : Invoice.t)
    (* [{ success: true, data: invoice }] *)
| Deleted
    (* [{ success: true, message: 'Invoice deleted successfully' }] *)
| NotFound
    (* [{ error: 'Invoice not found' }] *)
| Failed.
    (* [{ error: 'Failed to ...', message }] *)

Record Response := mkResponse { status : Z; body : Body }.

(** The cast of [req.params.id] to an [ObjectId], given in the form the
    identifiers are stored in; [None] when the string is not an
    [ObjectId], which makes the query throw. *)
Definition ObjectIdCast : Type := jsstring -> option jsstring.

Definition hasId (objectId : jsstring) (d : Invoice.t) : bool :=
  Js.eqb (Invoice.id d) objectId.

(** [router.get('/:id')] *)
Definition getInvoice (cast : ObjectIdCast) (id : jsstring) (db : list Invoice.t)
  : Response :=
  match cast id with
  | None => mkResponse 500 Failed
  | Some objectId =>
      match find (hasId objectId) db with
      | Some invoice => mkResponse 200 (Found invoice)
      | None => mkResponse 404 NotFound
      end
  end.

(** The collection without the first document that has the identifier. *)
Fixpoint removeFirst (objectId : jsstring) (db : list Invoice.t) : list Invoice.t :=
  match db with
  | [] => []
  | d :: rest => if hasId objectId d then rest else d :: removeFirst objectId rest
  end.

(** [router.delete('/:id')] *)
Definition deleteInvoice (cast : ObjectIdCast) (id : jsstring) (db : list Invoice.t)
  : Response * list Invoice.t :=
  match cast id with
  | None => (mkResponse 500 Failed, db)
  | Some objectId =>
      match find (hasId objectId) db with
      | Some invoice => (mkResponse 200 Deleted, removeFirst objectId db)
      | None => (mkResponse 404 NotFound, db)
      end
  end.

End InvoiceByIdRoutes.

(* ================================================================== *)
(** ** Vocabulary of the further properties                            *)
(* ================================================================== *)

(** Horner's rule with multiplier 31 over the code units. *)
Definition poly31 (text : jsstring) : Z :=
  fold_left (fun h c => 31 * h + Z.of_N c) text 0.

(** Newest first. *)
Definition newestFirst (docs : list Invoice.t) : Prop :=
  forall (i j : nat) (a b : Invoice.t),
    (i < j)%nat -> docs !! i = Some a -> docs !! j = Some b ->
    Invoice.createdAt b <= Invoice.createdAt a.

(** The page [k] of size [n] of a list: what [skip((k - 1) * n).limit(n)]
    keeps. *)
Definition pageOf (n : Z) (docs : list Invoice.t) (k : Z) : list Invoice.t :=
  take (Z.to_nat n) (drop (Z.to_nat ((k - 1) * n)) docs).

(** [JSON.parse] throws nothing but a [SyntaxError]. *)
Definition parseThrowsSyntaxError (rt : Runtime.t) : Prop :=
  forall (text : jsstring) (e : Thrown),
    Runtime.JSON_parse rt text = Threw e ->
    exists message, e = Err (Error.mk (js "SyntaxError") message).

(** The line item [x] of a reply carries the four values of [item]. *)
Definition itemOf (x : json) (item : LineItem.t) : Prop :=
  member x (js "description") = Some (JStr (LineItem.description item))
  /\ member x (js "unitPrice") = Some (JNum (LineItem.unitPrice item))
  /\ member x (js "quantity") = Some (JNum (LineItem.quantity item))
  /\ member x (js "total") = Some (JNum (LineItem.total item)).

(** White space only. *)
Definition blank (s : jsstring) : Prop := Forall (fun c => is_space c = true) s.

(** A reply in a [json] code fence, with white space around the body and
    after the closing fence. *)
Definition fenced (ws1 body ws2 ws3 : jsstring) : jsstring :=
  js "```json" ++ ws1 ++ body ++ ws2 ++ js "```" ++ ws3.

(** A request body [{ fileId, model: 'gemini' }], without [fileUrl]. *)
Definition extractBodyNoUrl : json :=
  JObj [ (js "fileId", JStr (js "f-1")); (js "model", JStr (js "gemini")) ].

(** The keys of an object, in order. *)
Definition keys (props : list (jsstring * json)) : list jsstring := map fst props.

(** A scripted runtime whose model fails with an exhausted quota first and
    answers with a document afterwards. *)
Definition quotaThenReply : Runtime.t :=
  Double.runtime (Some (js "key")) Double.table
    [Double.tooManyRequests; Returned (Double.replyText "")].
(* ================================================================== *)
(** * Properties                                                       *)
(* ================================================================== *)

(** ** Strings *)

Example trim_example : trim (js "  {} " ++ LF) = js "{}".
Proof. reflexivity. Qed.

Example parseInt_example :
  parseInt (js " 10px") = Some (Integral.Fin 10)
  /\ parseInt (js "x") = None
  /\ parseInt (js "-0x1F") = Some (Integral.Fin (-31))
  /\ parseInt (js "9007199254740993") = Some (Integral.Fin 9007199254740992)
  /\ parseInt (toString (10 ^ 309)) = Some (Integral.Inf false).
Proof. repeat split; vm_compute; reflexivity. Qed.

Example toString_example : toString (-1234) = js "-1234".
Proof. vm_compute. reflexivity. Qed.

Lemma startsWith_true (s p : jsstring) :
  startsWith s p = true <-> exists post, s = p ++ post.
Proof.
  revert s. induction p as [|a p IH]; intros s; simpl.
  - split; [intros _; exists s; reflexivity | reflexivity].
  - destruct s as [|b s]; simpl.
    + split; [done | intros [post H]; discriminate].
    + rewrite andb_true_iff, N.eqb_eq, IH. split.
      * intros [-> [post ->]]. by exists post.
      * intros [post H]. injection H as -> ->. split; [done | by exists post].
Qed.

Lemma includes_true (s p : jsstring) :
  includes s p = true <-> occursIn p s.
Proof.
  unfold occursIn. induction s as [|c s IH].
  - simpl. rewrite orb_false_r, startsWith_true. split.
    + intros [post H]. by exists [], post.
    + intros [pre [post H]]. destruct pre; [by exists post | discriminate].
  - cbn [includes]. rewrite orb_true_iff, startsWith_true, IH. split.
    + intros [[post H] | [pre [post H]]].
      * by exists [], post.
      * exists (c :: pre), post. by rewrite H.
    + intros [pre [post H]]. destruct pre as [|c' pre].
      * left. by exists post.
      * right. injection H as -> ->. by exists pre, post.
Qed.

Lemma includes_false (s p : jsstring) :
  includes s p = false <-> ~ occursIn p s.
Proof. rewrite <- includes_true. destruct (includes s p); split; congruence. Qed.

Lemma trimStart_length (s : jsstring) : (length (trimStart s) <= length s)%nat.
Proof. induction s as [|c s IH]; simpl; [lia | destruct (is_space c); simpl; lia]. Qed.

(** The fuel of [removeAll] is enough: more of it changes nothing. *)
Lemma removeAll_go_enough (lit : jsstring) (n m : nat) (s : jsstring) :
  lit <> [] -> (length s <= n)%nat -> (length s <= m)%nat ->
  removeAll_go lit n s = removeAll_go lit m s.
Proof.
  intros Hlit. revert m s. induction n as [|n IH]; intros m s Hn Hm.
  - destruct s; [|simpl in Hn; lia]. by destruct m.
  - destruct m as [|m].
    + destruct s; [done | simpl in Hm; lia].
    + destruct s as [|c s]; [done|]. cbn [removeAll_go].
      destruct (startsWith (c :: s) lit).
      * pose proof (trimStart_length (drop (length lit) (c :: s))).
        pose proof (length_drop (c :: s) (length lit)).
        destruct lit; [done|]. apply IH; cbn [length] in *; lia.
      * f_equal. apply IH; cbn [length] in *; lia.
Qed.

(** ** The Quota Advisor's fallback test *)

(** C6, as stated, fails: the test looks for ["429 Too Many Requests"], so
    a message that only contains ["429"] is not a reason for fallback. *)
Lemma shouldUseFallback_not_bare_429 :
  ~ (forall error : Error.t,
       QuotaHelper.shouldUseFallback error = true <->
       occursIn (js "429") (Error.message error)
       \/ occursIn (js "quota") (Error.message error)
       \/ occursIn (js "limit") (Error.message error)).
Proof.
  intros H.
  destruct (H (Error.mk (js "Error") (js "HTTP 429"))) as [_ Hback].
  assert (Hocc : occursIn (js "429") (js "HTTP 429")) by (by exists (js "HTTP "), []).
  specialize (Hback (or_introl Hocc)). vm_compute in Hback. discriminate.
Qed.

(** C6, amended: [shouldUseFallback] answers [true] exactly when the
    message contains ["429 Too Many Requests"], ["quota"] or ["limit"]. *)
Theorem shouldUseFallback_iff (error : Error.t) :
  QuotaHelper.shouldUseFallback error = true <->
  occursIn (js "429 Too Many Requests") (Error.message error)
  \/ occursIn (js "quota") (Error.message error)
  \/ occursIn (js "limit") (Error.message error).
Proof.
  unfold QuotaHelper.shouldUseFallback.
  rewrite !orb_true_iff, !includes_true. tauto.
Qed.

(** ** The Response Sanitizer *)

(** The reply [```json\n{}\n```]. *)
Example stripFences_fenced_empty :
  AIService.stripFences (js "```json" ++ LF ++ js "{}" ++ LF ++ js "```") = js "{}".
Proof. vm_compute. reflexivity. Qed.

Example stripFences_keeps_document :
  AIService.stripFences (js "Here: ```json" ++ LF ++ js "{ }  ```" ++ LF) = js "Here: { }".
Proof. vm_compute. reflexivity. Qed.

(** C3: for the reply [```json\n{}\n```], and whenever removing the fences
    and trimming leaves the empty string or [{}], [cleanJsonResponse]
    returns the serialised default document: vendor ["Unknown Vendor"],
    invoice number ["Unknown"], today's date, currency ["INR"], tax percent
    18 and no line items. *)
Theorem cleanJsonResponse_default_document (rt : Runtime.t) (text : jsstring) :
  text = js "```json" ++ LF ++ js "{}" ++ LF ++ js "```"
  \/ AIService.stripFences text = []
  \/ AIService.stripFences text = js "{}" ->
  AIService.cleanJsonResponse rt text =
  Runtime.JSON_stringify rt
    (JObj [
       (js "vendor", JObj [
          (js "name", JStr (js "Unknown Vendor"));
          (js "address", JStr []);
          (js "taxId", JStr []) ]);
       (js "invoice", JObj [
          (js "number", JStr (js "Unknown"));
          (js "date", JStr (Runtime.today rt));
          (js "currency", JStr (js "INR"));
          (js "subtotal", JNum (of_Z 0));
          (js "taxPercent", JNum (of_Z 18));
          (js "total", JNum (of_Z 0));
          (js "poNumber", JStr []);
          (js "poDate", JStr (Runtime.today rt));
          (js "lineItems", JArr []) ]) ]).
Proof.
  intros H. unfold AIService.cleanJsonResponse.
  assert (Hs : AIService.stripFences text = [] \/ AIService.stripFences text = js "{}").
  { destruct H as [-> | [H | H]]; [right; apply stripFences_fenced_empty | by left | by right]. }
  destruct Hs as [-> | ->]; reflexivity.
Qed.

Lemma cleanJsonResponse_default_document_witness :
  AIService.cleanJsonResponse (Double.runtime (Some (js "key")) Double.table [])
    (js "```json" ++ LF ++ js "{}" ++ LF ++ js "```") =
  Double.defaultText.
Proof.
  rewrite (cleanJsonResponse_default_document
             (Double.runtime (Some (js "key")) Double.table [])
             (js "```json" ++ LF ++ js "{}" ++ LF ++ js "```"));
    [vm_compute; reflexivity | left; reflexivity].
Defined.

(** ** The Schema Validator *)

Section ZodLemmas.
Import Zod.

Lemma ap_Success {A B} (rf : SafeParse (A -> B)) (ra : SafeParse A) (b : B) :
  rf <*> ra = Success b -> exists f a, rf = Success f /\ ra = Success a /\ b = f a.
Proof.
  destruct rf as [f|i], ra as [a|j]; simpl; intros H; try discriminate.
  injection H as <-. by exists f, a.
Qed.

Lemma z_object_Success {A} (shape : list PathSeg -> list (jsstring * json) -> SafeParse A)
  (p : list PathSeg) (v : option json) (a : A) :
  z_object shape p v = Success a -> exists props, v = Some (JObj props) /\ shape p props = Success a.
Proof.
  unfold z_object. destruct v as [[]|]; try discriminate. intros H. by eexists.
Qed.

(** What the currency schema accepts and what it makes of it. *)
Lemma currency_schema_Success (p : list PathSeg) (v : option json) (c : jsstring) :
  z_transform (z_optional (z_nullable z_string)) or_INR p v = Success c ->
  (c = js "INR" /\ (v = None \/ v = Some JNull \/ v = Some (JStr [])))
  \/ (exists s, v = Some (JStr s) /\ s <> [] /\ c = s).
Proof.
  unfold z_transform, z_optional, z_nullable, z_string.
  destruct v as [[| | |s| |]|]; simpl; try discriminate; intros H; injection H as <-.
  - left. auto.
  - destruct s as [|ch s]; [left; auto | right; by exists (ch :: s)].
  - left. auto.
Qed.

End ZodLemmas.

Ltac ap_inversion H :=
  repeat
    (let f := fresh "f" in
     let a := fresh "a" in
     let Hf := fresh "Hf" in
     let Ha := fresh "Ha" in
     let E := fresh "E" in
     apply ap_Success in H; destruct H as (f & a & Hf & Ha & E);
     rename Hf into H);
  try (injection H as <-).

(** An accepted input is an object whose [invoice] is an object, and the
    output currency is what the currency schema makes of
    [invoice.currency]. *)
Lemma parse_Success_currency (data : json) (d : ExtractedData.t) :
  ExtractedDataSchema.parse data = Zod.Success d ->
  exists inv,
    AIService.invoiceProps data = Some inv /\
    Zod.z_transform (Zod.z_optional (Zod.z_nullable Zod.z_string)) or_INR
      [Zod.Key (js "invoice"); Zod.Key (js "currency")] (getProp (js "currency") inv)
    = Zod.Success (InvoiceData.currency (ExtractedData.invoice d)).
Proof.
  unfold ExtractedDataSchema.parse, ExtractedDataSchema.schema. intros H.
  apply z_object_Success in H. destruct H as (o & Ho & H). injection Ho as ->.
  ap_inversion H. subst. cbn [ExtractedData.invoice].
  match goal with Hi : Zod.field "invoice" _ _ _ = _ |- _ =>
    unfold Zod.field, ExtractedDataSchema.invoice in Hi;
    apply z_object_Success in Hi; destruct Hi as (inv & Hinv & Hi);
    ap_inversion Hi; subst
  end.
  exists inv. split.
  - unfold AIService.invoiceProps, member. by rewrite Hinv.
  - cbn [InvoiceData.currency].
    match goal with Hc : Zod.field "currency" _ _ _ = _ |- _ => exact Hc end.
Qed.

(** C9: whatever the validator accepts, the currency of its output is a
    non-empty string; an absent, [null] or empty [invoice.currency] comes
    out as ["INR"], any other string comes out unchanged. *)
Theorem validated_currency_not_empty (data : json) (d : ExtractedData.t) :
  ExtractedDataSchema.parse data = Zod.Success d ->
  InvoiceData.currency (ExtractedData.invoice d) <> []
  /\ exists inv, AIService.invoiceProps data = Some inv
     /\ match getProp (js "currency") inv with
        | None | Some JNull | Some (JStr []) =>
            InvoiceData.currency (ExtractedData.invoice d) = js "INR"
        | Some (JStr s) => InvoiceData.currency (ExtractedData.invoice d) = s
        | Some _ => False
        end.
Proof.
  intros H. apply parse_Success_currency in H. destruct H as (inv & Hinv & Hc).
  apply currency_schema_Success in Hc.
  destruct Hc as [[-> Hv] | (s & Hv & Hs & ->)].
  - split; [done|]. exists inv. split; [done|].
    destruct Hv as [-> | [-> | ->]]; reflexivity.
  - split; [done|]. exists inv. split; [done|].
    rewrite Hv. by destruct s.
Qed.

Lemma validated_currency_not_empty_witness :
  exists d,
    ExtractedDataSchema.parse (Double.replyValue [ (js "currency", JStr []) ]) = Zod.Success d
    /\ InvoiceData.currency (ExtractedData.invoice d) = js "INR"
    /\ InvoiceData.currency (ExtractedData.invoice d) <> [].
Proof.
  eexists. split; [vm_compute; reflexivity|].
  split; [vm_compute; reflexivity|].
  eapply (validated_currency_not_empty (Double.replyValue [ (js "currency", JStr []) ])).
  vm_compute. reflexivity.
Defined.

(** ** Sanitizer and validator together *)

Lemma getProp_setProp (k : jsstring) (v : json) (props : list (jsstring * json)) :
  getProp k (setProp k v props) = Some v.
Proof.
  induction props as [|[k' v'] props IH]; simpl.
  - unfold Js.eqb. by rewrite bool_decide_eq_true_2.
  - destruct (Js.eqb k k') eqn:E; simpl; rewrite ?E; [|exact IH].
    unfold Js.eqb. by rewrite bool_decide_eq_true_2.
Qed.

(** The value the sanitizer serialises for a parsed reply whose currency
    is [null] or absent validates, if at all, with currency ["INR"]. *)
Lemma fixNullCurrency_validated (parsed v : json) (d : ExtractedData.t) :
  AIService.currencyNullOrAbsent parsed ->
  AIService.fixNullCurrency parsed = Some v ->
  ExtractedDataSchema.parse v = Zod.Success d ->
  InvoiceData.currency (ExtractedData.invoice d) = js "INR".
Proof.
  intros (inv & Hinv & Hcur) Hfix Hparse.
  apply validated_currency_not_empty in Hparse.
  destruct Hparse as (_ & inv' & Hinv' & Hd).
  unfold AIService.invoiceProps, member in Hinv.
  destruct parsed as [| | | | |props]; try discriminate.
  unfold AIService.fixNullCurrency in Hfix.
  destruct (getProp (js "invoice") props) as [[| | | | |inv0]|] eqn:Ei; try discriminate.
  injection Hinv as ->.
  destruct Hcur as [Hcur | Hcur]; rewrite Hcur in Hfix; injection Hfix as <-.
  - unfold AIService.invoiceProps, member in Hinv'.
    rewrite getProp_setProp in Hinv'. injection Hinv' as <-.
    by rewrite getProp_setProp in Hd.
  - unfold AIService.invoiceProps, member in Hinv'. rewrite Ei in Hinv'.
    injection Hinv' as <-. by rewrite Hcur in Hd.
Qed.

(** The default document passes validation. *)
Lemma parse_defaultDocument (today : jsstring) :
  ExtractedDataSchema.parse (AIService.defaultDocument today) =
  Zod.Success
    (ExtractedData.mk
       (Vendor.mk (js "Unknown Vendor") (Some []) (Some []))
       (InvoiceData.mk (js "Unknown") today (js "INR")
          (Some (of_Z 0)) (Some (of_Z 18)) (Some (of_Z 0))
          (Some []) (Some today) [])).
Proof. vm_compute. reflexivity. Qed.

(** C4: when the reply of the model parses to a value whose
    [invoice.currency] is [null] or absent, the validated record has
    currency ["INR"].  The sanitizer serialises the value again and
    [extractDataFromPDF] parses that text, so the runtime is assumed to
    parse the sanitizer's output back to the value it serialised. *)
Theorem null_currency_validated_as_INR
  (rt : Runtime.t) (text : jsstring) (parsed : json) (d : ExtractedData.t) :
  Runtime.JSON_parse rt (AIService.stripFences text) = Returned parsed ->
  AIService.currencyNullOrAbsent parsed ->
  AIService.roundTrips rt (AIService.defaultDocument (Runtime.today rt)) ->
  (forall v, AIService.fixNullCurrency parsed = Some v -> AIService.roundTrips rt v) ->
  AIService.validateResponse rt text = Returned d ->
  InvoiceData.currency (ExtractedData.invoice d) = js "INR".
Proof.
  intros Hparse Hcur Hdefault Hround.
  unfold AIService.validateResponse, AIService.cleanJsonResponse.
  destruct (negb (truthy (AIService.stripFences text))
            || Js.eqb (AIService.stripFences text) (js "{}")).
  - rewrite Hdefault, parse_defaultDocument. intros H.
    injection H as Hd. rewrite <- Hd. reflexivity.
  - rewrite Hparse.
    destruct (AIService.fixNullCurrency parsed) as [v|] eqn:Hfix.
    + rewrite (Hround v eq_refl).
      destruct (ExtractedDataSchema.parse v) as [d'|] eqn:Hv; [|discriminate].
      intros H. injection H as <-. by eapply fixNullCurrency_validated.
    + destruct Hcur as (inv & Hinv & _).
      destruct parsed as [| | | | |props]; try discriminate.
      unfold AIService.fixNullCurrency in Hfix.
      destruct (getProp (js "invoice") props) as [[| | | | |inv0]|]; try discriminate.
      destruct (getProp (js "currency") inv0) as [[]|]; discriminate.
Qed.

Lemma null_currency_validated_as_INR_witness :
  exists d,
    AIService.validateResponse (Double.runtime (Some (js "key")) Double.table [])
      (js "```json" ++ LF ++ Double.replyText "'currency':null," ++ LF ++ js "```")
    = Returned d
    /\ InvoiceData.currency (ExtractedData.invoice d) = js "INR".
Proof.
  eexists. split; [vm_compute; reflexivity|].
  eapply (null_currency_validated_as_INR
            (Double.runtime (Some (js "key")) Double.table [])
            (js "```json" ++ LF ++ Double.replyText "'currency':null," ++ LF ++ js "```")
            (Double.replyValue [ (js "currency", JNull) ])).
  - vm_compute. reflexivity.
  - eexists. split; [vm_compute; reflexivity|]. left. vm_compute. reflexivity.
  - vm_compute. reflexivity.
  - intros v Hv. vm_compute in Hv. injection Hv as <-. vm_compute. reflexivity.
  - vm_compute. reflexivity.
Defined.

(** ** The Extraction Orchestrator *)

Lemma includes_truthy (s p : jsstring) :
  p <> [] -> includes s p = true -> truthy s = true.
Proof.
  intros Hp H. apply includes_true in H. destruct H as (pre & post & ->).
  destruct pre; [destruct p; done | done].
Qed.

Example createTextHash_examples :
  AIService.createTextHash (js "hello world hello world") = js "631401320"
  /\ AIService.createTextHash [] = js "0"
  /\ AIService.createTextHash (js "Aa") = AIService.createTextHash (js "BB").
Proof. repeat split; vm_compute; reflexivity. Qed.

Lemma new_cache_empty (k : jsstring) : AIService.cache AIService.new !! k = None.
Proof. apply lookup_empty. Qed.

(** A hit returns the cached record: no model call, no validation. *)
Lemma extractDataFromPDF_hit (rt : Runtime.t) (this : AIService.t) (pdfText : jsstring)
  (w : World.t) (cached : ExtractedData.t) :
  AIService.cache this !! AIService.createTextHash pdfText = Some cached ->
  AIService.extractDataFromPDF rt this pdfText w = (Returned cached, this, w).
Proof. intros H. unfold AIService.extractDataFromPDF. by rewrite H. Qed.

(** A record returned by [extractDataFromPDF] is in the cache of the
    instance afterwards, under the hash of the text. *)
Lemma extractDataFromPDF_caches (rt : Runtime.t) (this this' : AIService.t)
  (pdfText : jsstring) (w w' : World.t) (d : ExtractedData.t) :
  AIService.extractDataFromPDF rt this pdfText w = (Returned d, this', w') ->
  AIService.cache this' !! AIService.createTextHash pdfText = Some d.
Proof.
  unfold AIService.extractDataFromPDF.
  destruct (AIService.cache this !! AIService.createTextHash pdfText) as [c|] eqn:Hc.
  - intros H. injection H as <- <- <-. exact Hc.
  - unfold AIService.extractUncached.
    destruct (AIService.keyMissing rt); [cbn; discriminate|].
    destruct (AIService.extractWithGemini rt _ w) as [[extractedText|error] w1].
    + destruct (AIService.validateResponse rt extractedText) as [v|error].
      * intros H. injection H as <- <- <-. cbn. apply lookup_insert_eq.
      * destruct (AIService.isQuotaExceededError rt error); [|discriminate].
        intros H. injection H as <- <- <-. cbn. apply lookup_insert_eq.
    + destruct (AIService.isQuotaExceededError rt error); [|discriminate].
      intros H. injection H as <- <- <-. cbn. apply lookup_insert_eq.
Qed.

(** On one instance, a second call for a text with the same hash returns
    the record of the first and leaves the instance and the model
    untouched. *)
Lemma extractDataFromPDF_twice_same_instance (rt : Runtime.t) (this this' : AIService.t)
  (text1 text2 : jsstring) (w w' : World.t) (d : ExtractedData.t) :
  AIService.createTextHash text2 = AIService.createTextHash text1 ->
  AIService.extractDataFromPDF rt this text1 w = (Returned d, this', w') ->
  AIService.extractDataFromPDF rt this' text2 w' = (Returned d, this', w').
Proof.
  intros Hh H. apply extractDataFromPDF_caches in H.
  apply extractDataFromPDF_hit. by rewrite Hh.
Qed.

(** With a key configured and no cached record, the model is called
    exactly once, with the prompt of the text. *)
Lemma extractDataFromPDF_miss_calls (rt : Runtime.t) (this : AIService.t)
  (pdfText : jsstring) (w : World.t) :
  AIService.cache this !! AIService.createTextHash pdfText = None ->
  AIService.keyMissing rt = false ->
  World.upstreamCalls (AIService.extractDataFromPDF rt this pdfText w).2
  = World.upstreamCalls w ++ [AIService.createExtractionPrompt pdfText].
Proof.
  intros Hc Hk. unfold AIService.extractDataFromPDF, AIService.extractUncached.
  rewrite Hc, Hk. unfold AIService.extractWithGemini.
  destruct (Runtime.generateContent rt _ _) as [replyText|error].
  - destruct (AIService.validateResponse rt replyText) as [v|error]; [done|].
    by destruct (AIService.isQuotaExceededError rt error).
  - by destruct (AIService.isQuotaExceededError rt _).
Qed.

(** On one instance even a different text is answered from the cache
    when its hash is the same: no second model call is made. *)
Example same_instance_same_hash :
  exists d this1 w1,
    AIService.extractDataFromPDF Double.twoReplies AIService.new (js "Aa") World.initial
      = (Returned d, this1, w1)
    /\ AIService.extractDataFromPDF Double.twoReplies this1 (js "BB") w1
      = (Returned d, this1, w1)
    /\ length (World.upstreamCalls w1) = 1%nat.
Proof.
  destruct (AIService.extractDataFromPDF Double.twoReplies AIService.new (js "Aa")
              World.initial) as [[[d|e] this1] w1] eqn:E;
    [|vm_compute in E; discriminate].
  exists d, this1, w1. split; [reflexivity|]. split.
  - apply (extractDataFromPDF_twice_same_instance Double.twoReplies AIService.new this1
             (js "Aa") (js "BB") World.initial w1 d); [vm_compute; reflexivity | exact E].
  - assert (H := extractDataFromPDF_miss_calls Double.twoReplies AIService.new (js "Aa")
                   World.initial (new_cache_empty _) eq_refl).
    rewrite E in H. cbn in H. by rewrite H.
Qed.

(** A ["429 Too Many Requests"] failure of the model: the fallback record
    is returned and cached. *)
Lemma extractDataFromPDF_quota (rt : Runtime.t) (this : AIService.t)
  (pdfText : jsstring) (w : World.t) (e : Error.t) :
  AIService.cache this !! AIService.createTextHash pdfText = None ->
  AIService.keyMissing rt = false ->
  Runtime.generateContent rt (length (World.upstreamCalls w))
    (AIService.createExtractionPrompt pdfText) = Threw (Err e) ->
  includes (Error.message e) (js "429 Too Many Requests") = true ->
  AIService.extractDataFromPDF rt this pdfText w =
  (Returned (AIService.getFallbackData rt),
   AIService.mk (<[AIService.createTextHash pdfText := AIService.getFallbackData rt]>
                   (AIService.cache this)),
   World.mk (World.upstreamCalls w ++ [AIService.createExtractionPrompt pdfText])).
Proof.
  intros Hc Hk Hg Hi.
  unfold AIService.extractDataFromPDF, AIService.extractUncached,
    AIService.extractWithGemini.
  rewrite Hc, Hk, Hg. unfold AIService.rethrowUpstream.
  assert (Ht : truthy (Error.message e) = true).
  { apply (includes_truthy _ (js "429 Too Many Requests")); [|exact Hi].
    intros Hnil. vm_compute in Hnil. discriminate. }
  rewrite Hi, Ht. reflexivity.
Qed.

(** Without a key: the wrapped error, no model call, nothing cached. *)
Lemma extractDataFromPDF_no_key (rt : Runtime.t) (this : AIService.t)
  (pdfText : jsstring) (w : World.t) :
  AIService.cache this !! AIService.createTextHash pdfText = None ->
  AIService.keyMissing rt = true ->
  AIService.extractDataFromPDF rt this pdfText w =
  (Threw (Err (Error.mk (js "Error")
     (js "Failed to extract data with Gemini: GEMINI_API_KEY not configured"))),
   this, w).
Proof.
  intros Hc Hk. unfold AIService.extractDataFromPDF, AIService.extractUncached.
  rewrite Hc, Hk. reflexivity.
Qed.

(** ** The extract endpoint *)

(** Once the request is valid and the text of the document is at hand,
    the handler runs [extractDataFromPDF] on a new instance. *)
Lemma tryExtract_reaches_service (rt : Runtime.t) (reqBody : json) (w : World.t)
  (req : ExtractRequest.t) (pdfBuffer : list N) (text : jsstring) :
  ExtractRequestSchema.parse reqBody = Zod.Success req ->
  ExtractRoute.loadPdf rt req = Returned pdfBuffer ->
  Runtime.pdf rt pdfBuffer = Returned text ->
  ExtractRoute.tryExtract rt reqBody w =
  ((AIService.extractDataFromPDF rt AIService.new text w).1.1,
   (AIService.extractDataFromPDF rt AIService.new text w).2).
Proof.
  intros Hreq Hload Hpdf. unfold ExtractRoute.tryExtract.
  rewrite Hreq, Hload, Hpdf.
  by destruct (AIService.extractDataFromPDF rt AIService.new text w) as [[r s] w'].
Qed.


(** C1 (the code departs from the claim): when the model call fails with
    a message containing ["429 Too Many Requests"], [extractDataFromPDF]
    returns the fallback record, so the handler never sees a
    [QuotaExceededError]: it answers 200 with the fallback record, not
    429.  The advisory for the error the service raises would not report
    an exceeded quota either, since its message lacks the text
    [getQuotaInfo] looks for. *)
Theorem quota_failure_answers_200
  (rt : Runtime.t) (reqBody : json) (w : World.t)
  (req : ExtractRequest.t) (pdfBuffer : list N) (text : jsstring) (e : Error.t) :
  ExtractRequestSchema.parse reqBody = Zod.Success req ->
  ExtractRoute.loadPdf rt req = Returned pdfBuffer ->
  Runtime.pdf rt pdfBuffer = Returned text ->
  AIService.keyMissing rt = false ->
  Runtime.generateContent rt (length (World.upstreamCalls w))
    (AIService.createExtractionPrompt text) = Threw (Err e) ->
  occursIn (js "429 Too Many Requests") (Error.message e) ->
  let fallback := AIService.getFallbackData rt in
  (AIService.extractDataFromPDF rt AIService.new text w).1.1 = Returned fallback
  /\ Vendor.name (ExtractedData.vendor fallback) = js "Vendor Name (Quota Exceeded)"
  /\ InvoiceData.number (ExtractedData.invoice fallback) = js "INV-QUOTA-EXCEEDED"
  /\ length (InvoiceData.lineItems (ExtractedData.invoice fallback)) = 1%nat
  /\ (ExtractRoute.post rt reqBody w).1 =
     ExtractRoute.mkResponse 200 (ExtractRoute.Extracted fallback)
  /\ QuotaInfo.isQuotaExceeded
       (QuotaHelper.getQuotaInfo
          (Error.mk (js "QuotaExceededError") AIService.quotaExceededMessage)) = false.
Proof.
  intros Hreq Hload Hpdf Hk Hg Ho fallback.
  apply includes_true in Ho.
  pose proof (extractDataFromPDF_quota rt AIService.new text w e
                (new_cache_empty _) Hk Hg Ho) as Hx.
  repeat split.
  - by rewrite Hx.
  - unfold ExtractRoute.post.
    rewrite (tryExtract_reaches_service rt reqBody w req pdfBuffer text Hreq Hload Hpdf).
    by rewrite Hx.
Qed.

Lemma quota_failure_answers_200_witness :
  (ExtractRoute.post
     (Double.runtime (Some (js "key")) Double.table [Double.tooManyRequests])
     Double.extractBody World.initial).1 =
  ExtractRoute.mkResponse 200
    (ExtractRoute.Extracted
       (AIService.getFallbackData
          (Double.runtime (Some (js "key")) Double.table [Double.tooManyRequests]))).
Proof.
  eapply (quota_failure_answers_200
            (Double.runtime (Some (js "key")) Double.table [Double.tooManyRequests])
            Double.extractBody World.initial
            Double.extractRequest Double.pdfBytes Double.pdfText).
  - vm_compute. reflexivity.
  - vm_compute. reflexivity.
  - vm_compute. reflexivity.
  - vm_compute. reflexivity.
  - vm_compute. reflexivity.
  - exists (js "[GoogleGenerativeAI Error]: Error fetching: ["),
      (js "] Resource has been exhausted").
    vm_compute. reflexivity.
Defined.

(** C5 (the code departs from the claim): without a configured key the
    extraction fails with the wrapped message, makes no model call and
    caches nothing; but that message does not contain ["API key"], so the
    handler answers 500, not 401. *)
Theorem missing_key_answers_500
  (rt : Runtime.t) (reqBody : json) (w : World.t)
  (req : ExtractRequest.t) (pdfBuffer : list N) (text : jsstring) :
  ExtractRequestSchema.parse reqBody = Zod.Success req ->
  ExtractRoute.loadPdf rt req = Returned pdfBuffer ->
  Runtime.pdf rt pdfBuffer = Returned text ->
  AIService.keyMissing rt = true ->
  let message := js "Failed to extract data with Gemini: GEMINI_API_KEY not configured" in
  AIService.extractDataFromPDF rt AIService.new text w =
    (Threw (Err (Error.mk (js "Error") message)), AIService.new, w)
  /\ ExtractRoute.post rt reqBody w =
     (ExtractRoute.mkResponse 500 (ExtractRoute.ExtractionFailed message), w).
Proof.
  intros Hreq Hload Hpdf Hk message.
  pose proof (extractDataFromPDF_no_key rt AIService.new text w
                (new_cache_empty _) Hk) as Hx.
  split; [exact Hx|].
  unfold ExtractRoute.post.
  rewrite (tryExtract_reaches_service rt reqBody w req pdfBuffer text Hreq Hload Hpdf).
  rewrite Hx. reflexivity.
Qed.

Lemma missing_key_answers_500_witness :
  ExtractRoute.post (Double.runtime None Double.table []) Double.extractBody World.initial =
  (ExtractRoute.mkResponse 500
     (ExtractRoute.ExtractionFailed
        (js "Failed to extract data with Gemini: GEMINI_API_KEY not configured")),
   World.initial).
Proof.
  eapply (missing_key_answers_500 (Double.runtime None Double.table [])
            Double.extractBody World.initial
            Double.extractRequest Double.pdfBytes Double.pdfText).
  - vm_compute. reflexivity.
  - vm_compute. reflexivity.
  - vm_compute. reflexivity.
  - vm_compute. reflexivity.
Defined.

(** The sibling path: a key the model rejects is answered with 401. *)
Example rejected_key_answers_401 :
  (ExtractRoute.post
     (Double.runtime (Some (js "bad")) Double.table
        [Threw (Err (Error.mk (js "Error") (js "API key not valid. Please pass a valid API key.")))])
     Double.extractBody World.initial).1 =
  ExtractRoute.mkResponse 401
    (ExtractRoute.ApiConfigurationError
       (js "Failed to extract data with Gemini: " ++ AIService.invalidKeyMessage)).
Proof. vm_compute. reflexivity. Qed.

(** C2 (the code departs from the claim): the handler creates a new
    [AIService], hence an empty cache, for every request.  After a request
    that completed successfully, a second request for a text with the
    same hash calls the model again. *)
Theorem second_request_calls_model_again
  (rt : Runtime.t) (body1 body2 : json) (w w1 : World.t)
  (req1 req2 : ExtractRequest.t) (buffer1 buffer2 : list N) (text1 text2 : jsstring)
  (d1 : ExtractedData.t) :
  ExtractRequestSchema.parse body1 = Zod.Success req1 ->
  ExtractRoute.loadPdf rt req1 = Returned buffer1 ->
  Runtime.pdf rt buffer1 = Returned text1 ->
  ExtractRequestSchema.parse body2 = Zod.Success req2 ->
  ExtractRoute.loadPdf rt req2 = Returned buffer2 ->
  Runtime.pdf rt buffer2 = Returned text2 ->
  AIService.createTextHash text2 = AIService.createTextHash text1 ->
  AIService.keyMissing rt = false ->
  ExtractRoute.post rt body1 w = (ExtractRoute.mkResponse 200 (ExtractRoute.Extracted d1), w1) ->
  World.upstreamCalls w1 =
    World.upstreamCalls w ++ [AIService.createExtractionPrompt text1]
  /\ World.upstreamCalls (ExtractRoute.post rt body2 w1).2 =
     World.upstreamCalls w ++ [AIService.createExtractionPrompt text1;
                               AIService.createExtractionPrompt text2].
Proof.
  intros Hreq1 Hload1 Hpdf1 Hreq2 Hload2 Hpdf2 _ Hk Hpost.
  assert (Hcalls : forall body req buffer text w0,
            ExtractRequestSchema.parse body = Zod.Success req ->
            ExtractRoute.loadPdf rt req = Returned buffer ->
            Runtime.pdf rt buffer = Returned text ->
            World.upstreamCalls (ExtractRoute.post rt body w0).2 =
            World.upstreamCalls w0 ++ [AIService.createExtractionPrompt text]).
  { intros body req buffer text w0 Hreq Hload Hpdf. unfold ExtractRoute.post.
    rewrite (tryExtract_reaches_service rt body w0 req buffer text Hreq Hload Hpdf).
    rewrite <- (extractDataFromPDF_miss_calls rt AIService.new text w0
                  (new_cache_empty _) Hk).
    by destruct (AIService.extractDataFromPDF rt AIService.new text w0) as [[[?|?] ?] ?]. }
  pose proof (Hcalls body1 req1 buffer1 text1 w Hreq1 Hload1 Hpdf1) as H1.
  rewrite Hpost in H1. cbn in H1. split; [exact H1|].
  rewrite (Hcalls body2 req2 buffer2 text2 w1 Hreq2 Hload2 Hpdf2), H1.
  by rewrite <- app_assoc.
Qed.

Lemma second_request_calls_model_again_witness :
  World.upstreamCalls
    (ExtractRoute.post Double.twoReplies Double.extractBody
       (World.mk [AIService.createExtractionPrompt Double.pdfText])).2 =
  World.upstreamCalls World.initial
  ++ [AIService.createExtractionPrompt Double.pdfText;
      AIService.createExtractionPrompt Double.pdfText].
Proof.
  refine (proj2 (second_request_calls_model_again Double.twoReplies
                   Double.extractBody Double.extractBody
                   World.initial (World.mk [AIService.createExtractionPrompt Double.pdfText])
                   Double.extractRequest Double.extractRequest
                   Double.pdfBytes Double.pdfBytes Double.pdfText Double.pdfText
                   Double.defaultRecord _ _ _ _ _ _ _ _ _));
    vm_compute; reflexivity.
Defined.

(** The two requests are answered from two model replies: the second
    response does not carry the record of the first. *)
Example second_request_other_record :
  exists d1 w1 d2 w2,
    ExtractRoute.post Double.twoReplies Double.extractBody World.initial =
      (ExtractRoute.mkResponse 200 (ExtractRoute.Extracted d1), w1)
    /\ ExtractRoute.post Double.twoReplies Double.extractBody w1 =
      (ExtractRoute.mkResponse 200 (ExtractRoute.Extracted d2), w2)
    /\ Vendor.name (ExtractedData.vendor d1) = js "Unknown Vendor"
    /\ Vendor.name (ExtractedData.vendor d2) = js "ACME"
    /\ length (World.upstreamCalls w2) = 2%nat.
Proof.
  eexists _, _, _, _.
  split; [vm_compute; reflexivity|].
  split; [vm_compute; reflexivity|].
  repeat split; vm_compute; reflexivity.
Qed.

(** ** The invoice repository *)

Lemma findOne_Some (fileId : jsstring) (db : list Invoice.t) (existing : Invoice.t) :
  existing ∈ db -> Invoice.fileId existing = fileId ->
  exists found, Invoice.findOne fileId db = Some found.
Proof.
  intros Hin Hid. unfold Invoice.findOne.
  induction db as [|x db IH]; [by apply elem_of_nil in Hin|].
  cbn [find]. destruct (Js.eqb (Invoice.fileId x) fileId) eqn:E; [by eexists|].
  apply elem_of_cons in Hin. destruct Hin as [-> | Hin]; [|by apply IH].
  unfold Js.eqb in E. by rewrite bool_decide_eq_true_2 in E.
Qed.

(** The [fileId] of an accepted creation request is the string under the
    key [fileId] of its body. *)
Lemma createInvoice_fileId (reqBody : json) (data : CreateInvoice.t) :
  CreateInvoiceSchema.parse reqBody = Zod.Success data ->
  member reqBody (js "fileId") = Some (JStr (CreateInvoice.fileId data)).
Proof.
  unfold CreateInvoiceSchema.parse, CreateInvoiceSchema.schema. intros H.
  apply z_object_Success in H. destruct H as (o & Ho & H). injection Ho as ->.
  ap_inversion H. subst. cbn [CreateInvoice.fileId member].
  match goal with Hf : Zod.field "fileId" _ _ _ = _ |- _ =>
    unfold Zod.field, Zod.z_string in Hf;
    destruct (getProp (js "fileId") o) as [[]|]; try discriminate;
    by injection Hf as ->
  end.
Qed.

(** C7, as stated, fails: validation comes before the lookup, so a
    request that carries the [fileId] of a stored invoice but is not a
    well-formed creation request is answered 400, not 409. *)
Lemma duplicate_fileId_not_always_409 :
  ~ (forall (objectId : jsstring) (now saved : Z) (reqBody : json)
            (db : list Invoice.t) (existing : Invoice.t),
       existing ∈ db ->
       member reqBody (js "fileId") = Some (JStr (Invoice.fileId existing)) ->
       InvoiceRoutes.status (InvoiceRoutes.createInvoice objectId now saved reqBody db).1
       = 409
       /\ (InvoiceRoutes.createInvoice objectId now saved reqBody db).2 = db).
Proof.
  intros H.
  destruct (H (js "id-2") 5 6 (JObj [ (js "fileId", JStr (js "f-1")) ])
              [Double.stored 1] (Double.stored 1)) as [H409 _].
  - apply elem_of_cons. by left.
  - vm_compute. reflexivity.
  - vm_compute in H409. discriminate.
Qed.

(** C7, amended: a creation request whose [fileId] is that of a stored
    invoice leaves the stored collection as it was (no record changed,
    none added), and when the request is well formed, that is accepted by
    [CreateInvoiceSchema], it is answered with 409. *)
Theorem duplicate_fileId_answers_409
  (objectId : jsstring) (now saved : Z) (reqBody : json) (db : list Invoice.t)
  (fileId : jsstring) (existing : Invoice.t) :
  member reqBody (js "fileId") = Some (JStr fileId) ->
  existing ∈ db ->
  Invoice.fileId existing = fileId ->
  (InvoiceRoutes.createInvoice objectId now saved reqBody db).2 = db
  /\ forall data : CreateInvoice.t,
       CreateInvoiceSchema.parse reqBody = Zod.Success data ->
       InvoiceRoutes.createInvoice objectId now saved reqBody db =
       (InvoiceRoutes.mkResponse 409 InvoiceRoutes.AlreadyExists, db).
Proof.
  intros Hbody Hin Hid.
  assert (H409 : forall data : CreateInvoice.t,
            CreateInvoiceSchema.parse reqBody = Zod.Success data ->
            InvoiceRoutes.createInvoice objectId now saved reqBody db =
            (InvoiceRoutes.mkResponse 409 InvoiceRoutes.AlreadyExists, db)).
  { intros data Hparse.
    rewrite (createInvoice_fileId reqBody data Hparse) in Hbody. injection Hbody as <-.
    destruct (findOne_Some _ db existing Hin Hid) as [found Hfound].
    unfold InvoiceRoutes.createInvoice. by rewrite Hparse, Hfound. }
  split; [|exact H409].
  destruct (CreateInvoiceSchema.parse reqBody) as [data|issues] eqn:Hparse.
  - by rewrite (H409 data eq_refl).
  - unfold InvoiceRoutes.createInvoice. by rewrite Hparse.
Qed.

Lemma duplicate_fileId_answers_409_witness :
  InvoiceRoutes.createInvoice (js "id-2") 1705300000000 1705300000001 Double.createBody
    [Double.stored 1; Double.stored 2] =
  (InvoiceRoutes.mkResponse 409 InvoiceRoutes.AlreadyExists,
   [Double.stored 1; Double.stored 2]).
Proof.
  eapply (duplicate_fileId_answers_409 (js "id-2") 1705300000000 1705300000001
            Double.createBody [Double.stored 1; Double.stored 2] (js "f-1")
            (Double.stored 1)).
  - vm_compute. reflexivity.
  - apply elem_of_cons. by left.
  - vm_compute. reflexivity.
  - vm_compute. reflexivity.
Defined.

(** Validation comes first: a body that the schema rejects is answered
    with 400 whatever its [fileId]; a new [fileId] is stored with 201. *)
Example createInvoice_other_paths :
  (InvoiceRoutes.createInvoice (js "id-2") 5 6 (JObj [ (js "fileId", JStr (js "f-1")) ])
     [Double.stored 1]).1.(InvoiceRoutes.status) = 400
  /\ (InvoiceRoutes.createInvoice (js "id-2") 5 6 (JObj [ (js "fileId", JStr (js "f-1")) ])
        [Double.stored 1]).2 = [Double.stored 1]
  /\ (InvoiceRoutes.createInvoice (js "id-2") 5 6 Double.createBody [Double.stored 2]).1.(InvoiceRoutes.status) = 201
  /\ length (InvoiceRoutes.createInvoice (js "id-2") 5 6 Double.createBody [Double.stored 2]).2 = 2%nat.
Proof. repeat split; vm_compute; reflexivity. Qed.

(** ** Listing *)

(** An integer below [2^53] in magnitude is a number. *)
Lemma round_exact (z : Z) : Z.abs z < 2 ^ 53 -> Integral.round z = Integral.Fin z.
Proof.
  intros H. unfold Integral.round.
  destruct (Z.abs z <? 2 ^ 53) eqn:E; [done|]. apply Z.ltb_ge in E. lia.
Qed.

Lemma skipped_drop (n : Z) (docs : list Invoice.t) :
  0 <= n -> InvoiceRoutes.skipped n docs = drop (Z.to_nat n) docs.
Proof.
  intros Hn. unfold InvoiceRoutes.skipped.
  destruct (Z.of_nat (length docs) <=? n) eqn:E; [|done].
  apply Z.leb_le in E. symmetry. apply drop_ge. lia.
Qed.

Lemma limited_take (n : Z) (docs : list Invoice.t) :
  0 <= n -> InvoiceRoutes.limited n docs = take (Z.to_nat n) docs.
Proof.
  intros Hn. unfold InvoiceRoutes.limited.
  destruct (Z.of_nat (length docs) <=? n) eqn:E; [|done].
  apply Z.leb_le in E. symmetry. apply take_ge. lia.
Qed.

(** [ceilDiv] is the ceiling of the quotient. *)
Lemma ceilDiv_ceiling (total limitNum : Z) :
  1 <= limitNum ->
  exists pages, InvoiceRoutes.ceilDiv total (Some (Integral.Fin limitNum)) = Some pages
    /\ (pages - 1) * limitNum < total <= pages * limitNum.
Proof.
  intros Hl. unfold InvoiceRoutes.ceilDiv.
  destruct (limitNum =? 0) eqn:E; [apply Z.eqb_eq in E; lia|].
  eexists. split; [reflexivity|].
  pose proof (Z.div_mod (- total) limitNum ltac:(lia)).
  pose proof (Z.mod_pos_bound (- total) limitNum ltac:(lia)).
  nia.
Qed.

Lemma insertDesc_Permutation (tie : Invoice.TieOrder) (d : Invoice.t)
  (sorted : list Invoice.t) :
  Invoice.insertDesc tie d sorted ≡ₚ d :: sorted.
Proof.
  induction sorted as [|x sorted IH]; [done|]. cbn [Invoice.insertDesc].
  destruct (Invoice.precedes tie d x); [done|].
  rewrite IH. apply Permutation_swap.
Qed.

(** Sorting keeps the documents. *)
Lemma sortCreatedAtDesc_Permutation (tie : Invoice.TieOrder) (docs : list Invoice.t) :
  Invoice.sortCreatedAtDesc tie docs ≡ₚ docs.
Proof.
  induction docs as [|d docs IH]; [done|]. cbn [Invoice.sortCreatedAtDesc fold_right].
  etrans; [apply insertDesc_Permutation|]. by apply Permutation_skip.
Qed.

(** When no two documents have the same [createdAt], every engine
    returns them in the same order. *)
Lemma insertDesc_tie_irrelevant (tie1 tie2 : Invoice.TieOrder) (d : Invoice.t)
  (sorted : list Invoice.t) :
  Invoice.createdAt d ∉ (Invoice.createdAt <$> sorted) ->
  Invoice.insertDesc tie1 d sorted = Invoice.insertDesc tie2 d sorted.
Proof.
  induction sorted as [|x sorted IH]; [done|]. cbn [Invoice.insertDesc fmap list_fmap].
  intros Hn. apply not_elem_of_cons in Hn as [Hx Hn].
  unfold Invoice.precedes.
  assert ((Invoice.createdAt x =? Invoice.createdAt d) = false) as ->
    by (apply Z.eqb_neq; congruence).
  cbn [andb]. rewrite !orb_false_r.
  destruct (Invoice.createdAt x <? Invoice.createdAt d); [done|]. by rewrite IH.
Qed.

Lemma sortCreatedAtDesc_tie_irrelevant (tie1 tie2 : Invoice.TieOrder)
  (docs : list Invoice.t) :
  NoDup (Invoice.createdAt <$> docs) ->
  Invoice.sortCreatedAtDesc tie1 docs = Invoice.sortCreatedAtDesc tie2 docs.
Proof.
  induction docs as [|d docs IH]; [done|]. cbn [fmap list_fmap]. intros Hnd.
  apply NoDup_cons in Hnd as [Hd Hnd].
  cbn [Invoice.sortCreatedAtDesc fold_right].
  change (fold_right (Invoice.insertDesc tie1) [] docs)
    with (Invoice.sortCreatedAtDesc tie1 docs).
  change (fold_right (Invoice.insertDesc tie2) [] docs)
    with (Invoice.sortCreatedAtDesc tie2 docs).
  rewrite (IH Hnd). apply insertDesc_tie_irrelevant.
  by rewrite (sortCreatedAtDesc_Permutation tie2 docs).
Qed.

Lemma page_bounds (c53 c63 p l : Z) :
  c53 < c63 -> 1 <= p -> 1 <= l -> p * l < c53 ->
  Z.abs (p - 1) < c53
  /\ Z.abs ((p - 1) * l) < c53
  /\ (- c63 <=? (p - 1) * l) && ((p - 1) * l <? c63) = true
  /\ (- c63 <=? l) && (l <? c63) = true
  /\ 0 <= (p - 1) * l
  /\ 0 <= l.
Proof.
  intros Hc Hp Hl Hpl.
  assert (0 <= (p - 1) * l < c53) by nia.
  assert (l < c53) by nia.
  assert (p < c53) by nia.
  split; [lia|]. split; [lia|]. split; [|split; [|lia]].
  - apply andb_true_iff. split; [apply Z.leb_le | apply Z.ltb_lt]; lia.
  - apply andb_true_iff. split; [apply Z.leb_le | apply Z.ltb_lt]; lia.
Qed.

(** The page the list handler sends for a positive page number and page
    size whose product is below [2^53]. *)
Lemma listInvoices_page (regex : InvoiceRoutes.RegexEngine) (engine : Engine.t)
  (query : InvoiceRoutes.ListQuery) (db found : list Invoice.t) (pageNum limitNum : Z) :
  parseInt (default (js "1") (InvoiceRoutes.pageParam query))
    = Some (Integral.Fin pageNum) ->
  parseInt (default (js "10") (InvoiceRoutes.limitParam query))
    = Some (Integral.Fin limitNum) ->
  1 <= pageNum -> 1 <= limitNum -> pageNum * limitNum < 2 ^ 53 ->
  InvoiceRoutes.matching regex (InvoiceRoutes.q query) db = Some found ->
  exists pages,
    InvoiceRoutes.listInvoices regex engine query db =
      InvoiceRoutes.mkResponse 200
        (InvoiceRoutes.Listed
           (take (Z.to_nat limitNum)
              (drop (Z.to_nat ((pageNum - 1) * limitNum))
                 (Invoice.sortCreatedAtDesc (Engine.tie engine) found)))
           (InvoiceRoutes.mkPagination (Some (Integral.Fin pageNum))
              (Some (Integral.Fin limitNum)) (Z.of_nat (length found)) (Some pages)))
    /\ (pages - 1) * limitNum < Z.of_nat (length found) <= pages * limitNum.
Proof.
  intros Hp Hl Hp1 Hl1 Hb53 Hm.
  destruct (ceilDiv_ceiling (Z.of_nat (length found)) limitNum Hl1) as (pages & Hc & Hb).
  exists pages. split; [|exact Hb].
  destruct (page_bounds (2 ^ 53) (2 ^ 63) pageNum limitNum)
    as (B1 & B2 & B3 & B4 & B5 & B6); [reflexivity | done | done | done |].
  unfold InvoiceRoutes.listInvoices. rewrite Hp, Hl, Hm, Hc.
  unfold InvoiceRoutes.skipOf, Integral.minus_one, Integral.times.
  rewrite (round_exact (pageNum - 1)) by done.
  rewrite (round_exact ((pageNum - 1) * limitNum)) by done.
  unfold InvoiceRoutes.skipLimit, InvoiceRoutes.int64.
  rewrite B3, B4. cbn [andb negb]. rewrite andb_false_r.
  destruct ((pageNum - 1) * limitNum <? 0) eqn:E1; [apply Z.ltb_lt in E1; lia|].
  destruct (limitNum =? 0) eqn:E2; [apply Z.eqb_eq in E2; lia|].
  cbn [fmap option_fmap option_map].
  rewrite skipped_drop by lia. rewrite limited_take by lia.
  by rewrite Z.abs_eq by lia.
Qed.

(** C8, as stated, fails in two ways.  The order of invoices with the
    same [createdAt] is the engine's choice in each query, so page 2 need
    not hold the records that page 1 left out.  And a [limit] that is too
    large for a number is read as [Infinity]: an engine that clamps it
    answers with [pages] 0, an engine that rejects it makes the handler
    answer 500, and neither is the ceiling of [total / limit]. *)
Lemma list_pagination_not_unconditional :
  ~ (forall (engine1 engine2 : Engine.t) (db : list Invoice.t),
       length db = 15%nat ->
       listed (InvoiceRoutes.listInvoices Double.literalRegex engine1
                 (InvoiceRoutes.mkListQuery None (Some (js "1")) (Some (js "10"))) db)
       ++ listed (InvoiceRoutes.listInvoices Double.literalRegex engine2
                    (InvoiceRoutes.mkListQuery None (Some (js "2")) (Some (js "10"))) db)
       ≡ₚ db)
  /\ (forall clamps : bool,
        ~ (forall (page limit : Z) (db : list Invoice.t),
             1 <= page -> 1 <= limit ->
             exists invoices pagination pages,
               InvoiceRoutes.listInvoices Double.literalRegex
                 (Engine.mk (fun _ => 0) clamps)
                 (InvoiceRoutes.mkListQuery None (Some (toString page))
                    (Some (toString limit))) db
               = InvoiceRoutes.mkResponse 200 (InvoiceRoutes.Listed invoices pagination)
               /\ InvoiceRoutes.pages pagination = Some pages
               /\ (pages - 1) * limit < Z.of_nat (length db) <= pages * limit)).
Proof.
  split.
  - intros H. specialize (H Double.rejecting Double.savedLast Double.tied eq_refl).
    assert (Hin : js "id-15" ∈ (Invoice.id <$> Double.tied)).
    { apply (bool_decide_unpack _). vm_compute. exact I. }
    rewrite <- H in Hin. revert Hin.
    apply (bool_decide_unpack (js "id-15" ∉ _)). vm_compute. exact I.
  - intros clamps H.
    destruct (H 2 (10 ^ 309) Double.fifteen)
      as (invoices & pagination & pages & Hr & Hp & _ & Hb);
      [unfold Z.le; vm_compute; discriminate | unfold Z.le; vm_compute; discriminate |].
    change (Z.of_nat (length Double.fifteen)) with 15 in Hb.
    destruct clamps.
    + assert (E : InvoiceRoutes.listInvoices Double.literalRegex
                    (Engine.mk (fun _ => 0) true)
                    (InvoiceRoutes.mkListQuery None (Some (toString 2))
                       (Some (toString (10 ^ 309)))) Double.fifteen
                  = InvoiceRoutes.mkResponse 200
                      (InvoiceRoutes.Listed []
                         (InvoiceRoutes.mkPagination (Some (Integral.Fin 2))
                            (Some (Integral.Inf false)) 15 (Some 0))))
        by (vm_compute; reflexivity).
      rewrite E in Hr. clear E. injection Hr as <- <-. cbn in Hp. injection Hp as <-.
      rewrite Z.mul_0_l in Hb. lia.
    + assert (E : InvoiceRoutes.listInvoices Double.literalRegex
                    (Engine.mk (fun _ => 0) false)
                    (InvoiceRoutes.mkListQuery None (Some (toString 2))
                       (Some (toString (10 ^ 309)))) Double.fifteen
                  = InvoiceRoutes.mkResponse 500 InvoiceRoutes.Failed)
        by (vm_compute; reflexivity).
      rewrite E in Hr. clear E Hb. discriminate Hr.
Qed.

(** C8, amended: for a positive page number and page size whose product
    is below [2^53] the list handler sends the records at offset
    [(page - 1) * limit] of the matching invoices, newest first, at most
    [limit] of them, with [total] the number of matches and [pages] the
    ceiling of [total / limit].  For fifteen stored invoices and
    [limit=10]: page 1 has 10 records, [total] is 15, [pages] is 2, and
    page 2 has 5 records, which are the records that remain when no two
    of the invoices have the same [createdAt]. *)
Theorem list_pagination (regex : InvoiceRoutes.RegexEngine) (db : list Invoice.t) :
  (forall (engine : Engine.t) (query : InvoiceRoutes.ListQuery) (found : list Invoice.t)
          (pageNum limitNum : Z),
     parseInt (default (js "1") (InvoiceRoutes.pageParam query))
       = Some (Integral.Fin pageNum) ->
     parseInt (default (js "10") (InvoiceRoutes.limitParam query))
       = Some (Integral.Fin limitNum) ->
     1 <= pageNum -> 1 <= limitNum -> pageNum * limitNum < 2 ^ 53 ->
     InvoiceRoutes.matching regex (InvoiceRoutes.q query) db = Some found ->
     exists pages,
       InvoiceRoutes.listInvoices regex engine query db =
         InvoiceRoutes.mkResponse 200
           (InvoiceRoutes.Listed
              (take (Z.to_nat limitNum)
                 (drop (Z.to_nat ((pageNum - 1) * limitNum))
                    (Invoice.sortCreatedAtDesc (Engine.tie engine) found)))
              (InvoiceRoutes.mkPagination (Some (Integral.Fin pageNum))
                 (Some (Integral.Fin limitNum)) (Z.of_nat (length found)) (Some pages)))
       /\ (pages - 1) * limitNum < Z.of_nat (length found) <= pages * limitNum)
  /\ (length db = 15%nat ->
      forall engine1 engine2 : Engine.t,
      exists page1 page2,
        InvoiceRoutes.listInvoices regex engine1
          (InvoiceRoutes.mkListQuery None (Some (js "1")) (Some (js "10"))) db =
          InvoiceRoutes.mkResponse 200
            (InvoiceRoutes.Listed page1
               (InvoiceRoutes.mkPagination (Some (Integral.Fin 1))
                  (Some (Integral.Fin 10)) 15 (Some 2)))
        /\ InvoiceRoutes.listInvoices regex engine2
             (InvoiceRoutes.mkListQuery None (Some (js "2")) (Some (js "10"))) db =
           InvoiceRoutes.mkResponse 200
             (InvoiceRoutes.Listed page2
                (InvoiceRoutes.mkPagination (Some (Integral.Fin 2))
                   (Some (Integral.Fin 10)) 15 (Some 2)))
        /\ length page1 = 10%nat
        /\ length page2 = 5%nat
        /\ page1 ⊆ db
        /\ page2 ⊆ db
        /\ (NoDup (Invoice.createdAt <$> db) ->
            page1 ++ page2 = Invoice.sortCreatedAtDesc (Engine.tie engine1) db
            /\ page1 ++ page2 ≡ₚ db)).
Proof.
  split; [intros; by apply listInvoices_page|].
  intros Hlen engine1 engine2.
  assert (Hs : forall tie, length (Invoice.sortCreatedAtDesc tie db) = 15%nat).
  { intros tie. by rewrite (Permutation_length (sortCreatedAtDesc_Permutation tie db)). }
  exists (take 10 (Invoice.sortCreatedAtDesc (Engine.tie engine1) db)),
    (drop 10 (Invoice.sortCreatedAtDesc (Engine.tie engine2) db)).
  split; [|split; [|split; [|split; [|split; [|split]]]]].
  - destruct (listInvoices_page regex engine1
                (InvoiceRoutes.mkListQuery None (Some (js "1")) (Some (js "10")))
                db db 1 10) as (pages & -> & Hb);
      [reflexivity | reflexivity | lia | lia | reflexivity | reflexivity |].
    rewrite Hlen in *. replace pages with 2 by lia. reflexivity.
  - destruct (listInvoices_page regex engine2
                (InvoiceRoutes.mkListQuery None (Some (js "2")) (Some (js "10")))
                db db 2 10) as (pages & -> & Hb);
      [reflexivity | reflexivity | lia | lia | reflexivity | reflexivity |].
    rewrite Hlen in *. replace pages with 2 by lia.
    change (Z.to_nat ((2 - 1) * 10)) with 10%nat. change (Z.to_nat 10) with 10%nat.
    by rewrite take_ge by (rewrite length_drop, Hs; lia).
  - rewrite length_take, Hs. lia.
  - rewrite length_drop, Hs. lia.
  - intros d Hd. rewrite <- (sortCreatedAtDesc_Permutation (Engine.tie engine1) db).
    by eapply subseteq_take.
  - intros d Hd. rewrite <- (sortCreatedAtDesc_Permutation (Engine.tie engine2) db).
    by eapply subseteq_drop.
  - intros Hnd.
    rewrite (sortCreatedAtDesc_tie_irrelevant (Engine.tie engine2) (Engine.tie engine1)
               db Hnd).
    rewrite take_drop. split; [done | apply sortCreatedAtDesc_Permutation].
Qed.

Lemma list_pagination_witness :
  exists page1 page2,
    InvoiceRoutes.listInvoices Double.literalRegex Double.rejecting
      (InvoiceRoutes.mkListQuery None (Some (js "1")) (Some (js "10"))) Double.fifteen =
      InvoiceRoutes.mkResponse 200
        (InvoiceRoutes.Listed page1
           (InvoiceRoutes.mkPagination (Some (Integral.Fin 1))
              (Some (Integral.Fin 10)) 15 (Some 2)))
    /\ InvoiceRoutes.listInvoices Double.literalRegex Double.savedLast
         (InvoiceRoutes.mkListQuery None (Some (js "2")) (Some (js "10"))) Double.fifteen =
       InvoiceRoutes.mkResponse 200
         (InvoiceRoutes.Listed page2
            (InvoiceRoutes.mkPagination (Some (Integral.Fin 2))
               (Some (Integral.Fin 10)) 15 (Some 2)))
    /\ length page1 = 10%nat
    /\ length page2 = 5%nat
    /\ page1 ++ page2 = Invoice.sortCreatedAtDesc (Engine.tie Double.rejecting) Double.fifteen
    /\ page1 ++ page2 ≡ₚ Double.fifteen.
Proof.
  destruct (proj2 (list_pagination Double.literalRegex Double.fifteen) eq_refl
              Double.rejecting Double.savedLast)
    as (page1 & page2 & H1 & H2 & L1 & L2 & _ & _ & H).
  exists page1, page2. repeat split; try assumption.
  - apply H. refine (bool_decide_unpack (NoDup _) _). vm_compute. exact I.
  - apply H. refine (bool_decide_unpack (NoDup _) _). vm_compute. exact I.
Defined.

(** The first page of the fifteen sample invoices starts with the newest
    one; a search narrows [total]; page 0 is rejected. *)
Example listInvoices_examples :
  (exists rest pagination,
     InvoiceRoutes.body
       (InvoiceRoutes.listInvoices Double.literalRegex Double.rejecting
          (InvoiceRoutes.mkListQuery None None (Some (js "10"))) Double.fifteen)
     = InvoiceRoutes.Listed (Double.stored 15 :: rest) pagination)
  /\ (exists invoices,
        InvoiceRoutes.body
          (InvoiceRoutes.listInvoices Double.literalRegex Double.rejecting
             (InvoiceRoutes.mkListQuery (Some (js "INV-15")) None None) Double.fifteen)
        = InvoiceRoutes.Listed invoices
            (InvoiceRoutes.mkPagination (Some (Integral.Fin 1)) (Some (Integral.Fin 10))
               1 (Some 1)))
  /\ InvoiceRoutes.status
       (InvoiceRoutes.listInvoices Double.literalRegex Double.clamping
          (InvoiceRoutes.mkListQuery None (Some (js "0")) None) Double.fifteen) = 500.
Proof.
  split; [eexists _, _; vm_compute; reflexivity|].
  split; [eexists; vm_compute; reflexivity|].
  vm_compute. reflexivity.
Qed.

(** With invoices created at the same time, two engines can serve page 1
    and page 2 so that the five last saved appear on no page. *)
Example tied_pages_overlap :
  Invoice.id <$>
    listed (InvoiceRoutes.listInvoices Double.literalRegex Double.savedLast
              (InvoiceRoutes.mkListQuery None (Some (js "2")) (Some (js "10")))
              Double.tied)
  = [js "id-5"; js "id-4"; js "id-3"; js "id-2"; js "id-1"]
  /\ (take 5 (Invoice.id <$>
        listed (InvoiceRoutes.listInvoices Double.literalRegex Double.rejecting
                  (InvoiceRoutes.mkListQuery None (Some (js "1")) (Some (js "10")))
                  Double.tied)))
     = [js "id-1"; js "id-2"; js "id-3"; js "id-4"; js "id-5"].
Proof. split; vm_compute; reflexivity. Qed.

(** ** The usage estimate: binary64 rounding of [Math.random() * 50] *)

Lemma digits2_pos_bounds (p : positive) :
  2 ^ (Z.pos (digits2_pos p) - 1) <= Z.pos p < 2 ^ Z.pos (digits2_pos p).
Proof.
  induction p as [p IH|p IH|]; cbn [digits2_pos].
  - rewrite Pos2Z.inj_succ, (Pos2Z.inj_xI p).
    replace (Z.succ (Z.pos (digits2_pos p)) - 1) with (Z.succ (Z.pos (digits2_pos p) - 1)) by lia.
    rewrite !Z.pow_succ_r by lia. lia.
  - rewrite Pos2Z.inj_succ, (Pos2Z.inj_xO p).
    replace (Z.succ (Z.pos (digits2_pos p)) - 1) with (Z.succ (Z.pos (digits2_pos p) - 1)) by lia.
    rewrite !Z.pow_succ_r by lia. lia.
  - cbn. lia.
Qed.

Lemma digits2_pos_le (p : positive) (k : Z) :
  0 <= k -> Z.pos p < 2 ^ k -> Z.pos (digits2_pos p) <= k.
Proof.
  intros Hk Hp. pose proof (digits2_pos_bounds p) as [Hlo _].
  destruct (Z.le_gt_cases (Z.pos (digits2_pos p)) k) as [|Hgt]; [done|].
  assert (2 ^ k <= 2 ^ (Z.pos (digits2_pos p) - 1)) by (apply Z.pow_le_mono_r; lia).
  lia.
Qed.

Lemma Zdigits2_le (M k : Z) :
  0 <= k -> 0 <= M < 2 ^ k -> Zdigits2 M <= k.
Proof.
  intros Hk HM. destruct M as [|p|p]; cbn [Zdigits2]; [lia | | lia].
  apply digits2_pos_le; lia.
Qed.

(** One step of the shifter halves the mantissa and remembers the bit
    that fell off. *)
Lemma shr_1_m (mrs : shr_record) :
  0 <= shr_m mrs -> shr_m (shr_1 mrs) = shr_m mrs / 2.
Proof.
  destruct mrs as [m r s]. cbn [shr_m]. intros Hm. rewrite <- Z.div2_div.
  destruct m as [|[p|p|]|p]; cbn; try reflexivity; lia.
Qed.

Lemma shr_1_r (mrs : shr_record) :
  0 <= shr_m mrs -> shr_r (shr_1 mrs) = Z.odd (shr_m mrs).
Proof.
  destruct mrs as [m r s]. cbn [shr_m]. intros Hm.
  destruct m as [|[p|p|]|p]; cbn; try reflexivity; lia.
Qed.

Lemma shifted_step (M k : Z) (mrs : shr_record) :
  0 <= M -> 0 <= k -> shifted M k mrs -> shifted M (k + 1) (shr_1 mrs).
Proof.
  intros HM Hk [Hm Hr].
  assert (H2k : 0 < 2 ^ k) by (apply Z.pow_pos_nonneg; lia).
  assert (Hq : 0 <= M / 2 ^ k) by (apply Z.div_pos; lia).
  split.
  - rewrite shr_1_m by lia. rewrite Hm, Z.pow_add_r, Z.pow_1_r by lia.
    rewrite Z.div_div by lia. reflexivity.
  - rewrite shr_1_r by lia. rewrite Hm. intros Hodd.
    rewrite Z.pow_add_r, Z.pow_1_r by lia.
    apply Z.odd_spec in Hodd. destruct Hodd as [b Hb].
    pose proof (Z.div_mod M (2 ^ k) ltac:(lia)) as HMk.
    pose proof (Z.mod_pos_bound M (2 ^ k) ltac:(lia)) as HMb.
    assert (HM2 : M = (2 ^ k * 2) * b + (2 ^ k + M mod 2 ^ k)) by nia.
    rewrite <- (Z.mod_unique M (2 ^ k * 2) b (2 ^ k + M mod 2 ^ k)); [lia| |exact HM2].
    left. lia.
Qed.

Lemma shifted_iter (M : Z) (p : positive) (k : Z) (mrs : shr_record) :
  0 <= M -> 0 <= k -> shifted M k mrs ->
  shifted M (k + Z.pos p) (SpecFloat.iter_pos shr_1 p mrs).
Proof.
  intros HM. revert k mrs.
  induction p as [p IH|p IH|]; intros k mrs Hk H; cbn [SpecFloat.iter_pos].
  - replace (k + Z.pos p~1) with (k + 1 + Z.pos p + Z.pos p) by lia.
    apply IH; [lia|]. apply IH; [lia|]. by apply shifted_step.
  - replace (k + Z.pos p~0) with (k + Z.pos p + Z.pos p) by lia.
    apply IH; [lia|]. by apply IH.
  - by apply shifted_step.
Qed.

(** [shr] by [n] places, from a mantissa with nothing shifted out yet. *)
Lemma shr_shifted (M e n : Z) :
  0 <= M ->
  let '(mrs, e') := shr (Build_shr_record M false false) e n in
  shifted M (Z.max n 0) mrs /\ e' = e + Z.max n 0.
Proof.
  intros HM. unfold shr.
  assert (H0 : shifted M 0 (Build_shr_record M false false)).
  { split; cbn; [by rewrite Z.div_1_r | discriminate]. }
  destruct n as [|p|p].
  - cbn. split; [exact H0 | lia].
  - rewrite Z.max_l by lia. split; [|reflexivity].
    replace (Z.pos p) with (0 + Z.pos p) by lia. by apply shifted_iter.
  - cbn. split; [exact H0 | lia].
Qed.

(** Rounding to nearest even moves up by at most one, and only when the
    round bit is set. *)
Lemma round_nearest_even_bounds (mrs : shr_record) :
  let m' := round_nearest_even (shr_m mrs) (loc_of_shr_record mrs) in
  (m' = shr_m mrs) \/ (m' = shr_m mrs + 1 /\ shr_r mrs = true).
Proof.
  destruct mrs as [m [|] [|]]; cbn; auto.
  destruct (Z.even m); auto.
Qed.

(** Rounding an exact product [M * 2^E]: the result is a mantissa [m1],
    within half a unit of [M / 2^n], shifted once more without rounding. *)
Lemma binary_round_aux_exact (M E : Z) :
  0 <= M ->
  exists n k m1,
    n = Z.max (fexp prec emax (Zdigits2 M + E) - E) 0
    /\ 0 <= k /\ 0 <= m1
    /\ 2 * (m1 * 2 ^ n) <= 2 * M + 2 ^ n
    /\ binary_round_aux prec emax false M E loc_Exact =
       match m1 / 2 ^ k with
       | Z0 => S754_zero false
       | Z.pos m2 =>
           if E + n + k <=? emax - prec then S754_finite false m2 (E + n + k)
           else S754_infinity false
       | Z.neg _ => S754_nan
       end.
Proof.
  intros HM. unfold binary_round_aux, shr_fexp.
  change (shr_record_of_loc M loc_Exact) with (Build_shr_record M false false).
  set (n0 := fexp prec emax (Zdigits2 M + E) - E).
  pose proof (shr_shifted M E n0 HM) as H1.
  destruct (shr (Build_shr_record M false false) E n0) as [mrs1 e1].
  destruct H1 as [[Hm Hr] ->].
  set (n := Z.max n0 0) in *.
  assert (Hn : 0 <= n) by lia.
  assert (H2n : 0 < 2 ^ n) by (apply Z.pow_pos_nonneg; lia).
  pose proof (Z.div_mod M (2 ^ n) ltac:(lia)) as HMn.
  pose proof (Z.mod_pos_bound M (2 ^ n) ltac:(lia)) as HMb.
  assert (Hq : 0 <= M / 2 ^ n) by (apply Z.div_pos; lia).
  set (m1 := round_nearest_even (shr_m mrs1) (loc_of_shr_record mrs1)).
  assert (Hm1 : 0 <= m1 /\ 2 * (m1 * 2 ^ n) <= 2 * M + 2 ^ n).
  { destruct (round_nearest_even_bounds mrs1) as [Hsame | [Hup Hbit]]; fold m1 in Hsame || fold m1 in Hup.
    - rewrite Hsame, Hm. split; [lia | nia].
    - rewrite Hup, Hm. specialize (Hr Hbit). split; [lia | nia]. }
  destruct Hm1 as [Hm1 Hhalf].
  change (shr_record_of_loc m1 loc_Exact) with (Build_shr_record m1 false false).
  set (n2 := fexp prec emax (Zdigits2 m1 + (E + n)) - (E + n)).
  pose proof (shr_shifted m1 (E + n) n2 Hm1) as H2.
  destruct (shr (Build_shr_record m1 false false) (E + n) n2) as [mrs2 e2].
  destruct H2 as [[Hm2 _] ->].
  exists n, (Z.max n2 0), m1. rewrite Hm2.
  repeat split; try lia. 
Qed.

(** [50] as a binary64 value. *)
Lemma of_Z_50 : of_Z 50 = S754_finite false 7036874417766400 (-47).
Proof. vm_compute. reflexivity. Qed.

(** A valid number in [[0, 1)] is a zero, or a positive mantissa below
    [2^53] with an exponent of at most [-53]. *)
Lemma unit_interval_cases (random : number) :
  valid random = true ->
  SFleb (S754_zero false) random = true ->
  SFltb random (of_Z 1) = true ->
  (exists s, random = S754_zero s)
  \/ (exists m e, random = S754_finite false m e
                  /\ -1074 <= e <= -53 /\ Z.pos m < 2 ^ 53).
Proof.
  destruct random as [s|s| |s m e]; intros Hv Hle Hlt.
  - left. by exists s.
  - destruct s; discriminate.
  - discriminate.
  - right. destruct s; [discriminate|]. exists m, e. split; [reflexivity|].
    unfold valid, valid_binary, bounded, canonical_mantissa, fexp, SpecFloat.emin in Hv.
    apply andb_true_iff in Hv. destruct Hv as [Hcan _]. apply Z.eqb_eq in Hcan.
    change (3 - emax - prec) with (-1074) in Hcan. change prec with 53 in Hcan.
    pose proof (digits2_pos_bounds m) as [Hlo Hhi].
    assert (Hd : Z.pos (digits2_pos m) <= 53) by lia.
    assert (Hm : Z.pos m < 2 ^ 53).
    { eapply Z.lt_le_trans; [exact Hhi|]. apply Z.pow_le_mono_r; lia. }
    split; [|exact Hm]. split; [lia|].
    change (of_Z 1) with (S754_finite false 4503599627370496 (-52)) in Hlt.
    unfold SFltb, SFcompare in Hlt.
    destruct (e ?= -52) eqn:Ec; try discriminate.
    + apply Z.compare_eq in Ec. subst e.
      assert (Z.pos (digits2_pos m) = 53) by lia.
      destruct (Pos.compare_cont Eq m 4503599627370496) eqn:Em; try discriminate.
      assert (Em' : Z.pos m < 4503599627370496)
        by (apply Pos2Z.pos_lt_pos; rewrite <- Pos.compare_lt_iff; exact Em).
      replace (Z.pos (digits2_pos m) - 1) with 52 in Hlo by lia.
      change (2 ^ 52) with 4503599627370496 in Hlo. lia.
    + rewrite Z.compare_lt_iff in Ec. lia.
Qed.

(** The heart of C10: a number below 1 times 50 rounds to a number
    below 50. *)
Lemma mul_fifty_floor (m : positive) (e : Z) :
  -1074 <= e <= -53 -> Z.pos m < 2 ^ 53 ->
  exists used,
    floor (mul (S754_finite false m e) (S754_finite false 7036874417766400 (-47)))
    = Some used
    /\ 0 <= used <= 49.
Proof.
  intros He Hm. unfold mul, SFmul. cbn [xorb].
  rewrite Pos2Z.inj_mul.
  set (c := 7036874417766400).
  change (Z.pos 7036874417766400) with c.
  set (M := Z.pos m * c).
  assert (Hc : c = 50 * 2 ^ 47) by reflexivity.
  assert (Hc53 : c < 2 ^ 53) by reflexivity.
  clearbody c.
  assert (HM : 0 <= M < 2 ^ 106).
  { change (2 ^ 106) with (2 ^ 53 * 2 ^ 53). unfold M. nia. }
  destruct (binary_round_aux_exact M (e + -47)) as (n & k & m1 & Hn & Hk & Hm1 & Hhalf & ->);
    [lia|].
  (* the powers of two at play *)
  set (P := 2 ^ (- e)).
  assert (HP : 2 ^ 53 <= P) by (apply Z.pow_le_mono_r; lia).
  assert (Hs : 2 ^ (47 - e) = 2 ^ 47 * P).
  { unfold P. rewrite <- Z.pow_add_r by lia. f_equal; lia. }
  (* the shift is at most 53 places *)
  assert (Hn53 : 0 <= n <= 53).
  { assert (Hd : Zdigits2 M <= 106) by (apply Zdigits2_le; lia).
    unfold fexp, SpecFloat.emin in Hn.
    change (3 - emax - prec) with (-1074) in Hn. change prec with 53 in Hn. lia. }
  assert (H2n : 0 < 2 ^ n <= 2 ^ 53).
  { split; [apply Z.pow_pos_nonneg; lia | apply Z.pow_le_mono_r; lia]. }
  assert (H2k : 0 < 2 ^ k) by (apply Z.pow_pos_nonneg; lia).
  (* the rounded mantissa stays below fifty *)
  assert (Hlt : m1 * 2 ^ n < 50 * (2 ^ 47 * P)).
  { assert (M <= c * P - c) by (unfold M; nia).
    assert (2 ^ 53 < 2 * c) by (rewrite Hc; reflexivity). nia. }
  pose proof (Z.mul_div_le m1 (2 ^ k) H2k) as Hdiv.
  assert (Hq : 0 <= m1 / 2 ^ k) by (apply Z.div_pos; lia).
  assert (Hlt2 : (m1 / 2 ^ k) * 2 ^ (n + k) < 50 * 2 ^ (47 - e)).
  { rewrite Hs, Z.pow_add_r by lia. nia. }
  change (emax - prec) with 971.
  destruct (m1 / 2 ^ k) as [|m2|m2] eqn:Em2; [by exists 0 | | lia].
  destruct (e + -47 + n + k <=? 971) eqn:Ee.
  - cbn [floor]. eexists. split; [reflexivity|].
    destruct (0 <=? e + -47 + n + k) eqn:E0.
    + apply Z.leb_le in E0.
      replace (n + k) with ((e + -47 + n + k) + (47 - e)) in Hlt2 by lia.
      rewrite Z.pow_add_r in Hlt2 by lia.
      assert (0 < 2 ^ (47 - e)) by (apply Z.pow_pos_nonneg; lia).
      assert (0 < 2 ^ (e + -47 + n + k)) by (apply Z.pow_pos_nonneg; lia).
      nia.
    + apply Z.leb_gt in E0.
      set (t := - (e + -47 + n + k)) in *.
      assert (Ht : 2 ^ (47 - e) = 2 ^ (n + k) * 2 ^ t).
      { rewrite <- Z.pow_add_r by lia. f_equal; lia. }
      assert (0 < 2 ^ (n + k)) by (apply Z.pow_pos_nonneg; lia).
      assert (0 < 2 ^ t) by (apply Z.pow_pos_nonneg; lia).
      assert (Z.pos m2 < 2 ^ t * 50) by nia.
      split; [apply Z.div_pos; lia|].
      assert (Z.pos m2 / 2 ^ t < 50) by (apply Z.div_lt_upper_bound; lia). lia.
  - exfalso. apply Z.leb_gt in Ee.
    replace (n + k) with ((e + -47 + n + k) + (47 - e)) in Hlt2 by lia.
    rewrite Z.pow_add_r in Hlt2 by lia.
    assert (0 < 2 ^ (47 - e)) by (apply Z.pow_pos_nonneg; lia).
    assert (2 ^ 6 <= 2 ^ (e + -47 + n + k)) by (apply Z.pow_le_mono_r; lia).
    change (2 ^ 6) with 64 in *.
    assert (64 <= Z.pos m2 * 2 ^ (e + -47 + n + k)) by nia.
    assert (64 * 2 ^ (47 - e) <= Z.pos m2 * 2 ^ (e + -47 + n + k) * 2 ^ (47 - e))
      by (apply Z.mul_le_mono_nonneg_r; lia).
    rewrite Z.mul_assoc in Hlt2. lia.
Qed.

(** C10: for every value [Math.random()] can return, a binary64 number
    in [[0, 1)], the estimate has [limit = 50], [0 <= used <= 49] and
    [remaining = limit - used], hence [used + remaining = 50]. *)
Theorem quota_usage_estimate_bounds (random : number) :
  valid random = true ->
  SFleb (S754_zero false) random = true ->
  SFltb random (of_Z 1) = true ->
  exists usage,
    QuotaHelper.getQuotaUsageEstimate random = Some usage
    /\ QuotaUsage.limit usage = 50
    /\ 0 <= QuotaUsage.used usage <= 49
    /\ QuotaUsage.remaining usage = QuotaUsage.limit usage - QuotaUsage.used usage
    /\ QuotaUsage.used usage + QuotaUsage.remaining usage = 50.
Proof.
  intros Hv Hle Hlt. unfold QuotaHelper.getQuotaUsageEstimate. rewrite of_Z_50.
  destruct (unit_interval_cases random Hv Hle Hlt) as [[s ->] | (m & e & -> & He & Hm)].
  - eexists. split; [reflexivity|]. cbn. lia.
  - destruct (mul_fifty_floor m e He Hm) as (used & -> & Hu).
    eexists. split; [reflexivity|]. cbn. lia.
Qed.

(** The largest number below 1, [1 - 2^-53]. *)
Lemma quota_usage_estimate_bounds_witness :
  exists usage,
    QuotaHelper.getQuotaUsageEstimate (S754_finite false 9007199254740991 (-53)) = Some usage
    /\ QuotaUsage.limit usage = 50
    /\ 0 <= QuotaUsage.used usage <= 49
    /\ QuotaUsage.remaining usage = QuotaUsage.limit usage - QuotaUsage.used usage
    /\ QuotaUsage.used usage + QuotaUsage.remaining usage = 50.
Proof.
  apply (quota_usage_estimate_bounds (S754_finite false 9007199254740991 (-53))).
  - vm_compute. reflexivity.
  - vm_compute. reflexivity.
  - vm_compute. reflexivity.
Defined.

Example getQuotaUsageEstimate_examples :
  QuotaHelper.getQuotaUsageEstimate (S754_finite false 9007199254740991 (-53))
    = Some (QuotaUsage.mk 49 50 1)
  /\ QuotaHelper.getQuotaUsageEstimate (S754_finite false 4503599627370496 (-53))
    = Some (QuotaUsage.mk 25 50 25)
  /\ QuotaHelper.getQuotaUsageEstimate (S754_zero false)
    = Some (QuotaUsage.mk 0 50 50).
Proof. repeat split; vm_compute; reflexivity. Qed.

(* ================================================================== *)
(** * Further properties                                               *)
(* ================================================================== *)

(** ** What the sanitizer leaves of a reply *)

Lemma trimStart_suffix (s : jsstring) : exists ws, s = ws ++ trimStart s.
Proof.
  induction s as [|c s [ws IH]]; [by exists []|]. cbn [trimStart].
  destruct (is_space c); [|by exists []].
  exists (c :: ws). cbn. by rewrite <- IH.
Qed.

Lemma trimStart_head (s : jsstring) (c : N) (rest : jsstring) :
  trimStart s = c :: rest -> is_space c = false.
Proof.
  induction s as [|x s IH]; [discriminate|]. cbn [trimStart].
  destruct (is_space x) eqn:E; [exact IH|]. intros H. injection H as <- _. exact E.
Qed.

Lemma trimEnd_prefix (s : jsstring) : exists ws, s = trimEnd s ++ ws.
Proof.
  unfold trimEnd. destruct (trimStart_suffix (rev s)) as [ws H].
  exists (rev ws). rewrite <- rev_app_distr, <- H. by rewrite rev_involutive.
Qed.

Lemma occursIn_app_l (p s pre : jsstring) : occursIn p s -> occursIn p (pre ++ s).
Proof. intros (a & b & ->). exists (pre ++ a), b. by rewrite <- app_assoc. Qed.

Lemma occursIn_app_r (p s post : jsstring) : occursIn p s -> occursIn p (s ++ post).
Proof. intros (a & b & ->). exists a, (b ++ post). by rewrite <- !app_assoc. Qed.

Lemma occursIn_trim (p s : jsstring) : occursIn p (trim s) -> occursIn p s.
Proof.
  unfold trim. intros H.
  destruct (trimEnd_prefix (trimStart s)) as [ws1 H1].
  destruct (trimStart_suffix s) as [ws2 H2].
  rewrite H2, H1. by apply occursIn_app_l, occursIn_app_r.
Qed.

(** A run of backquotes at the head of what [removeAll] returns was at
    the head of its input. *)
Lemma removeAll_fence_head1 (n : nat) (s : jsstring) :
  startsWith (removeAll_go (js "```") n s) [96%N] = true ->
  startsWith s [96%N] = true.
Proof.
  destruct n as [|n]; [done|]. destruct s as [|c s]; [done|]. cbn [removeAll_go].
  destruct (startsWith (c :: s) (js "```")) eqn:E; [|done].
  intros _. apply startsWith_true in E. destruct E as [post E].
  injection E as -> _. reflexivity.
Qed.

Lemma removeAll_fence_head2 (n : nat) (s : jsstring) :
  startsWith (removeAll_go (js "```") n s) [96%N; 96%N] = true ->
  startsWith s [96%N; 96%N] = true.
Proof.
  destruct n as [|n]; [done|]. destruct s as [|c s]; [done|]. cbn [removeAll_go].
  destruct (startsWith (c :: s) (js "```")) eqn:E.
  - intros _. apply startsWith_true in E. destruct E as [post E].
    injection E as -> ->. reflexivity.
  - cbn [startsWith]. intros H. apply andb_true_iff in H. destruct H as [Hc H].
    rewrite Hc. cbn [andb]. change (startsWith s [96%N] = true).
    by apply (removeAll_fence_head1 n).
Qed.

(** With enough fuel no fence is left. *)
Lemma removeAll_go_no_fence (n : nat) (s : jsstring) :
  (length s <= n)%nat ->
  includes (removeAll_go (js "```") n s) (js "```") = false.
Proof.
  revert s. induction n as [|n IH]; intros s Hn.
  - destruct s; [reflexivity | cbn in Hn; lia].
  - destruct s as [|c s]; [reflexivity|]. cbn [removeAll_go].
    destruct (startsWith (c :: s) (js "```")) eqn:E.
    + apply IH. pose proof (trimStart_length (drop (length (js "```")) (c :: s))).
      pose proof (length_drop (c :: s) (length (js "```"))).
      change (length (js "```")) with 3%nat in *. cbn [length] in *. lia.
    + cbn [includes]. rewrite (IH s) by (cbn [length] in Hn; lia).
      rewrite orb_false_r.
      destruct (startsWith (c :: removeAll_go (js "```") n s) (js "```")) eqn:E2; [|done].
      change (js "```") with [96%N; 96%N; 96%N] in E, E2. cbn [startsWith] in E, E2.
      apply andb_true_iff in E2. destruct E2 as [Hc E2].
      change (startsWith (removeAll_go (js "```") n s) [96%N; 96%N] = true) in E2.
      apply removeAll_fence_head2 in E2. cbn [startsWith] in E2.
      by rewrite Hc, E2 in E.
Qed.

(** X1: whatever the reply, the text [cleanJsonResponse] works on holds
    no code fence any more and neither starts nor ends with white space. *)
Theorem stripFences_clean (text : jsstring) :
  ~ occursIn (js "```") (AIService.stripFences text)
  /\ (forall c rest, AIService.stripFences text = c :: rest -> is_space c = false)
  /\ (forall c front, AIService.stripFences text = front ++ [c] -> is_space c = false).
Proof.
  unfold AIService.stripFences. split; [|split].
  - intros H. apply occursIn_trim in H. apply includes_true in H.
    unfold removeAll in H. by rewrite removeAll_go_no_fence in H.
  - intros c rest H. unfold trim in H.
    set (s := removeAll _ _) in *.
    destruct (trimEnd_prefix (trimStart s)) as [ws Hws]. rewrite H in Hws.
    by apply (trimStart_head s c (rest ++ ws)).
  - intros c front H. unfold trim, trimEnd in H.
    set (s := trimStart (removeAll _ _)) in *.
    apply (f_equal (@rev N)) in H. rewrite rev_involutive, rev_app_distr in H.
    by apply (trimStart_head (rev s) c (rev front)).
Qed.

Lemma eqb_true (a b : jsstring) : Js.eqb a b = true <-> a = b.
Proof. unfold Js.eqb. apply bool_decide_eq_true. Qed.

Lemma eqb_false (a b : jsstring) : Js.eqb a b = false <-> a <> b.
Proof. unfold Js.eqb. apply bool_decide_eq_false. Qed.

Lemma eqb_refl (a : jsstring) : Js.eqb a a = true.
Proof. by apply eqb_true. Qed.

Lemma getProp_setProp_ne (k k' : jsstring) (v : json) (props : list (jsstring * json)) :
  k <> k' -> getProp k' (setProp k v props) = getProp k' props.
Proof.
  intros Hne. induction props as [|[k0 v0] props IH]; cbn [setProp getProp].
  - assert (Js.eqb k' k = false) as -> by (apply eqb_false; congruence). reflexivity.
  - destruct (Js.eqb k k0) eqn:E; cbn [getProp].
    + apply eqb_true in E. subst k0.
      assert (Js.eqb k' k = false) as -> by (apply eqb_false; congruence). reflexivity.
    + by rewrite IH.
Qed.

Lemma keys_setProp (k : jsstring) (v x : json) (props : list (jsstring * json)) :
  getProp k props = Some x -> keys (setProp k v props) = keys props.
Proof.
  induction props as [|[k0 v0] props IH]; [discriminate|]. cbn [setProp getProp].
  destruct (Js.eqb k k0) eqn:E.
  - apply eqb_true in E. by subst.
  - intros H. cbn. f_equal. by apply IH.
Qed.

(** X2: the null-currency fix of the sanitizer touches nothing but a
    [null] [invoice.currency]: every other property of the reply and of its
    [invoice], and the order of the keys, stay as parsed; afterwards the
    currency is not [null], and fixing again changes nothing. *)
Theorem fixNullCurrency_touches_only_currency (parsed v : json) :
  AIService.fixNullCurrency parsed = Some v ->
  (forall k, k <> js "invoice" -> member v k = member parsed k)
  /\ (forall props, parsed = JObj props ->
        exists props', v = JObj props' /\ keys props' = keys props)
  /\ (forall inv, AIService.invoiceProps parsed = Some inv ->
        exists inv', AIService.invoiceProps v = Some inv'
          /\ keys inv' = keys inv
          /\ (forall k, k <> js "currency" -> getProp k inv' = getProp k inv)
          /\ getProp (js "currency") inv' <> Some JNull
          /\ (getProp (js "currency") inv <> Some JNull -> inv' = inv))
  /\ (AIService.invoiceProps parsed = None -> v = parsed)
  /\ AIService.fixNullCurrency v = Some v.
Proof.
  unfold AIService.fixNullCurrency, AIService.invoiceProps, member.
  destruct parsed as [| | | | |props]; try (intros H; injection H as <-);
    try (repeat split; (done || (intros; discriminate))).
  destruct (getProp (js "invoice") props) as [[| | | | |inv]|] eqn:Ei;
    try (intros H; injection H as <-; rewrite ?Ei;
         repeat split; try done; try (intros; discriminate);
         intros ? [= <-]; by eexists).
  destruct (getProp (js "currency") inv) as [cur|] eqn:Ec.
  - destruct cur; try (intros H; injection H as <-; rewrite Ei, ?Ec;
      repeat split; try done; try (intros ? [= <-]; by eexists);
      intros ? [= <-]; exists inv; rewrite Ec; repeat split; done).
    intros H. injection H as <-. rewrite !getProp_setProp.
    split; [intros k Hk; by apply getProp_setProp_ne|].
    split; [intros ? [= <-]; eexists; split; [done | by eapply keys_setProp]|].
    split; [|split; [discriminate | reflexivity]].
    intros ? [= <-]. eexists. split; [reflexivity|].
    split; [by eapply keys_setProp|].
    split; [intros k Hk; by apply getProp_setProp_ne|].
    rewrite getProp_setProp. split; [discriminate | congruence].
  - intros H. injection H as <-. rewrite Ei, Ec.
    repeat split; try done; try (intros ? [= <-]; by eexists).
    intros ? [= <-]. exists inv. rewrite Ec. repeat split; done.
Qed.

Lemma fixNullCurrency_touches_only_currency_witness :
  AIService.fixNullCurrency (Double.replyValue [ (js "currency", JStr (js "INR")) ])
  = Some (Double.replyValue [ (js "currency", JStr (js "INR")) ]).
Proof.
  apply (fixNullCurrency_touches_only_currency
           (Double.replyValue [ (js "currency", JNull) ])
           (Double.replyValue [ (js "currency", JStr (js "INR")) ])).
  vm_compute. reflexivity.
Defined.

(** ** The text hash *)

Lemma ToInt32_shift (z k : Z) : ToInt32 (z + 2 ^ 32 * k) = ToInt32 z.
Proof.
  unfold ToInt32. f_equal.
  replace (z + 2 ^ 32 * k + 2 ^ 31) with (z + 2 ^ 31 + k * 2 ^ 32) by lia.
  apply Z_mod_plus_full.
Qed.

Lemma ToInt32_quotient (z : Z) : exists k, ToInt32 z = z + 2 ^ 32 * k.
Proof.
  unfold ToInt32. exists (- ((z + 2 ^ 31) / 2 ^ 32)).
  pose proof (Z.div_mod (z + 2 ^ 31) (2 ^ 32) ltac:(lia)). lia.
Qed.

Lemma ToInt32_range (z : Z) : - 2 ^ 31 <= ToInt32 z < 2 ^ 31.
Proof.
  unfold ToInt32. pose proof (Z.mod_pos_bound (z + 2 ^ 31) (2 ^ 32) ltac:(lia)). lia.
Qed.

Lemma ToInt32_eq_iff (a b : Z) : ToInt32 a = ToInt32 b <-> (a - b) mod 2 ^ 32 = 0.
Proof.
  split.
  - intros H. destruct (ToInt32_quotient a) as [k Hk], (ToInt32_quotient b) as [l Hl].
    replace (a - b) with (0 + (l - k) * 2 ^ 32) by lia. by rewrite Z_mod_plus_full.
  - intros H. apply Z.mod_divide in H; [|lia]. destruct H as [k Hk].
    replace a with (b + 2 ^ 32 * k) by lia. apply ToInt32_shift.
Qed.

(** One turn of the loop multiplies by 31 and adds the code unit, in
    32-bit arithmetic. *)
Lemma hashStep_31 (h : Z) (c : N) :
  AIService.hashStep (ToInt32 h) c = ToInt32 (31 * h + Z.of_N c).
Proof.
  unfold AIService.hashStep.
  destruct (ToInt32_quotient h) as [k Hk].
  destruct (ToInt32_quotient (ToInt32 h * 2 ^ 5)) as [l Hl].
  rewrite Hl, Hk. change (2 ^ 5) with 32.
  replace ((h + 2 ^ 32 * k) * 32 + 2 ^ 32 * l - (h + 2 ^ 32 * k) + Z.of_N c)
    with (31 * h + Z.of_N c + 2 ^ 32 * (31 * k + l)) by lia.
  apply ToInt32_shift.
Qed.

Lemma fold_hashStep_31 (text : jsstring) (h : Z) :
  fold_left AIService.hashStep text (ToInt32 h)
  = ToInt32 (fold_left (fun h c => 31 * h + Z.of_N c) text h).
Proof.
  revert h. induction text as [|c text IH]; intros h; [reflexivity|].
  cbn [fold_left]. by rewrite hashStep_31, IH.
Qed.

Lemma js_inj (s t : string) : js s = js t -> s = t.
Proof.
  unfold js. intros H.
  rewrite <- (string_of_list_ascii_of_string s), <- (string_of_list_ascii_of_string t).
  f_equal. revert H.
  generalize (list_ascii_of_string s) (list_ascii_of_string t).
  induction l as [|a l IH]; intros [|b l']; cbn; try discriminate; [done|].
  intros H. injection H as Hab Hl. f_equal; [|by apply IH].
  by rewrite <- (ascii_N_embedding a), <- (ascii_N_embedding b), Hab.
Qed.

Lemma toString_inj (a b : Z) : toString a = toString b -> a = b.
Proof. unfold toString. intros H. apply js_inj in H. by apply (inj pretty). Qed.

(** X3: [createTextHash] is the decimal form of the 31-polynomial of the
    code units wrapped to a signed 32-bit integer, so two texts get the
    same cache key exactly when their polynomials agree modulo [2^32]. *)
Theorem createTextHash_poly31 (s t : jsstring) :
  AIService.createTextHash s = toString (ToInt32 (poly31 s))
  /\ - 2 ^ 31 <= ToInt32 (poly31 s) < 2 ^ 31
  /\ (AIService.createTextHash s = AIService.createTextHash t
      <-> (poly31 s - poly31 t) mod 2 ^ 32 = 0).
Proof.
  assert (H : forall x, AIService.createTextHash x = toString (ToInt32 (poly31 x))).
  { intros x. unfold AIService.createTextHash, poly31. f_equal.
    change 0 with (ToInt32 0) at 1. apply fold_hashStep_31. }
  split; [apply H|]. split; [apply ToInt32_range|].
  rewrite !H, <- ToInt32_eq_iff. split; [apply toString_inj | by intros ->].
Qed.

(** ** The Extraction Orchestrator, call after call *)

(** X4: a call changes the cache at most by adding, under the hash of its
    text and only when that key was free, the record it returns; entries
    that were there stay as they were. *)
Theorem extractDataFromPDF_cache_grows
  (rt : Runtime.t) (this : AIService.t) (pdfText : jsstring) (w : World.t) :
  (AIService.cache (AIService.extractDataFromPDF rt this pdfText w).1.2 = AIService.cache this
   \/ (AIService.cache this !! AIService.createTextHash pdfText = None
       /\ exists d,
            (AIService.extractDataFromPDF rt this pdfText w).1.1 = Returned d
            /\ AIService.cache (AIService.extractDataFromPDF rt this pdfText w).1.2
               = <[AIService.createTextHash pdfText := d]> (AIService.cache this)))
  /\ (forall k d, AIService.cache this !! k = Some d ->
        AIService.cache (AIService.extractDataFromPDF rt this pdfText w).1.2 !! k = Some d).
Proof.
  assert (H : AIService.cache (AIService.extractDataFromPDF rt this pdfText w).1.2
              = AIService.cache this
      \/ (AIService.cache this !! AIService.createTextHash pdfText = None
          /\ exists d,
               (AIService.extractDataFromPDF rt this pdfText w).1.1 = Returned d
               /\ AIService.cache (AIService.extractDataFromPDF rt this pdfText w).1.2
                  = <[AIService.createTextHash pdfText := d]> (AIService.cache this))).
  { unfold AIService.extractDataFromPDF.
    destruct (AIService.cache this !! AIService.createTextHash pdfText) as [c|] eqn:Hc;
      [by left|].
    unfold AIService.extractUncached.
    destruct (AIService.keyMissing rt); [by left|].
    destruct (AIService.extractWithGemini rt _ w) as [[extractedText|error] w1].
    - destruct (AIService.validateResponse rt extractedText) as [v|error].
      + right. split; [done|]. by exists v.
      + destruct (AIService.isQuotaExceededError rt error); [|by left].
        right. split; [done|]. by eexists.
    - destruct (AIService.isQuotaExceededError rt error); [|by left].
      right. split; [done|]. by eexists. }
  split; [exact H|]. intros k d Hk.
  destruct H as [-> | (Hfree & d' & _ & ->)]; [done|].
  rewrite lookup_insert_ne; [done|]. intros <-. congruence.
Qed.

(** What [extractDataFromPDF] throws is wrapped, and nothing is cached. *)
Lemma extractDataFromPDF_throws_wrapped
  (rt : Runtime.t) (this this' : AIService.t) (pdfText : jsstring) (w w' : World.t)
  (error : Thrown) :
  AIService.extractDataFromPDF rt this pdfText w = (Threw error, this', w') ->
  this' = this
  /\ exists cause,
       error = Err (Error.mk (js "Error")
                      (js "Failed to extract data with Gemini: " ++ cause)).
Proof.
  unfold AIService.extractDataFromPDF.
  destruct (AIService.cache this !! AIService.createTextHash pdfText); [discriminate|].
  unfold AIService.extractUncached.
  destruct (AIService.keyMissing rt).
  - cbn. intros H. injection H as <- <- <-. split; [done | by eexists].
  - destruct (AIService.extractWithGemini rt _ w) as [[extractedText|e] w1].
    + destruct (AIService.validateResponse rt extractedText) as [v|e]; [discriminate|].
      destruct (AIService.isQuotaExceededError rt e); [discriminate|].
      intros H. injection H as <- <- <-. split; [done | by eexists].
    + destruct (AIService.isQuotaExceededError rt e); [discriminate|].
      intros H. injection H as <- <- <-. split; [done | by eexists].
Qed.

(** X5: when [extractDataFromPDF] throws, the thrown value is an [Error]
    named ["Error"] whose message starts with ["Failed to extract data with
    Gemini: "], and the instance, its cache included, is as before. *)
Theorem extractDataFromPDF_failure
  (rt : Runtime.t) (this this' : AIService.t) (pdfText : jsstring) (w w' : World.t)
  (error : Thrown) :
  AIService.extractDataFromPDF rt this pdfText w = (Threw error, this', w') ->
  this' = this
  /\ exists cause,
       error = Err (Error.mk (js "Error")
                      (js "Failed to extract data with Gemini: " ++ cause)).
Proof. apply extractDataFromPDF_throws_wrapped. Qed.

Lemma extractDataFromPDF_failure_witness :
  AIService.new = AIService.new
  /\ exists cause,
       Err (Error.mk (js "Error")
              (js "Failed to extract data with Gemini: GEMINI_API_KEY not configured"))
       = Err (Error.mk (js "Error")
                (js "Failed to extract data with Gemini: " ++ cause)).
Proof.
  apply (extractDataFromPDF_failure (Double.runtime None Double.table [])
           AIService.new AIService.new Double.pdfText World.initial World.initial).
  vm_compute. reflexivity.
Defined.

(** X6: on one instance, once a call has returned a record, every later
    call for a text with the same hash returns that record, whatever the
    model would answer now; the instance and the model are left alone. *)
Theorem cache_hit_after_return
  (rt : Runtime.t) (this this' : AIService.t) (text1 text2 : jsstring)
  (w w' w2 : World.t) (d : ExtractedData.t) :
  AIService.createTextHash text2 = AIService.createTextHash text1 ->
  AIService.extractDataFromPDF rt this text1 w = (Returned d, this', w') ->
  AIService.extractDataFromPDF rt this' text2 w2 = (Returned d, this', w2).
Proof.
  intros Hh H. apply extractDataFromPDF_caches in H.
  apply extractDataFromPDF_hit. by rewrite Hh.
Qed.

Lemma cache_hit_after_return_witness :
  AIService.extractDataFromPDF Double.twoReplies
    (AIService.mk {[ AIService.createTextHash (js "Aa") := Double.defaultRecord ]})
    (js "BB") (World.mk [AIService.createExtractionPrompt (js "Aa")])
  = (Returned Double.defaultRecord,
     AIService.mk {[ AIService.createTextHash (js "Aa") := Double.defaultRecord ]},
     World.mk [AIService.createExtractionPrompt (js "Aa")]).
Proof.
  apply (cache_hit_after_return Double.twoReplies AIService.new _ (js "Aa") (js "BB")
           World.initial (World.mk [AIService.createExtractionPrompt (js "Aa")])).
  - vm_compute. reflexivity.
  - vm_compute. reflexivity.
Defined.

(** X7: the fallback record of a quota failure is cached like a result:
    later calls on the instance for that text return the fallback without
    asking the model, even when the model would answer by then. *)
Theorem quota_fallback_stays_cached
  (rt : Runtime.t) (this : AIService.t) (text1 text2 : jsstring) (w w2 : World.t)
  (e : Error.t) :
  AIService.cache this !! AIService.createTextHash text1 = None ->
  AIService.keyMissing rt = false ->
  Runtime.generateContent rt (length (World.upstreamCalls w))
    (AIService.createExtractionPrompt text1) = Threw (Err e) ->
  occursIn (js "429 Too Many Requests") (Error.message e) ->
  AIService.createTextHash text2 = AIService.createTextHash text1 ->
  AIService.extractDataFromPDF rt
    (AIService.extractDataFromPDF rt this text1 w).1.2 text2 w2
  = (Returned (AIService.getFallbackData rt),
     (AIService.extractDataFromPDF rt this text1 w).1.2, w2).
Proof.
  intros Hc Hk Hg Ho Hh. apply includes_true in Ho.
  rewrite (extractDataFromPDF_quota rt this text1 w e Hc Hk Hg Ho). cbn [fst snd].
  apply extractDataFromPDF_hit. cbn. rewrite Hh. apply lookup_insert_eq.
Qed.

Lemma quota_fallback_stays_cached_witness :
  AIService.extractDataFromPDF quotaThenReply
    (AIService.extractDataFromPDF quotaThenReply AIService.new Double.pdfText
       World.initial).1.2
    Double.pdfText (World.mk [AIService.createExtractionPrompt Double.pdfText])
  = (Returned (AIService.getFallbackData quotaThenReply),
     (AIService.extractDataFromPDF quotaThenReply AIService.new Double.pdfText
        World.initial).1.2,
     World.mk [AIService.createExtractionPrompt Double.pdfText]).
Proof.
  apply (quota_fallback_stays_cached quotaThenReply AIService.new
           Double.pdfText Double.pdfText World.initial
           (World.mk [AIService.createExtractionPrompt Double.pdfText])
           (Error.mk (js "Error")
              (js "[GoogleGenerativeAI Error]: Error fetching: [429 Too Many Requests] Resource has been exhausted"))).
  - apply new_cache_empty.
  - vm_compute. reflexivity.
  - vm_compute. reflexivity.
  - exists (js "[GoogleGenerativeAI Error]: Error fetching: ["),
      (js "] Resource has been exhausted").
    vm_compute. reflexivity.
  - reflexivity.
Defined.

(** The model would have answered the second call. *)
Example quotaThenReply_second_answer :
  Runtime.generateContent quotaThenReply 1
    (AIService.createExtractionPrompt Double.pdfText) = Returned (Double.replyText "").
Proof. reflexivity. Qed.

(** ** Errors of the model and the Quota Advisor *)

Lemma rethrowUpstream_not_quota_info (error e' : Error.t) :
  AIService.rethrowUpstream (Err error) = Err e' ->
  QuotaInfo.isQuotaExceeded (QuotaHelper.getQuotaInfo e') = false.
Proof.
  unfold AIService.rethrowUpstream.
  destruct (truthy (Error.message error)) eqn:Et; cbn [andb].
  - destruct (includes (Error.message error) (js "429 Too Many Requests")) eqn:E1.
    + intros H. injection H as <-. vm_compute. reflexivity.
    + destruct (includes (Error.message error) (js "API key")) eqn:E2.
      * intros H. injection H as <-. vm_compute. reflexivity.
      * intros H. injection H as <-. unfold QuotaHelper.getQuotaInfo. rewrite E1, E2.
        reflexivity.
  - intros H. injection H as <-. destruct error as [name message]. cbn in *.
    destruct message; [|discriminate]. vm_compute. reflexivity.
Qed.

(** X8: no [Error] that [extractWithGemini] throws is read by
    [getQuotaInfo] as an exceeded quota: the quota error it raises itself
    carries a message without the text [getQuotaInfo] looks for, and every
    other error it lets through lacks that text as well. *)
Theorem extractWithGemini_error_not_quota_info
  (rt : Runtime.t) (prompt : jsstring) (w : World.t) (e' : Error.t) :
  (AIService.extractWithGemini rt prompt w).1 = Threw (Err e') ->
  QuotaInfo.isQuotaExceeded (QuotaHelper.getQuotaInfo e') = false.
Proof.
  unfold AIService.extractWithGemini.
  destruct (Runtime.generateContent rt _ prompt) as [text|[error| |]]; cbn;
    try discriminate.
  intros H. injection H as H. by eapply rethrowUpstream_not_quota_info.
Qed.

Lemma extractWithGemini_error_not_quota_info_witness :
  QuotaInfo.isQuotaExceeded
    (QuotaHelper.getQuotaInfo
       (Error.mk (js "QuotaExceededError") AIService.quotaExceededMessage)) = false.
Proof.
  apply (extractWithGemini_error_not_quota_info quotaThenReply
           (AIService.createExtractionPrompt Double.pdfText) World.initial).
  vm_compute. reflexivity.
Defined.

(** X9: [getQuotaInfo] reports an exceeded quota exactly for a message
    that contains ["429 Too Many Requests"], and only then gives a retry
    delay and an upgrade address; whenever it does, [shouldUseFallback]
    agrees, and it always has suggestions to offer. *)
Theorem getQuotaInfo_classification (error : Error.t) :
  let info := QuotaHelper.getQuotaInfo error in
  (QuotaInfo.isQuotaExceeded info = true
     <-> occursIn (js "429 Too Many Requests") (Error.message error))
  /\ (QuotaInfo.isQuotaExceeded info = true -> QuotaHelper.shouldUseFallback error = true)
  /\ (QuotaInfo.retryAfter info = Some (js "24 hours")
      /\ QuotaInfo.upgradeUrl info = Some (js "https://ai.google.dev/pricing")
      /\ QuotaInfo.isQuotaExceeded info = true
      \/ QuotaInfo.retryAfter info = None
         /\ QuotaInfo.upgradeUrl info = None
         /\ QuotaInfo.isQuotaExceeded info = false)
  /\ (3 <= length (QuotaInfo.suggestions info))%nat.
Proof.
  cbv zeta. unfold QuotaHelper.getQuotaInfo, QuotaHelper.shouldUseFallback.
  rewrite <- includes_true.
  destruct (includes (Error.message error) (js "429 Too Many Requests")).
  - cbn. repeat split; auto.
  - destruct (includes (Error.message error) (js "API key")); cbn;
      (split; [split; congruence|]); (split; [congruence|]); (split; [right; done | lia]).
Qed.

(** ** The extract endpoint, further *)

Lemma post_world (rt : Runtime.t) (reqBody : json) (w : World.t) :
  (ExtractRoute.post rt reqBody w).2 = (ExtractRoute.tryExtract rt reqBody w).2.
Proof.
  unfold ExtractRoute.post.
  by destruct (ExtractRoute.tryExtract rt reqBody w) as [[d|e] w'].
Qed.

Lemma onError_wrapped (rt : Runtime.t) (cause : jsstring) :
  let m := js "Failed to extract data with Gemini: " ++ cause in
  ExtractRoute.onError rt (Err (Error.mk (js "Error") m))
  = if includes m (js "API key")
    then ExtractRoute.mkResponse 401 (ExtractRoute.ApiConfigurationError m)
    else ExtractRoute.mkResponse 500 (ExtractRoute.ExtractionFailed m).
Proof. reflexivity. Qed.

(** X10: once the request is valid and the text of the document is at
    hand, the handler answers 200 with a record, or 401 or 500 with a
    message that starts with ["Failed to extract data with Gemini: "]; it
    is 401 exactly when that message contains ["API key"].  It answers
    neither 429 nor 400 from there. *)
Theorem extract_route_after_text
  (rt : Runtime.t) (reqBody : json) (w : World.t)
  (req : ExtractRequest.t) (pdfBuffer : list N) (text : jsstring) :
  ExtractRequestSchema.parse reqBody = Zod.Success req ->
  ExtractRoute.loadPdf rt req = Returned pdfBuffer ->
  Runtime.pdf rt pdfBuffer = Returned text ->
  let r := (ExtractRoute.post rt reqBody w).1 in
  (exists d, r = ExtractRoute.mkResponse 200 (ExtractRoute.Extracted d))
  \/ (exists cause,
        let m := js "Failed to extract data with Gemini: " ++ cause in
        occursIn (js "API key") m
        /\ r = ExtractRoute.mkResponse 401 (ExtractRoute.ApiConfigurationError m))
  \/ (exists cause,
        let m := js "Failed to extract data with Gemini: " ++ cause in
        ~ occursIn (js "API key") m
        /\ r = ExtractRoute.mkResponse 500 (ExtractRoute.ExtractionFailed m)).
Proof.
  intros Hreq Hload Hpdf. cbv zeta. unfold ExtractRoute.post.
  rewrite (tryExtract_reaches_service rt reqBody w req pdfBuffer text Hreq Hload Hpdf).
  destruct (AIService.extractDataFromPDF rt AIService.new text w) as [[[d|e] s] w'] eqn:E;
    cbn [fst snd].
  - left. by exists d.
  - right. apply extractDataFromPDF_throws_wrapped in E as [_ [cause ->]].
    rewrite (onError_wrapped rt cause). cbv zeta.
    destruct (includes _ (js "API key")) eqn:Ei.
    + left. exists cause. split; [by apply includes_true | done].
    + right. exists cause. split; [by apply includes_false | done].
Qed.

Lemma extract_route_after_text_witness :
  let r := (ExtractRoute.post quotaThenReply Double.extractBody World.initial).1 in
  (exists d, r = ExtractRoute.mkResponse 200 (ExtractRoute.Extracted d))
  \/ (exists cause,
        let m := js "Failed to extract data with Gemini: " ++ cause in
        occursIn (js "API key") m
        /\ r = ExtractRoute.mkResponse 401 (ExtractRoute.ApiConfigurationError m))
  \/ (exists cause,
        let m := js "Failed to extract data with Gemini: " ++ cause in
        ~ occursIn (js "API key") m
        /\ r = ExtractRoute.mkResponse 500 (ExtractRoute.ExtractionFailed m)).
Proof.
  apply (extract_route_after_text quotaThenReply Double.extractBody World.initial
           Double.extractRequest Double.pdfBytes Double.pdfText).
  - vm_compute. reflexivity.
  - vm_compute. reflexivity.
  - vm_compute. reflexivity.
Defined.

Lemma extractDataFromPDF_calls (rt : Runtime.t) (this : AIService.t)
  (pdfText : jsstring) (w : World.t) :
  let after := World.upstreamCalls (AIService.extractDataFromPDF rt this pdfText w).2 in
  after = World.upstreamCalls w
  \/ after = World.upstreamCalls w ++ [AIService.createExtractionPrompt pdfText].
Proof.
  cbv zeta.
  destruct (AIService.cache this !! AIService.createTextHash pdfText) as [d|] eqn:Ec.
  - left. by rewrite (extractDataFromPDF_hit rt this pdfText w d Ec).
  - destruct (AIService.keyMissing rt) eqn:Ek.
    + left. by rewrite (extractDataFromPDF_no_key rt this pdfText w Ec Ek).
    + right. by apply extractDataFromPDF_miss_calls.
Qed.

(** X11: one request to the extract endpoint makes at most one call to
    the model, with the extraction prompt of some text, and none at all
    when it answers 400. *)
Theorem extract_route_model_calls (rt : Runtime.t) (reqBody : json) (w : World.t) :
  let after := World.upstreamCalls (ExtractRoute.post rt reqBody w).2 in
  (after = World.upstreamCalls w
   \/ exists text, after = World.upstreamCalls w ++ [AIService.createExtractionPrompt text])
  /\ (ExtractRoute.status (ExtractRoute.post rt reqBody w).1 = 400 ->
      (ExtractRoute.post rt reqBody w).2 = w).
Proof.
  cbv zeta. split.
  - rewrite post_world. unfold ExtractRoute.tryExtract.
    destruct (ExtractRequestSchema.parse reqBody) as [req|issues]; [|by left].
    destruct (ExtractRoute.loadPdf rt req) as [pdfBuffer|e]; [|by left].
    destruct (Runtime.pdf rt pdfBuffer) as [text|e]; [|by left].
    destruct (extractDataFromPDF_calls rt AIService.new text w) as [H|H];
      destruct (AIService.extractDataFromPDF rt AIService.new text w) as [[r s] w'];
      cbn [snd] in *; [by left | right; by exists text].
  - unfold ExtractRoute.post, ExtractRoute.tryExtract.
    destruct (ExtractRequestSchema.parse reqBody) as [req|issues]; [|done].
    destruct (ExtractRoute.loadPdf rt req) as [pdfBuffer|e]; [|done].
    destruct (Runtime.pdf rt pdfBuffer) as [text|e]; [|done].
    destruct (AIService.extractDataFromPDF rt AIService.new text w) as [[[d|e] s] w'] eqn:E.
    + cbn. discriminate.
    + apply extractDataFromPDF_throws_wrapped in E as [_ [cause ->]].
      cbn [fst snd]. rewrite (onError_wrapped rt cause). cbv zeta.
      destruct (includes _ (js "API key")); cbn; discriminate.
Qed.

(** ** The service without cache *)

Lemma validateResponse_not_quota (rt : Runtime.t) (reply : jsstring) (e : Thrown) :
  parseThrowsSyntaxError rt ->
  AIService.validateResponse rt reply = Threw e ->
  AIService.isQuotaExceededError rt e = false.
Proof.
  intros Hp. unfold AIService.validateResponse.
  destruct (Runtime.JSON_parse rt _) as [parsed|e0] eqn:Ep.
  - destruct (ExtractedDataSchema.parse parsed); [discriminate|].
    intros H. injection H as <-. reflexivity.
  - intros H. injection H as <-. apply Hp in Ep as [m ->]. reflexivity.
Qed.

Lemma parseWith_throws (table : list (jsstring * json)) (text : jsstring) (e : Thrown) :
  Double.parseWith table text = Threw e ->
  exists message, e = Err (Error.mk (js "SyntaxError") message).
Proof.
  induction table as [|[t v] rest IH]; cbn.
  - intros H. injection H as <-. by eexists.
  - destruct (Js.eqb text t); [discriminate | exact IH].
Qed.

(** X12: with a [JSON.parse] that throws nothing but a [SyntaxError], the
    caching service on a fresh instance gives the very result, and makes
    the very call, of the service without cache whenever the model returns
    a reply or the key is missing: the two differ only in how they treat a
    failing model call. *)
Theorem caching_agrees_with_plain
  (rt : Runtime.t) (pdfText : jsstring) (w : World.t) :
  parseThrowsSyntaxError rt ->
  AIService.keyMissing rt = true
  \/ (exists reply,
        Runtime.generateContent rt (length (World.upstreamCalls w))
          (AIService.createExtractionPrompt pdfText) = Returned reply) ->
  ((AIService.extractDataFromPDF rt AIService.new pdfText w).1.1,
   (AIService.extractDataFromPDF rt AIService.new pdfText w).2)
  = AIServicePlain.extractDataFromPDF rt pdfText w.
Proof.
  intros Hp H.
  unfold AIService.extractDataFromPDF, AIServicePlain.extractDataFromPDF,
    AIService.extractUncached, AIServicePlain.tryExtract,
    AIService.extractWithGemini, AIServicePlain.extractWithGemini.
  rewrite new_cache_empty.
  destruct (AIService.keyMissing rt) eqn:Ek; [reflexivity|].
  destruct H as [H|[reply H]]; [discriminate|]. rewrite H.
  destruct (AIService.validateResponse rt reply) as [v|e] eqn:Ev; [reflexivity|].
  by rewrite (validateResponse_not_quota rt reply e Hp Ev).
Qed.

Lemma caching_agrees_with_plain_witness :
  ((AIService.extractDataFromPDF Double.twoReplies AIService.new Double.pdfText
      World.initial).1.1,
   (AIService.extractDataFromPDF Double.twoReplies AIService.new Double.pdfText
      World.initial).2)
  = AIServicePlain.extractDataFromPDF Double.twoReplies Double.pdfText World.initial.
Proof.
  apply (caching_agrees_with_plain Double.twoReplies Double.pdfText World.initial).
  - intros text e. apply parseWith_throws.
  - right. exists (js "{}"). reflexivity.
Defined.

(** Where they differ: an exhausted quota is an error for the service
    without cache and a fallback record for the caching one. *)
Example plain_throws_on_quota :
  (AIServicePlain.extractDataFromPDF quotaThenReply Double.pdfText World.initial).1
  = Threw (Err (Error.mk (js "Error")
      (js "Failed to extract data with Gemini: [GoogleGenerativeAI Error]: Error fetching: [429 Too Many Requests] Resource has been exhausted")))
  /\ (AIService.extractDataFromPDF quotaThenReply AIService.new Double.pdfText
        World.initial).1.1
     = Returned (AIService.getFallbackData quotaThenReply).
Proof. split; vm_compute; reflexivity. Qed.

(** ** What the schema keeps of a reply *)

Section SchemaReads.
Import Zod.

Lemma z_string_Success (p : list PathSeg) (v : option json) (s : jsstring) :
  z_string p v = Success s -> v = Some (JStr s).
Proof.
  unfold z_string. destruct v as [[]|]; try discriminate. intros H. by injection H as ->.
Qed.

Lemma z_number_Success (p : list PathSeg) (v : option json) (n : number) :
  z_number p v = Success n -> v = Some (JNum n) /\ isNaN n = false.
Proof.
  unfold z_number. destruct v as [[| |m| | |]|]; try discriminate.
  destruct (isNaN m) eqn:E; [discriminate|]. intros H. by injection H as ->.
Qed.

Lemma z_optional_string_Success (p : list PathSeg) (v : option json) (o : option jsstring) :
  z_optional z_string p v = Success o -> v = JStr <$> o.
Proof.
  unfold z_optional. destruct v as [x|].
  - destruct (z_string p (Some x)) as [s|] eqn:E; [|discriminate].
    cbn. intros H. injection H as <-. by apply z_string_Success in E.
  - intros H. by injection H as <-.
Qed.

Lemma z_optional_number_Success (p : list PathSeg) (v : option json) (o : option number) :
  z_optional z_number p v = Success o -> v = JNum <$> o.
Proof.
  unfold z_optional. destruct v as [x|].
  - destruct (z_number p (Some x)) as [s|] eqn:E; [|discriminate].
    cbn. intros H. injection H as <-. by apply z_number_Success in E as [-> _].
  - intros H. by injection H as <-.
Qed.

Lemma lineItem_Success (p : list PathSeg) (x : json) (item : LineItem.t) :
  ExtractedDataSchema.lineItem p (Some x) = Success item -> itemOf x item.
Proof.
  unfold ExtractedDataSchema.lineItem. intros H.
  apply z_object_Success in H as (o & Ho & H). injection Ho as ->.
  ap_inversion H. subst. unfold field in *.
  repeat match goal with
         | Hs : z_string _ _ = Success _ |- _ => apply z_string_Success in Hs
         | Hn : z_number _ _ = Success _ |- _ => apply z_number_Success in Hn as [Hn _]
         end.
  by repeat split.
Qed.

Lemma array_items_Success (p : list PathSeg) (i : nat) (xs : list json)
  (items : list LineItem.t) :
  array_items ExtractedDataSchema.lineItem p i xs = Success items ->
  Forall2 itemOf xs items.
Proof.
  revert i items. induction xs as [|x xs IH]; intros i items; cbn [array_items].
  - intros H. injection H as <-. constructor.
  - intros H. ap_inversion H. subst. constructor.
    + by eapply lineItem_Success.
    + by eapply IH.
Qed.

(** X13: a reply the schema accepts is an object with a [vendor] and an
    [invoice] object, and the validated record carries their values
    unchanged, the currency apart: the required strings, each optional
    field exactly when the reply has it, and the line items one for one in
    their order. *)
Theorem parse_Success_reads_reply (data : json) (d : ExtractedData.t) :
  ExtractedDataSchema.parse data = Success d ->
  exists (v inv : list (jsstring * json)) (items : list json),
    member data (js "vendor") = Some (JObj v)
    /\ member data (js "invoice") = Some (JObj inv)
    /\ getProp (js "name") v = Some (JStr (Vendor.name (ExtractedData.vendor d)))
    /\ getProp (js "address") v = JStr <$> Vendor.address (ExtractedData.vendor d)
    /\ getProp (js "taxId") v = JStr <$> Vendor.taxId (ExtractedData.vendor d)
    /\ getProp (js "number") inv = Some (JStr (InvoiceData.number (ExtractedData.invoice d)))
    /\ getProp (js "date") inv = Some (JStr (InvoiceData.date (ExtractedData.invoice d)))
    /\ getProp (js "subtotal") inv = JNum <$> InvoiceData.subtotal (ExtractedData.invoice d)
    /\ getProp (js "taxPercent") inv
       = JNum <$> InvoiceData.taxPercent (ExtractedData.invoice d)
    /\ getProp (js "total") inv = JNum <$> InvoiceData.total (ExtractedData.invoice d)
    /\ getProp (js "poNumber") inv = JStr <$> InvoiceData.poNumber (ExtractedData.invoice d)
    /\ getProp (js "poDate") inv = JStr <$> InvoiceData.poDate (ExtractedData.invoice d)
    /\ getProp (js "lineItems") inv = Some (JArr items)
    /\ Forall2 itemOf items (InvoiceData.lineItems (ExtractedData.invoice d)).
Proof.
  unfold ExtractedDataSchema.parse, ExtractedDataSchema.schema. intros H.
  apply z_object_Success in H as (o & Ho & H). injection Ho as ->.
  ap_inversion H. subst. cbn [ExtractedData.invoice ExtractedData.vendor].
  repeat match goal with
  | Hi : field _ ExtractedDataSchema.invoice _ _ = _ |- _ =>
      unfold field, ExtractedDataSchema.invoice in Hi;
      apply z_object_Success in Hi as (inv & Hinv & Hi);
      ap_inversion Hi; subst
  | Hv : field _ ExtractedDataSchema.vendor _ _ = _ |- _ =>
      unfold field, ExtractedDataSchema.vendor in Hv;
      apply z_object_Success in Hv as (v & Hvv & Hv);
      ap_inversion Hv; subst
  end.
  unfold field in *.
  repeat match goal with
         | Hs : z_string _ _ = Success _ |- _ => apply z_string_Success in Hs
         | Hs : z_optional z_string _ _ = Success _ |- _ =>
             apply z_optional_string_Success in Hs
         | Hn : z_optional z_number _ _ = Success _ |- _ =>
             apply z_optional_number_Success in Hn
         end.
  match goal with
  | Ha : z_array _ _ ?x = Success _ |- _ =>
      unfold z_array in Ha; destruct x as [[| | | |items|]|] eqn:Ex; try discriminate;
      apply array_items_Success in Ha
  end.
  exists v, inv, items. cbn [member InvoiceData.number InvoiceData.date
    InvoiceData.subtotal InvoiceData.taxPercent InvoiceData.total InvoiceData.poNumber
    InvoiceData.poDate InvoiceData.lineItems Vendor.name Vendor.address Vendor.taxId].
  repeat split; assumption.
Qed.

Lemma parse_Success_reads_reply_witness :
  exists (v inv : list (jsstring * json)) (items : list json),
    member (Double.replyValue []) (js "vendor") = Some (JObj v)
    /\ member (Double.replyValue []) (js "invoice") = Some (JObj inv)
    /\ getProp (js "name") v = Some (JStr (js "ACME"))
    /\ getProp (js "address") v = JStr <$> None
    /\ getProp (js "taxId") v = JStr <$> None
    /\ getProp (js "number") inv = Some (JStr (js "INV-1"))
    /\ getProp (js "date") inv = Some (JStr (js "2024-01-10"))
    /\ getProp (js "subtotal") inv = JNum <$> None
    /\ getProp (js "taxPercent") inv = JNum <$> None
    /\ getProp (js "total") inv = JNum <$> None
    /\ getProp (js "poNumber") inv = JStr <$> None
    /\ getProp (js "poDate") inv = JStr <$> None
    /\ getProp (js "lineItems") inv = Some (JArr items)
    /\ Forall2 itemOf items [].
Proof.
  apply (parse_Success_reads_reply (Double.replyValue [])
           (ExtractedData.mk (Vendor.mk (js "ACME") None None)
              (InvoiceData.mk (js "INV-1") (js "2024-01-10") (js "INR")
                 None None None None None []))).
  vm_compute. reflexivity.
Defined.

End SchemaReads.

(** ** The invoice collection *)

Lemma findOne_None (fileId : jsstring) (db : list Invoice.t) :
  Invoice.findOne fileId db = None -> fileId ∉ (Invoice.fileId <$> db).
Proof.
  intros Hn Hin. apply list_elem_of_fmap in Hin as (d & Hd & Hin).
  destruct (findOne_Some fileId db d Hin (eq_sym Hd)) as [found Hf]. congruence.
Qed.

Lemma find_app_None {A} (f : A -> bool) (l : list A) (x : A) :
  find f l = None -> f x = true -> find f (l ++ [x]) = Some x.
Proof.
  induction l as [|y l IH]; cbn; intros Hn Hx; [by rewrite Hx|].
  destruct (f y); [discriminate | by apply IH].
Qed.

Lemma createInvoice_201 (objectId : jsstring) (now saved : Z) (reqBody : json)
  (db : list Invoice.t) :
  InvoiceRoutes.status (InvoiceRoutes.createInvoice objectId now saved reqBody db).1 = 201 ->
  exists data,
    CreateInvoiceSchema.parse reqBody = Zod.Success data
    /\ Invoice.findOne (CreateInvoice.fileId data) db = None
    /\ Invoice.requiredPresent data = true
    /\ InvoiceRoutes.createInvoice objectId now saved reqBody db
       = (InvoiceRoutes.mkResponse 201
            (InvoiceRoutes.Created (Invoice.build objectId now saved data)),
          db ++ [Invoice.build objectId now saved data]).
Proof.
  unfold InvoiceRoutes.createInvoice.
  destruct (CreateInvoiceSchema.parse reqBody) as [data|issues]; [|discriminate].
  destruct (Invoice.findOne _ db) eqn:Ef; [discriminate|].
  destruct (Invoice.requiredPresent data) eqn:Er; [|discriminate].
  intros _. by exists data.
Qed.

(** X14: creation keeps the [fileId]s of the collection distinct: if no
    two stored invoices share a [fileId] before a creation request, none do
    after it, whatever the request. *)
Theorem createInvoice_keeps_fileIds_distinct
  (objectId : jsstring) (now saved : Z) (reqBody : json) (db : list Invoice.t) :
  NoDup (Invoice.fileId <$> db) ->
  NoDup (Invoice.fileId <$> (InvoiceRoutes.createInvoice objectId now saved reqBody db).2).
Proof.
  intros Hnd. unfold InvoiceRoutes.createInvoice.
  destruct (CreateInvoiceSchema.parse reqBody) as [data|issues]; [|done].
  destruct (Invoice.findOne _ db) eqn:Ef; [done|].
  destruct (Invoice.requiredPresent data); [|done].
  cbn [snd]. rewrite fmap_app. apply NoDup_app. split; [done|]. split.
  - intros x Hx Hx'. cbn in Hx'. apply list_elem_of_singleton in Hx'. subst x.
    by apply findOne_None in Ef.
  - cbn. apply NoDup_singleton.
Qed.

Lemma createInvoice_keeps_fileIds_distinct_witness :
  NoDup (Invoice.fileId <$>
           (InvoiceRoutes.createInvoice (js "id-9") 20 21 Double.createBody
              [Double.stored 2; Double.stored 3]).2)
  /\ NoDup (Invoice.fileId <$>
              (InvoiceRoutes.createInvoice (js "id-9") 20 21 Double.createBody
                 [Double.stored 1; Double.stored 2]).2).
Proof.
  split.
  - apply (createInvoice_keeps_fileIds_distinct (js "id-9") 20 21 Double.createBody
             [Double.stored 2; Double.stored 3]).
    refine (bool_decide_unpack (NoDup _) _). vm_compute. exact I.
  - apply (createInvoice_keeps_fileIds_distinct (js "id-9") 20 21 Double.createBody
             [Double.stored 1; Double.stored 2]).
    refine (bool_decide_unpack (NoDup _) _). vm_compute. exact I.
Defined.

(** In the first case the new [fileId] is looked up among two others and
    the invoice is added; in the second the lookup finds the [fileId] and
    nothing is added. *)
Example createInvoice_keeps_fileIds_distinct_cases :
  Invoice.fileId <$>
    (InvoiceRoutes.createInvoice (js "id-9") 20 21 Double.createBody
       [Double.stored 2; Double.stored 3]).2
  = [js "f-2"; js "f-3"; js "f-1"]
  /\ Invoice.fileId <$>
       (InvoiceRoutes.createInvoice (js "id-9") 20 21 Double.createBody
          [Double.stored 1; Double.stored 2]).2
     = [js "f-1"; js "f-2"].
Proof. split; vm_compute; reflexivity. Qed.

(** X15: a creation request that was answered 201 is answered 409 when
    it is sent again, under whatever identifier and at whatever times, and
    the collection stays as the first request left it. *)
Theorem createInvoice_again_conflicts
  (objectId objectId' : jsstring) (now saved now' saved' : Z) (reqBody : json) (db : list Invoice.t) :
  InvoiceRoutes.status (InvoiceRoutes.createInvoice objectId now saved reqBody db).1 = 201 ->
  let db' := (InvoiceRoutes.createInvoice objectId now saved reqBody db).2 in
  InvoiceRoutes.createInvoice objectId' now' saved' reqBody db'
  = (InvoiceRoutes.mkResponse 409 InvoiceRoutes.AlreadyExists, db').
Proof.
  intros H. apply createInvoice_201 in H as (data & Hp & Hf & Hr & ->). cbv zeta.
  cbn [snd]. unfold InvoiceRoutes.createInvoice. rewrite Hp.
  unfold Invoice.findOne.
  rewrite (find_app_None _ db (Invoice.build objectId now saved data) Hf); [done|].
  cbn. apply eqb_refl.
Qed.

Lemma createInvoice_again_conflicts_witness :
  let db' := (InvoiceRoutes.createInvoice (js "id-1") 1 2 Double.createBody []).2 in
  InvoiceRoutes.createInvoice (js "id-2") 3 4 Double.createBody db'
  = (InvoiceRoutes.mkResponse 409 InvoiceRoutes.AlreadyExists, db').
Proof.
  apply (createInvoice_again_conflicts (js "id-1") (js "id-2") 1 2 3 4 Double.createBody []).
  vm_compute. reflexivity.
Defined.

(** X16: an invoice that was created is the one the collection gives back:
    [GET /:id] under its identifier answers 200 with it, provided no stored
    invoice had that identifier, and a search by its [fileId] finds it. *)
Theorem created_invoice_is_found
  (cast : InvoiceByIdRoutes.ObjectIdCast) (id objectId : jsstring) (now saved : Z)
  (reqBody : json) (db db' : list Invoice.t) (invoice : Invoice.t) :
  InvoiceRoutes.createInvoice objectId now saved reqBody db
  = (InvoiceRoutes.mkResponse 201 (InvoiceRoutes.Created invoice), db') ->
  cast id = Some objectId ->
  (forall d, d ∈ db -> Invoice.id d <> objectId) ->
  InvoiceByIdRoutes.getInvoice cast id db'
  = InvoiceByIdRoutes.mkResponse 200 (InvoiceByIdRoutes.Found invoice)
  /\ Invoice.findOne (Invoice.fileId invoice) db' = Some invoice.
Proof.
  intros Hc Hcast Hfresh.
  assert (InvoiceRoutes.status (InvoiceRoutes.createInvoice objectId now saved reqBody db).1 = 201)
    as H201 by (by rewrite Hc).
  apply createInvoice_201 in H201 as (data & Hp & Hf & Hr & He).
  rewrite He in Hc. injection Hc as <- <-. split.
  - unfold InvoiceByIdRoutes.getInvoice. rewrite Hcast.
    rewrite (find_app_None _ db (Invoice.build objectId now saved data)); [done| |].
    + destruct (find _ db) as [d|] eqn:E; [|done].
      apply find_some in E as [Hin Hid]. apply list_elem_of_In in Hin.
      apply eqb_true in Hid. by apply Hfresh in Hin.
    + apply eqb_refl.
  - unfold Invoice.findOne. apply find_app_None; [exact Hf | apply eqb_refl].
Qed.

Lemma created_invoice_is_found_witness :
  InvoiceByIdRoutes.getInvoice Some (js "id-1")
    (InvoiceRoutes.createInvoice (js "id-1") 1 2 Double.createBody []).2
  = InvoiceByIdRoutes.mkResponse 200
      (InvoiceByIdRoutes.Found
         (Invoice.build (js "id-1") 1 2
            (CreateInvoice.mk (js "f-1") (js "invoice.pdf") None
               (Vendor.mk (js "ACME") None None)
               (InvoiceInput.mk (js "INV-1") (js "2024-01-10") None None None None
                  None None []))))
  /\ Invoice.findOne (js "f-1")
       (InvoiceRoutes.createInvoice (js "id-1") 1 2 Double.createBody []).2
     = Some (Invoice.build (js "id-1") 1 2
               (CreateInvoice.mk (js "f-1") (js "invoice.pdf") None
                  (Vendor.mk (js "ACME") None None)
                  (InvoiceInput.mk (js "INV-1") (js "2024-01-10") None None None None
                     None None []))).
Proof.
  apply (created_invoice_is_found Some (js "id-1") (js "id-1") 1 2 Double.createBody []
           (InvoiceRoutes.createInvoice (js "id-1") 1 2 Double.createBody []).2
           (Invoice.build (js "id-1") 1 2
              (CreateInvoice.mk (js "f-1") (js "invoice.pdf") None
                 (Vendor.mk (js "ACME") None None)
                 (InvoiceInput.mk (js "INV-1") (js "2024-01-10") None None None None
                    None None [])))).
  - vm_compute. reflexivity.
  - reflexivity.
  - intros d Hd. by apply elem_of_nil in Hd.
Defined.

Lemma createInvoice_currency (reqBody : json) (data : CreateInvoice.t) :
  CreateInvoiceSchema.parse reqBody = Zod.Success data ->
  exists inv,
    member reqBody (js "invoice") = Some (JObj inv)
    /\ getProp (js "currency") inv
       = JStr <$> InvoiceInput.currency (CreateInvoice.invoice data).
Proof.
  unfold CreateInvoiceSchema.parse, CreateInvoiceSchema.schema. intros Hp.
  apply z_object_Success in Hp as (o & Ho & Hp). injection Ho as ->.
  ap_inversion Hp. subst.
  match goal with Hi : Zod.field "invoice" _ _ _ = _ |- _ =>
    unfold Zod.field, CreateInvoiceSchema.invoice in Hi;
    apply z_object_Success in Hi as (inv & Hinv & Hi);
    ap_inversion Hi; subst
  end.
  exists inv. split; [exact Hinv|]. cbn.
  match goal with Hcur : Zod.field "currency" _ _ _ = Zod.Success _ |- _ =>
    unfold Zod.field in Hcur; by apply z_optional_string_Success in Hcur
  end.
Qed.

Lemma truthy_nonempty (s : jsstring) : truthy s = true -> s <> [].
Proof. by destruct s. Qed.

(** X17: a stored invoice that a creation request made has non-empty
    [fileId], [fileName], vendor name, invoice number and date; its
    currency is the one of the request, which may be empty, or ["USD"]
    when the request has none; it carries the identifier it was given,
    [createdAt] is the time at which the document was constructed and
    [updatedAt] the time, read later, at which it was saved. *)
Theorem created_invoice_fields
  (objectId : jsstring) (now saved : Z) (reqBody : json) (db db' : list Invoice.t)
  (invoice : Invoice.t) :
  InvoiceRoutes.createInvoice objectId now saved reqBody db
  = (InvoiceRoutes.mkResponse 201 (InvoiceRoutes.Created invoice), db') ->
  Invoice.fileId invoice <> []
  /\ Invoice.fileName invoice <> []
  /\ Vendor.name (Invoice.vendor invoice) <> []
  /\ InvoiceData.number (Invoice.invoice invoice) <> []
  /\ InvoiceData.date (Invoice.invoice invoice) <> []
  /\ Forall (fun item => LineItem.description item <> [])
       (InvoiceData.lineItems (Invoice.invoice invoice))
  /\ member reqBody (js "fileId") = Some (JStr (Invoice.fileId invoice))
  /\ (exists inv,
        member reqBody (js "invoice") = Some (JObj inv)
        /\ (getProp (js "currency") inv = None
            /\ InvoiceData.currency (Invoice.invoice invoice) = js "USD"
            \/ getProp (js "currency") inv
               = Some (JStr (InvoiceData.currency (Invoice.invoice invoice)))))
  /\ Invoice.id invoice = objectId
  /\ Invoice.createdAt invoice = now
  /\ Invoice.updatedAt invoice = Some saved.
Proof.
  intros Hc.
  assert (InvoiceRoutes.status (InvoiceRoutes.createInvoice objectId now saved reqBody db).1 = 201)
    as H201 by (by rewrite Hc).
  apply createInvoice_201 in H201 as (data & Hp & Hf & Hr & He).
  rewrite He in Hc. injection Hc as <- <-.
  unfold Invoice.requiredPresent in Hr.
  repeat (apply andb_true_iff in Hr as [Hr ?]).
  pose proof (createInvoice_fileId reqBody data Hp) as Hid.
  pose proof (createInvoice_currency reqBody data Hp) as Hcur. clear Hp.
  destruct data as [fileId fileName fileUrl vendor i]. cbn in *.
  repeat (split; [by apply truthy_nonempty|]).
  split.
  { apply Forall_forall. intros item Hin. apply truthy_nonempty.
    match goal with Hall : forallb _ _ = true |- _ =>
      rewrite forallb_forall in Hall; apply Hall end.
    by apply list_elem_of_In. }
  split; [exact Hid|]. split; [|done].
  destruct Hcur as (inv & Hinv & Hcur). exists inv. split; [exact Hinv|].
  destruct (InvoiceInput.currency i) as [c|]; cbn in *; [by right | by left].
Qed.

Lemma created_invoice_fields_witness :
  let invoice :=
    Invoice.build (js "id-1") 1 2
      (CreateInvoice.mk (js "f-1") (js "invoice.pdf") None
         (Vendor.mk (js "ACME") None None)
         (InvoiceInput.mk (js "INV-1") (js "2024-01-10") None None None None
            None None [])) in
  Invoice.fileId invoice <> []
  /\ Invoice.fileName invoice <> []
  /\ Vendor.name (Invoice.vendor invoice) <> []
  /\ InvoiceData.number (Invoice.invoice invoice) <> []
  /\ InvoiceData.date (Invoice.invoice invoice) <> []
  /\ Forall (fun item => LineItem.description item <> [])
       (InvoiceData.lineItems (Invoice.invoice invoice))
  /\ member Double.createBody (js "fileId") = Some (JStr (Invoice.fileId invoice))
  /\ (exists inv,
        member Double.createBody (js "invoice") = Some (JObj inv)
        /\ (getProp (js "currency") inv = None
            /\ InvoiceData.currency (Invoice.invoice invoice) = js "USD"
            \/ getProp (js "currency") inv
               = Some (JStr (InvoiceData.currency (Invoice.invoice invoice)))))
  /\ Invoice.id invoice = js "id-1"
  /\ Invoice.createdAt invoice = 1
  /\ Invoice.updatedAt invoice = Some 2.
Proof.
  apply (created_invoice_fields (js "id-1") 1 2 Double.createBody []
           (InvoiceRoutes.createInvoice (js "id-1") 1 2 Double.createBody []).2).
  vm_compute. reflexivity.
Defined.

(** ** Listing *)

Lemma insertDesc_sorted (tie : Invoice.TieOrder) (d : Invoice.t) (docs : list Invoice.t) :
  StronglySorted (fun a b => Invoice.createdAt b <= Invoice.createdAt a) docs ->
  StronglySorted (fun a b => Invoice.createdAt b <= Invoice.createdAt a)
    (Invoice.insertDesc tie d docs).
Proof.
  induction 1 as [|x docs Hs IH Hx]; cbn [Invoice.insertDesc].
  - repeat constructor.
  - unfold Invoice.precedes.
    destruct (Invoice.createdAt x <? Invoice.createdAt d) eqn:E;
      [|destruct (Invoice.createdAt x =? Invoice.createdAt d) eqn:E';
        [destruct (tie d <=? tie x)|]]; cbn [orb andb].
    + apply Z.ltb_lt in E. constructor; [by constructor|].
      constructor; [lia|]. eapply Forall_impl; [exact Hx|]. cbn. intros y Hy. lia.
    + apply Z.eqb_eq in E'. constructor; [by constructor|].
      constructor; [lia|]. eapply Forall_impl; [exact Hx|]. cbn. intros y Hy. lia.
    + apply Z.eqb_eq in E'. constructor; [exact IH|].
      rewrite (insertDesc_Permutation tie d docs). constructor; [lia | done].
    + apply Z.ltb_ge in E. constructor; [exact IH|].
      rewrite (insertDesc_Permutation tie d docs). by constructor.
Qed.

Lemma sortCreatedAtDesc_sorted (tie : Invoice.TieOrder) (docs : list Invoice.t) :
  StronglySorted (fun a b => Invoice.createdAt b <= Invoice.createdAt a)
    (Invoice.sortCreatedAtDesc tie docs).
Proof.
  induction docs as [|d docs IH]; cbn [Invoice.sortCreatedAtDesc fold_right].
  - constructor.
  - by apply insertDesc_sorted.
Qed.

Lemma sorted_newestFirst (docs : list Invoice.t) :
  StronglySorted (fun a b => Invoice.createdAt b <= Invoice.createdAt a) docs ->
  newestFirst docs.
Proof.
  induction 1 as [|x docs Hs IH Hx]; intros i j a b Hij Ha Hb.
  - by rewrite lookup_nil in Ha.
  - destruct j as [|j]; [lia|]. cbn in Hb. destruct i as [|i].
    + cbn in Ha. injection Ha as <-.
      rewrite Forall_forall in Hx. apply Hx. by eapply list_elem_of_lookup_2.
    + cbn in Ha. apply (IH i j); [lia | done | done].
Qed.

Lemma newestFirst_drop (n : nat) (docs : list Invoice.t) :
  newestFirst docs -> newestFirst (drop n docs).
Proof.
  intros H i j a b Hij Ha Hb. rewrite lookup_drop in Ha, Hb.
  apply (H (n + i)%nat (n + j)%nat); [lia | done | done].
Qed.

Lemma newestFirst_take (n : nat) (docs : list Invoice.t) :
  newestFirst docs -> newestFirst (take n docs).
Proof.
  intros H i j a b Hij Ha Hb.
  apply lookup_take_Some in Ha as [Ha _]. apply lookup_take_Some in Hb as [Hb _].
  by apply (H i j).
Qed.

(** Whatever the skip, the limit and the engine, a cursor returns a run
    of consecutive documents. *)
Lemma skipLimit_slice (clamps : bool) (skip limitNum : option Integral.t)
  (docs invoices : list Invoice.t) :
  InvoiceRoutes.skipLimit clamps skip limitNum docs = Some invoices ->
  exists i k, invoices = take k (drop i docs).
Proof.
  assert (Hskip : forall n, exists i, InvoiceRoutes.skipped n docs = drop i docs).
  { intros n. unfold InvoiceRoutes.skipped.
    destruct (_ <=? n); [|by eexists]. exists (length docs). by rewrite drop_all. }
  assert (Hlim : forall n rest, exists k, InvoiceRoutes.limited n rest = take k rest).
  { intros n rest. unfold InvoiceRoutes.limited.
    destruct (_ <=? n); [|by eexists]. exists (length rest). by rewrite firstn_all. }
  assert (Hrest : forall rest, (exists i, rest = drop i docs) ->
            exists i k,
              match limitNum with
              | Some (Integral.Fin l) =>
                  if l =? 0 then rest else InvoiceRoutes.limited (Z.abs l) rest
              | _ => rest
              end = take k (drop i docs)).
  { intros rest [i ->]. exists i.
    destruct limitNum as [[l|s]|]; try (exists (length (drop i docs)); by rewrite firstn_all).
    destruct (l =? 0); [exists (length (drop i docs)); by rewrite firstn_all|].
    apply Hlim. }
  unfold InvoiceRoutes.skipLimit.
  destruct (negb clamps && _); [discriminate|].
  destruct skip as [[s|[|]]|]; cbn [fmap option_fmap option_map].
  - destruct (s <? 0); [discriminate|]. cbn. intros H. injection H as <-.
    apply Hrest, Hskip.
  - discriminate.
  - cbn. intros H. injection H as <-. apply Hrest. exists (length docs).
    by rewrite drop_all.
  - cbn. intros H. injection H as <-. apply Hrest. by exists 0%nat.
Qed.

Lemma matching_stored (regex : InvoiceRoutes.RegexEngine) (q : option jsstring)
  (db found : list Invoice.t) :
  InvoiceRoutes.matching regex q db = Some found ->
  found ⊆ db /\ (length found <= length db)%nat.
Proof.
  unfold InvoiceRoutes.matching.
  destruct q as [[|c pat]|]; try (intros H; injection H as <-; split; [done | lia]).
  destruct (regex (c :: pat)) as [test|]; [|discriminate].
  intros H. injection H as <-. split.
  - intros d Hd. by apply list_elem_of_filter in Hd as [_ Hd].
  - apply length_filter.
Qed.

(** X18: whatever the page and the page size, and whatever the engine
    makes of ties and of numbers beyond the 64-bit integers, a list answer
    with status 200 holds stored invoices only, newest first, and reports
    as [total] a number that the size of the collection bounds. *)
Theorem listInvoices_newest_first
  (regex : InvoiceRoutes.RegexEngine) (engine : Engine.t)
  (query : InvoiceRoutes.ListQuery)
  (db invoices : list Invoice.t) (pagination : InvoiceRoutes.Pagination) :
  InvoiceRoutes.listInvoices regex engine query db
  = InvoiceRoutes.mkResponse 200 (InvoiceRoutes.Listed invoices pagination) ->
  newestFirst invoices
  /\ invoices ⊆ db
  /\ 0 <= InvoiceRoutes.total pagination <= Z.of_nat (length db).
Proof.
  unfold InvoiceRoutes.listInvoices.
  destruct (InvoiceRoutes.matching regex _ db) as [found|] eqn:Em; [|discriminate].
  apply matching_stored in Em as [Hsub Hlen].
  destruct (InvoiceRoutes.skipLimit _ _ _ _) as [res|] eqn:Es; [|discriminate].
  apply skipLimit_slice in Es as (i & k & ->).
  intros H. injection H as <- <-. cbn [InvoiceRoutes.total].
  pose proof (sorted_newestFirst _ (sortCreatedAtDesc_sorted (Engine.tie engine) found))
    as Hs.
  split; [|split; [|lia]].
  - by apply newestFirst_take, newestFirst_drop.
  - intros d Hd. apply Hsub.
    rewrite <- (sortCreatedAtDesc_Permutation (Engine.tie engine) found).
    eapply subseteq_drop, subseteq_take, Hd.
Qed.

Lemma listInvoices_newest_first_witness :
  newestFirst (take 10 (Invoice.sortCreatedAtDesc (Engine.tie Double.rejecting)
                          Double.fifteen))
  /\ take 10 (Invoice.sortCreatedAtDesc (Engine.tie Double.rejecting) Double.fifteen)
     ⊆ Double.fifteen
  /\ 0 <= 15 <= Z.of_nat (length Double.fifteen).
Proof.
  apply (listInvoices_newest_first Double.literalRegex Double.rejecting
           (InvoiceRoutes.mkListQuery None (Some (js "1")) (Some (js "10")))
           Double.fifteen
           (take 10 (Invoice.sortCreatedAtDesc (Engine.tie Double.rejecting)
                       Double.fifteen))
           (InvoiceRoutes.mkPagination (Some (Integral.Fin 1)) (Some (Integral.Fin 10))
              15 (Some 2))).
  vm_compute. reflexivity.
Defined.

(** X19: with a search text that is not empty, every invoice of a list
    answer matches it in the vendor name or in the invoice number; an empty
    search text lists as no search text does. *)
Theorem listInvoices_search
  (regex : InvoiceRoutes.RegexEngine) (engine : Engine.t) (db : list Invoice.t)
  (pageParam limitParam : option jsstring) :
  (forall (q : jsstring) (test : jsstring -> bool) (d : Invoice.t),
     q <> [] -> regex q = Some test ->
     d ∈ listed (InvoiceRoutes.listInvoices regex engine
                   (InvoiceRoutes.mkListQuery (Some q) pageParam limitParam) db) ->
     test (Vendor.name (Invoice.vendor d)) = true
     \/ test (InvoiceData.number (Invoice.invoice d)) = true)
  /\ InvoiceRoutes.listInvoices regex engine
       (InvoiceRoutes.mkListQuery (Some []) pageParam limitParam) db
     = InvoiceRoutes.listInvoices regex engine
         (InvoiceRoutes.mkListQuery None pageParam limitParam) db.
Proof.
  split; [|reflexivity].
  intros q test d Hq Hr. unfold listed, InvoiceRoutes.listInvoices.
  cbn [InvoiceRoutes.q InvoiceRoutes.pageParam InvoiceRoutes.limitParam].
  unfold InvoiceRoutes.matching. destruct q as [|c q]; [done|]. rewrite Hr.
  destruct (InvoiceRoutes.skipLimit _ _ _ _) as [res|] eqn:Es;
    [|intros H; by apply elem_of_nil in H].
  apply skipLimit_slice in Es as (i & k & ->).
  cbn [InvoiceRoutes.body]. intros Hd.
  assert (d ∈ Invoice.sortCreatedAtDesc (Engine.tie engine)
                (filter (fun d => test (Vendor.name (Invoice.vendor d))
                                  || test (InvoiceData.number (Invoice.invoice d))) db))
    as Hin by (eapply subseteq_drop, subseteq_take, Hd).
  rewrite sortCreatedAtDesc_Permutation in Hin.
  apply list_elem_of_filter in Hin as [Ht _].
  apply Is_true_true in Ht. by apply orb_true_iff in Ht.
Qed.

(** A search for ["INV-7"] among fifteen invoices lists the one with that
    number. *)
Example listInvoices_search_example :
  listed (InvoiceRoutes.listInvoices Double.literalRegex Double.clamping
            (InvoiceRoutes.mkListQuery (Some (js "INV-7")) None None) Double.fifteen)
  = [Double.stored 7].
Proof. vm_compute. reflexivity. Qed.

Lemma pages_concat (n P : nat) (docs : list Invoice.t) :
  concat (map (fun k => pageOf (Z.of_nat n) docs (Z.of_nat k)) (seq 1 P))
  = take (P * n) docs.
Proof.
  induction P as [|P IH]; [done|].
  rewrite seq_S, map_app, concat_app, IH. cbn [map concat]. rewrite app_nil_r.
  unfold pageOf.
  replace (Z.to_nat ((Z.of_nat (1 + P) - 1) * Z.of_nat n)) with (P * n)%nat by nia.
  rewrite Nat2Z.id, take_take_drop. f_equal. lia.
Qed.

Lemma pages_within (c53 total limitNum pages k : Z) :
  1 <= limitNum -> total + limitNum <= c53 ->
  (pages - 1) * limitNum < total -> 1 <= k <= pages ->
  k * limitNum < c53.
Proof. intros. nia. Qed.

(** X20: when no two matching invoices have the same [createdAt], and
    for a positive page size that with the number of matches stays within
    [2^53], the answers to the pages 1 to [pages], one after the other,
    hold every matching invoice exactly once, newest first: nothing is left
    out or repeated across pages, whichever engine serves each page.
    [pages] is the number of pages the handler reports. *)
Theorem listInvoices_pages_cover
  (regex : InvoiceRoutes.RegexEngine) (q : option jsstring) (limitParam : jsstring)
  (limitNum pages : Z) (db found : list Invoice.t)
  (pageParamOf : nat -> jsstring) (engineOf : nat -> Engine.t) :
  parseInt limitParam = Some (Integral.Fin limitNum) ->
  1 <= limitNum ->
  InvoiceRoutes.matching regex q db = Some found ->
  Z.of_nat (length found) + limitNum <= 2 ^ 53 ->
  NoDup (Invoice.createdAt <$> found) ->
  InvoiceRoutes.ceilDiv (Z.of_nat (length found)) (Some (Integral.Fin limitNum))
    = Some pages ->
  (forall k, (1 <= k <= Z.to_nat pages)%nat ->
             parseInt (pageParamOf k) = Some (Integral.Fin (Z.of_nat k))) ->
  (forall tie : Invoice.TieOrder,
     concat (map (fun k =>
                    listed (InvoiceRoutes.listInvoices regex (engineOf k)
                              (InvoiceRoutes.mkListQuery q (Some (pageParamOf k))
                                 (Some limitParam)) db))
               (seq 1 (Z.to_nat pages)))
     = Invoice.sortCreatedAtDesc tie found)
  /\ concat (map (fun k =>
                    listed (InvoiceRoutes.listInvoices regex (engineOf k)
                              (InvoiceRoutes.mkListQuery q (Some (pageParamOf k))
                                 (Some limitParam)) db))
               (seq 1 (Z.to_nat pages)))
     ≡ₚ found.
Proof.
  intros Hl Hl1 Hm H53 Hnd Hc Hp.
  destruct (ceilDiv_ceiling (Z.of_nat (length found)) limitNum Hl1) as (pages' & Hc' & Hb).
  rewrite Hc in Hc'. injection Hc' as <-.
  assert (forall tie : Invoice.TieOrder,
            concat (map (fun k =>
                 listed (InvoiceRoutes.listInvoices regex (engineOf k)
                           (InvoiceRoutes.mkListQuery q (Some (pageParamOf k))
                              (Some limitParam)) db))
            (seq 1 (Z.to_nat pages)))
          = Invoice.sortCreatedAtDesc tie found) as Heq.
  { intros tie. transitivity
      (concat (map (fun k => pageOf (Z.of_nat (Z.to_nat limitNum))
                               (Invoice.sortCreatedAtDesc tie found) (Z.of_nat k))
                 (seq 1 (Z.to_nat pages)))).
    - f_equal. apply map_ext_in. intros k Hk. apply in_seq in Hk.
      destruct (listInvoices_page regex (engineOf k)
                  (InvoiceRoutes.mkListQuery q (Some (pageParamOf k)) (Some limitParam))
                  db found (Z.of_nat k) limitNum) as (pg & -> & _);
        [apply Hp; lia | exact Hl | lia | exact Hl1 | | exact Hm |].
      + apply (pages_within (2 ^ 53) (Z.of_nat (length found)) limitNum pages);
          [done | done | lia | lia].
      + unfold listed, pageOf. cbn [InvoiceRoutes.body].
        rewrite (sortCreatedAtDesc_tie_irrelevant (Engine.tie (engineOf k)) tie found Hnd).
        by rewrite Z2Nat.id by lia.
    - rewrite pages_concat. apply take_ge.
      rewrite (Permutation_length (sortCreatedAtDesc_Permutation tie found)). nia. }
  split; [exact Heq|]. rewrite (Heq (fun _ => 0)). apply sortCreatedAtDesc_Permutation.
Qed.

Lemma listInvoices_pages_cover_witness :
  (forall tie : Invoice.TieOrder,
     concat (map (fun k =>
                    listed (InvoiceRoutes.listInvoices Double.literalRegex
                              (if Nat.even k then Double.savedLast else Double.clamping)
                              (InvoiceRoutes.mkListQuery None
                                 (Some (toString (Z.of_nat k))) (Some (js "10")))
                              Double.fifteen))
               (seq 1 (Z.to_nat 2)))
     = Invoice.sortCreatedAtDesc tie Double.fifteen)
  /\ concat (map (fun k =>
                    listed (InvoiceRoutes.listInvoices Double.literalRegex
                              (if Nat.even k then Double.savedLast else Double.clamping)
                              (InvoiceRoutes.mkListQuery None
                                 (Some (toString (Z.of_nat k))) (Some (js "10")))
                              Double.fifteen))
               (seq 1 (Z.to_nat 2)))
     ≡ₚ Double.fifteen.
Proof.
  apply (listInvoices_pages_cover Double.literalRegex None (js "10") 10 2
           Double.fifteen Double.fifteen (fun k => toString (Z.of_nat k))
           (fun k => if Nat.even k then Double.savedLast else Double.clamping)).
  - vm_compute. reflexivity.
  - lia.
  - reflexivity.
  - vm_compute. discriminate.
  - refine (bool_decide_unpack (NoDup _) _). vm_compute. exact I.
  - vm_compute. reflexivity.
  - intros k Hk. assert (k = 1 \/ k = 2)%nat as [-> | ->] by (cbn in Hk; lia);
      vm_compute; reflexivity.
Defined.

(** ** One invoice by its identifier *)

Lemma removeFirst_Permutation (objectId : jsstring) (db : list Invoice.t) (d : Invoice.t) :
  find (InvoiceByIdRoutes.hasId objectId) db = Some d ->
  Invoice.id d = objectId /\ db ≡ₚ d :: InvoiceByIdRoutes.removeFirst objectId db.
Proof.
  induction db as [|x db IH]; cbn; [discriminate|].
  destruct (InvoiceByIdRoutes.hasId objectId x) eqn:E.
  - intros H. injection H as <-. split; [by apply eqb_true in E | done].
  - intros H. destruct (IH H) as [Hid Hp]. split; [done|].
    rewrite Hp at 1. apply Permutation_swap.
Qed.

Lemma removeFirst_sublist (objectId : jsstring) (db : list Invoice.t) :
  InvoiceByIdRoutes.removeFirst objectId db `sublist_of` db.
Proof.
  induction db as [|x db IH]; cbn; [done|].
  destruct (InvoiceByIdRoutes.hasId objectId x).
  - by apply sublist_cons.
  - by apply sublist_skip.
Qed.

Lemma find_hasId_None (objectId : jsstring) (db : list Invoice.t) :
  objectId ∉ (Invoice.id <$> db) -> find (InvoiceByIdRoutes.hasId objectId) db = None.
Proof.
  induction db as [|x db IH]; cbn; [done|]. intros Hn.
  apply not_elem_of_cons in Hn as [Hx Hn].
  destruct (InvoiceByIdRoutes.hasId objectId x) eqn:E; [|by apply IH].
  apply eqb_true in E. congruence.
Qed.

Lemma find_removeFirst_same (objectId : jsstring) (db : list Invoice.t) :
  NoDup (Invoice.id <$> db) ->
  find (InvoiceByIdRoutes.hasId objectId) (InvoiceByIdRoutes.removeFirst objectId db) = None.
Proof.
  induction db as [|x db IH]; cbn; [done|]. intros Hnd.
  apply NoDup_cons in Hnd as [Hx Hnd].
  destruct (InvoiceByIdRoutes.hasId objectId x) eqn:E.
  - apply eqb_true in E. apply find_hasId_None. by rewrite <- E.
  - cbn. rewrite E. by apply IH.
Qed.

Lemma find_removeFirst_other (objectId other : jsstring) (db : list Invoice.t) :
  other <> objectId ->
  find (InvoiceByIdRoutes.hasId other) (InvoiceByIdRoutes.removeFirst objectId db)
  = find (InvoiceByIdRoutes.hasId other) db.
Proof.
  intros Hne. induction db as [|x db IH]; cbn; [done|].
  destruct (InvoiceByIdRoutes.hasId objectId x) eqn:E.
  - apply eqb_true in E.
    assert (InvoiceByIdRoutes.hasId other x = false) as ->; [|done].
    apply eqb_false. congruence.
  - cbn. by rewrite IH.
Qed.

(** X21: [DELETE /:id] answers as [GET /:id] does (200, 404 or 500 on the
    same collection); on 200 it takes exactly one invoice out, one with
    the identifier asked for, and keeps the others in their order; on any
    other answer the collection is as before. *)
Theorem deleteInvoice_removes_one
  (cast : InvoiceByIdRoutes.ObjectIdCast) (id : jsstring) (db : list Invoice.t) :
  let r := (InvoiceByIdRoutes.deleteInvoice cast id db).1 in
  let db' := (InvoiceByIdRoutes.deleteInvoice cast id db).2 in
  InvoiceByIdRoutes.status r
  = InvoiceByIdRoutes.status (InvoiceByIdRoutes.getInvoice cast id db)
  /\ db' `sublist_of` db
  /\ (InvoiceByIdRoutes.status r = 200 ->
      exists d, cast id = Some (Invoice.id d) /\ db ≡ₚ d :: db')
  /\ (InvoiceByIdRoutes.status r <> 200 -> db' = db).
Proof.
  cbv zeta. unfold InvoiceByIdRoutes.deleteInvoice, InvoiceByIdRoutes.getInvoice.
  destruct (cast id) as [objectId|]; [|by repeat split].
  destruct (find _ db) as [d|] eqn:Ef; cbn [fst snd InvoiceByIdRoutes.status].
  - apply removeFirst_Permutation in Ef as [Hid Hp].
    repeat split; [apply removeFirst_sublist | | done].
    intros _. exists d. by rewrite Hid.
  - by repeat split.
Qed.

(** X22: when the stored identifiers are distinct, an invoice that was
    deleted is gone, [GET /:id] answers 404 for it, and every other
    identifier is answered as before the deletion. *)
Theorem getInvoice_after_delete
  (cast : InvoiceByIdRoutes.ObjectIdCast) (id : jsstring) (db : list Invoice.t) :
  NoDup (Invoice.id <$> db) ->
  InvoiceByIdRoutes.status (InvoiceByIdRoutes.deleteInvoice cast id db).1 = 200 ->
  let db' := (InvoiceByIdRoutes.deleteInvoice cast id db).2 in
  InvoiceByIdRoutes.getInvoice cast id db'
  = InvoiceByIdRoutes.mkResponse 404 InvoiceByIdRoutes.NotFound
  /\ (forall other, cast other <> cast id ->
        InvoiceByIdRoutes.getInvoice cast other db'
        = InvoiceByIdRoutes.getInvoice cast other db)
  /\ InvoiceByIdRoutes.deleteInvoice cast id db'
     = (InvoiceByIdRoutes.mkResponse 404 InvoiceByIdRoutes.NotFound, db').
Proof.
  intros Hnd. cbv zeta.
  unfold InvoiceByIdRoutes.deleteInvoice, InvoiceByIdRoutes.getInvoice.
  destruct (cast id) as [objectId|] eqn:Ec; [|discriminate].
  destruct (find _ db) as [d|] eqn:Ef; [|discriminate]. intros _.
  cbn [fst snd]. rewrite (find_removeFirst_same objectId db Hnd).
  repeat split.
  intros other Hne. destruct (cast other) as [o|]; [|done].
  rewrite find_removeFirst_other; [done | congruence].
Qed.

Lemma getInvoice_after_delete_witness :
  let db' := (InvoiceByIdRoutes.deleteInvoice Some (js "id-7") Double.fifteen).2 in
  InvoiceByIdRoutes.getInvoice Some (js "id-7") db'
  = InvoiceByIdRoutes.mkResponse 404 InvoiceByIdRoutes.NotFound
  /\ (forall other, Some other <> Some (js "id-7") ->
        InvoiceByIdRoutes.getInvoice Some other db'
        = InvoiceByIdRoutes.getInvoice Some other Double.fifteen)
  /\ InvoiceByIdRoutes.deleteInvoice Some (js "id-7") db'
     = (InvoiceByIdRoutes.mkResponse 404 InvoiceByIdRoutes.NotFound, db').
Proof.
  apply (getInvoice_after_delete Some (js "id-7") Double.fifteen).
  - refine (bool_decide_unpack (NoDup (Invoice.id <$> Double.fifteen)) _).
    vm_compute. exact I.
  - vm_compute. reflexivity.
Defined.

(** ** Code fences around a reply *)

Lemma removeAll_go_nil (lit : jsstring) (fuel : nat) : removeAll_go lit fuel [] = [].
Proof. by destruct fuel. Qed.

(** Text without a backquote passes through [removeAll] of a fence. *)
Lemma removeAll_go_pass (lit' : jsstring) (fuel : nat) (body rest : jsstring) :
  96%N ∉ body ->
  removeAll_go (96%N :: lit') (length body + fuel) (body ++ rest)
  = body ++ removeAll_go (96%N :: lit') fuel rest.
Proof.
  induction body as [|c body IH]; [done|]. intros Hn.
  apply not_elem_of_cons in Hn as [Hc Hn].
  cbn [length Nat.add app removeAll_go startsWith].
  assert ((96 =? c)%N = false) as -> by (by apply N.eqb_neq).
  cbn [andb]. by rewrite IH.
Qed.

Lemma removeAll_go_absent (lit : jsstring) (fuel : nat) (s : jsstring) :
  includes s lit = false -> removeAll_go lit fuel s = s.
Proof.
  revert s. induction fuel as [|fuel IH]; intros s H; [done|].
  destruct s as [|c s]; [done|]. cbn [removeAll_go].
  cbn [includes] in H. apply orb_false_iff in H as [-> H]. by rewrite IH.
Qed.

Lemma blank_no_backquote (ws : jsstring) : blank ws -> 96%N ∉ ws.
Proof.
  intros Hb Hin. unfold blank in Hb. rewrite Forall_forall in Hb.
  apply Hb in Hin. vm_compute in Hin. discriminate.
Qed.

Lemma trimStart_blank (ws s : jsstring) : blank ws -> trimStart (ws ++ s) = trimStart s.
Proof.
  induction 1 as [|c ws Hc Hws IH]; [done|]. cbn [app trimStart]. by rewrite Hc.
Qed.

Lemma trimStart_all_blank (ws : jsstring) : blank ws -> trimStart ws = [].
Proof. intros H. rewrite <- (app_nil_r ws). by rewrite trimStart_blank. Qed.

Lemma trimEnd_blank (s ws : jsstring) : blank ws -> trimEnd (s ++ ws) = trimEnd s.
Proof.
  intros H. unfold trimEnd. rewrite rev_app_distr, trimStart_blank; [done|].
  unfold blank in *. apply Forall_forall. intros c Hc. rewrite Forall_forall in H.
  apply H. apply list_elem_of_In. apply list_elem_of_In in Hc. by apply in_rev.
Qed.

Lemma trimEnd_length (s : jsstring) : (length (trimEnd s) <= length s)%nat.
Proof.
  unfold trimEnd. rewrite length_rev. pose proof (trimStart_length (rev s)).
  by rewrite length_rev in *.
Qed.

(** A trimmed text is left alone by each half of [trim]. *)
Lemma trim_fixed (s : jsstring) : trim s = s -> trimStart s = s /\ trimEnd s = s.
Proof.
  unfold trim. intros H.
  destruct (trimStart_suffix s) as [ws Hws].
  pose proof (trimEnd_length (trimStart s)) as H1.
  rewrite H in H1.
  assert (ws = []) as ->.
  { apply (f_equal length) in Hws. rewrite length_app in Hws.
    destruct ws; [done | cbn [length] in Hws; lia]. }
  cbn [app] in Hws. rewrite <- Hws in H. by rewrite <- Hws.
Qed.

Lemma not_occursIn_by_char (c : N) (p s : jsstring) :
  c ∈ p -> c ∉ s -> includes s p = false.
Proof.
  intros Hp Hs. apply includes_false. intros (pre & post & ->).
  apply Hs. rewrite !elem_of_app. auto.
Qed.

Lemma stripFences_plain (body : jsstring) :
  96%N ∉ body -> trim body = body -> AIService.stripFences body = body.
Proof.
  intros Hq Ht. unfold AIService.stripFences, removeAll.
  rewrite (removeAll_go_absent (js "```json") _ body);
    [|apply (not_occursIn_by_char 96%N); [|done]; vm_compute; apply elem_of_cons; by left].
  rewrite (removeAll_go_absent (js "```") _ body);
    [|apply (not_occursIn_by_char 96%N); [|done]; vm_compute; apply elem_of_cons; by left].
  done.
Qed.

Lemma stripFences_fenced (ws1 body ws2 ws3 : jsstring) :
  blank ws1 -> blank ws2 -> blank ws3 ->
  96%N ∉ body -> trim body = body ->
  AIService.stripFences (fenced ws1 body ws2 ws3) = body.
Proof.
  intros H1 H2 H3 Hq Ht. destruct (trim_fixed body Ht) as [Hts Hte].
  (* what the first pass leaves, up to the closing fence *)
  assert (exists B, (96%N ∉ B) /\ trim B = body
                    /\ trimStart (ws1 ++ body ++ ws2 ++ js "```" ++ ws3)
                       = B ++ js "```" ++ ws3) as (B & HqB & HtB & HB).
  { rewrite trimStart_blank by done. destruct body as [|c body].
    - exists []. split; [apply not_elem_of_nil|]. split; [done|].
      cbn [app]. rewrite trimStart_blank by done. reflexivity.
    - exists ((c :: body) ++ ws2). split.
      + rewrite elem_of_app. intros [H|H]; [done | by apply blank_no_backquote in H].
      + split.
        * unfold trim. cbn [app trimStart] in Hts |- *.
          destruct (is_space c) eqn:Ec.
          { exfalso. pose proof (trimStart_length body) as Hl.
            apply (f_equal length) in Hts. cbn [length] in Hts. lia. }
          change (c :: body ++ ws2) with ((c :: body) ++ ws2).
          by rewrite trimEnd_blank.
        * rewrite <- app_assoc. cbn [app trimStart] in Hts |- *.
          destruct (is_space c) eqn:Ec; [|done].
          exfalso. pose proof (trimStart_length body) as Hl.
          apply (f_equal length) in Hts. cbn [length] in Hts. lia. }
  unfold AIService.stripFences.
  assert (removeAll (js "```json") (fenced ws1 body ws2 ws3) = B ++ js "```" ++ ws3) as ->.
  { unfold removeAll, fenced.
    change (js "```json") with (96%N :: js "``json") at 2 3.
    cbn [app length removeAll_go].
    assert (startsWith (96%N :: js "``json" ++ ws1 ++ body ++ ws2 ++ js "```" ++ ws3)
              (js "```json") = true) as ->.
    { apply startsWith_true. by eexists. }
    change (drop (length (js "```json"))
              (96%N :: js "``json" ++ ws1 ++ body ++ ws2 ++ js "```" ++ ws3))
      with (ws1 ++ body ++ ws2 ++ js "```" ++ ws3).
    rewrite HB.
    rewrite (removeAll_go_enough (js "```json") _
               (length B + length (js "```" ++ ws3)) (B ++ js "```" ++ ws3));
      [| done | | by rewrite length_app].
    - change (js "```json") with (96%N :: js "``json").
      rewrite removeAll_go_pass by done. f_equal.
      apply removeAll_go_absent. apply (not_occursIn_by_char 106%N).
      + vm_compute. do 3 (apply elem_of_cons; right). apply elem_of_cons. by left.
      + rewrite elem_of_app. intros [H|H].
        * vm_compute in H. by repeat (apply elem_of_cons in H as [H|H]; [discriminate|]);
            apply elem_of_nil in H.
        * unfold blank in H3. rewrite Forall_forall in H3. apply H3 in H.
          vm_compute in H. discriminate.
    - rewrite <- HB. etrans; [apply trimStart_length|].
      rewrite !length_app. cbn [length]. lia. }
  assert (removeAll (js "```") (B ++ js "```" ++ ws3) = B) as ->; [|exact HtB].
  unfold removeAll. rewrite length_app.
  change (js "```") with (96%N :: js "``") at 1 3.
  rewrite removeAll_go_pass by done.
  change (96%N :: js "``") with (js "```").
  change (js "```" ++ ws3) with (96%N :: js "``" ++ ws3).
  cbn [length removeAll_go].
  assert (startsWith (96%N :: js "``" ++ ws3) (js "```") = true) as ->.
  { apply startsWith_true. by eexists. }
  change (drop (length (js "```")) (96%N :: js "``" ++ ws3)) with ws3.
  rewrite trimStart_all_blank by done. rewrite removeAll_go_nil. apply app_nil_r.
Qed.

(** X23: a reply in a [json] code fence is treated as the bare reply:
    when the body holds no backquote and has no white space at its ends,
    the fenced text, with any white space around the body and after the
    closing fence, is cleaned and validated exactly as the body alone. *)
Theorem fenced_reply_as_bare
  (rt : Runtime.t) (ws1 body ws2 ws3 : jsstring) :
  blank ws1 -> blank ws2 -> blank ws3 ->
  96%N ∉ body -> trim body = body ->
  AIService.stripFences (fenced ws1 body ws2 ws3) = body
  /\ AIService.stripFences body = body
  /\ AIService.cleanJsonResponse rt (fenced ws1 body ws2 ws3)
     = AIService.cleanJsonResponse rt body
  /\ AIService.validateResponse rt (fenced ws1 body ws2 ws3)
     = AIService.validateResponse rt body.
Proof.
  intros H1 H2 H3 Hq Ht.
  pose proof (stripFences_fenced ws1 body ws2 ws3 H1 H2 H3 Hq Ht) as Hf.
  pose proof (stripFences_plain body Hq Ht) as Hp.
  assert (AIService.cleanJsonResponse rt (fenced ws1 body ws2 ws3)
          = AIService.cleanJsonResponse rt body) as Hc.
  { unfold AIService.cleanJsonResponse. by rewrite Hf, Hp. }
  repeat split; try done.
  unfold AIService.validateResponse. by rewrite Hc.
Qed.

Lemma fenced_reply_as_bare_witness :
  AIService.stripFences (fenced LF (Double.replyText "") LF []) = Double.replyText ""
  /\ AIService.stripFences (Double.replyText "") = Double.replyText ""
  /\ AIService.cleanJsonResponse Double.twoReplies (fenced LF (Double.replyText "") LF [])
     = AIService.cleanJsonResponse Double.twoReplies (Double.replyText "")
  /\ AIService.validateResponse Double.twoReplies (fenced LF (Double.replyText "") LF [])
     = AIService.validateResponse Double.twoReplies (Double.replyText "").
Proof.
  apply (fenced_reply_as_bare Double.twoReplies LF (Double.replyText "") LF []).
  - repeat constructor.
  - repeat constructor.
  - constructor.
  - apply (bool_decide_unpack _). vm_compute. exact I.
  - vm_compute. reflexivity.
Defined.

(** ** A request without a file address *)

(** X24: with the upload service that stores in Vercel Blob, whose
    [getFilePath] always throws, a valid extract request without
    [fileUrl], or with an empty one, is answered 500 with the message that
    no file address was given, and the model is not called. *)
Theorem extract_route_without_url
  (rt : Runtime.t) (readFile : jsstring -> option (list N)) (reqBody : json)
  (w : World.t) (req : ExtractRequest.t) :
  (forall fileId,
     Runtime.readLocalFile rt fileId
     = readLocalFileVia UploadService.getFilePath readFile fileId) ->
  ExtractRequestSchema.parse reqBody = Zod.Success req ->
  ExtractRequest.fileUrl req = None \/ ExtractRequest.fileUrl req = Some [] ->
  ExtractRoute.post rt reqBody w
  = (ExtractRoute.mkResponse 500
       (ExtractRoute.ExtractionFailed
          (js "No file URL provided and local file not found. Please upload the file first.")),
     w).
Proof.
  intros Hrd Hp Hu. unfold ExtractRoute.post, ExtractRoute.tryExtract. rewrite Hp.
  assert (ExtractRoute.loadPdf rt req
          = Threw (Err (Error.mk (js "Error")
              (js "No file URL provided and local file not found. Please upload the file first."))))
    as ->.
  { unfold ExtractRoute.loadPdf. rewrite Hrd. by destruct Hu as [-> | ->]. }
  reflexivity.
Qed.

Lemma extract_route_without_url_witness :
  ExtractRoute.post Double.twoReplies extractBodyNoUrl World.initial
  = (ExtractRoute.mkResponse 500
       (ExtractRoute.ExtractionFailed
          (js "No file URL provided and local file not found. Please upload the file first.")),
     World.initial).
Proof.
  apply (extract_route_without_url Double.twoReplies (fun _ => None) extractBodyNoUrl
           World.initial (ExtractRequest.mk (js "f-1") (js "gemini") None)).
  - reflexivity.
  - vm_compute. reflexivity.
  - by left.
Defined.

(** ** The prompt *)

(** X25: the prompt holds the text of the document whole, between the
    same opening and closing words for every document, so two documents
    get the same prompt only if their texts are the same. *)
Theorem createExtractionPrompt_embeds_text (pdfText other : jsstring) :
  occursIn pdfText (AIService.createExtractionPrompt pdfText)
  /\ (exists head tail,
        head <> [] /\ tail <> []
        /\ forall text, AIService.createExtractionPrompt text = head ++ text ++ tail)
  /\ (AIService.createExtractionPrompt pdfText = AIService.createExtractionPrompt other ->
      pdfText = other).
Proof.
  split; [|split].
  - by exists AIService.prompt_head, AIService.prompt_tail.
  - exists AIService.prompt_head, AIService.prompt_tail.
    split; [intros H; vm_compute in H; discriminate|].
    split; [intros H; apply (f_equal length) in H; vm_compute in H; discriminate | done].
  - unfold AIService.createExtractionPrompt. intros H.
    apply app_inv_head in H. by apply app_inv_tail in H.
Qed.
